(** * james-reviews: the pull-request review pipeline of [src/app.py]

    A shallow embedding of the script: the five LangGraph nodes
    ([gather_pr_info], [contextualize_info], [extract_features],
    [create_expert_checklist], [final_review]), the graph that chains them,
    and the module-level code that validates the environment, invokes the
    graph and writes [result.json] and [final_report.md].

    Python values are modelled dynamically ([pyval]); dictionaries keep
    their insertion order; exceptions are an error monad over an explicit
    world (network log, generation log, standard output, file system).
    The external collaborators (GitHub over [requests], libmagic, the
    OpenAI client, [json.dumps], [repr], the process environment) are the
    fields of an [Env] record: every theorem quantifies over them. *)

From Stdlib Require Import ZArith QArith Ascii String List Bool Lia.
From stdpp Require Import base tactics option list strings.

Local Open Scope nat_scope.
Local Open Scope list_scope.
Set Warnings "-register-all".
#[local] Arguments String.append _ _ : simpl nomatch.

(** ** Python [str] operations

    A Python [str] is represented by the bytes of its UTF-8 encoding, held
    in a Rocq [string].  Every operation the script uses ([split],
    [rstrip], [endswith], [in], [strip], [+]) acts on whole code points, and
    UTF-8 is self-synchronising, so the byte-level definitions below agree
    with the code-point-level ones of Python. *)
Module PyStr.

Definition slash : ascii := "/"%char.

(** [s.rstrip(c)] for a one-character argument: drop every trailing [c]. *)
Fixpoint rstrip_char (c : ascii) (s : string) : string :=
  match s with
  | EmptyString => EmptyString
  | String a r =>
      match rstrip_char c r with
      | EmptyString => if Ascii.eqb a c then EmptyString else String a EmptyString
      | r' => String a r'
      end
  end.

(** [s.split(sep)] for a one-character separator: [k] occurrences of the
    separator give [k + 1] segments, empty ones included. *)
Fixpoint split_char (sep : ascii) (s : string) : list string :=
  match s with
  | EmptyString => [EmptyString]
  | String a r =>
      if Ascii.eqb a sep then EmptyString :: split_char sep r
      else match split_char sep r with
           | [] => [String a EmptyString]
           | h :: t => String a h :: t
           end
  end.

(** [sep.join(l)]. *)
Fixpoint join (sep : string) (l : list string) : string :=
  match l with
  | [] => EmptyString
  | [x] => x
  | x :: r => x +:+ sep +:+ join sep r
  end.

(** [s.startswith(p)]. *)
Fixpoint startswith (p s : string) : bool :=
  match p, s with
  | EmptyString, _ => true
  | String _ _, EmptyString => false
  | String a p', String b s' => Ascii.eqb a b && startswith p' s'
  end.

(** [needle in hay]: substring test. *)
Fixpoint contains (needle hay : string) : bool :=
  if startswith needle hay then true
  else match hay with
       | EmptyString => false
       | String _ r => contains needle r
       end.

(** [s.endswith(suffix)]. *)
Fixpoint endswith (suffix s : string) : bool :=
  if String.eqb s suffix then true
  else match s with
       | EmptyString => false
       | String _ r => endswith suffix r
       end.

Fixpoint occurs (c : ascii) (s : string) : bool :=
  match s with
  | EmptyString => false
  | String a r => Ascii.eqb a c || occurs c r
  end.

Fixpoint rev_onto (s acc : string) : string :=
  match s with
  | EmptyString => acc
  | String a r => rev_onto r (String a acc)
  end.

Definition rev (s : string) : string := rev_onto s EmptyString.

Fixpoint repeat_char (c : ascii) (n : nat) : string :=
  match n with
  | 0 => EmptyString
  | S n' => String c (repeat_char c n')
  end.

Fixpoint count_char (c : ascii) (s : string) : nat :=
  match s with
  | EmptyString => 0
  | String a r => (if Ascii.eqb a c then 1 else 0) + count_char c r
  end.

Definition byte_in (lo hi : nat) (c : ascii) : bool :=
  (lo <=? nat_of_ascii c) && (nat_of_ascii c <=? hi).

Definition byte_is (n : nat) (c : ascii) : bool := nat_of_ascii c =? n.

(** The code points for which [str.isspace] holds, by encoded length:
    U+0009..U+000D, U+001C..U+0020; U+0085, U+00A0; U+1680,
    U+2000..U+200A, U+2028, U+2029, U+202F, U+205F, U+3000. *)
Definition space1 (a : ascii) : bool := byte_in 9 13 a || byte_in 28 32 a.

Definition space2 (a b : ascii) : bool :=
  byte_is 194 a && (byte_is 133 b || byte_is 160 b).

Definition space3 (a b c : ascii) : bool :=
  (byte_is 225 a && byte_is 154 b && byte_is 128 c)
  || (byte_is 226 a && byte_is 128 b
      && (byte_in 128 138 c || byte_is 168 c || byte_is 169 c || byte_is 175 c))
  || (byte_is 226 a && byte_is 129 b && byte_is 159 c)
  || (byte_is 227 a && byte_is 128 b && byte_is 128 c).

(** [s.lstrip()]: drop leading white space, one encoded code point at a
    time. *)
Fixpoint lstrip (s : string) : string :=
  match s with
  | EmptyString => EmptyString
  | String a r1 =>
      if space1 a then lstrip r1
      else match r1 with
           | EmptyString => s
           | String b r2 =>
               if space2 a b then lstrip r2
               else match r2 with
                    | EmptyString => s
                    | String c r3 => if space3 a b c then lstrip r3 else s
                    end
           end
  end.

(** The same scan on the reversed string, where each encoded code point
    shows its last byte first. *)
Fixpoint lstrip_rev (s : string) : string :=
  match s with
  | EmptyString => EmptyString
  | String a r1 =>
      if space1 a then lstrip_rev r1
      else match r1 with
           | EmptyString => s
           | String b r2 =>
               if space2 b a then lstrip_rev r2
               else match r2 with
                    | EmptyString => s
                    | String c r3 => if space3 c b a then lstrip_rev r3 else s
                    end
           end
  end.

Definition rstrip (s : string) : string := rev (lstrip_rev (rev s)).

(** [s.strip()]. *)
Definition strip (s : string) : string := rstrip (lstrip s).

(** Strings made of white space only: a sequence of encoded code points
    for which [str.isspace] holds. *)
Inductive Blank : string -> Prop :=
  | Blank_nil : Blank EmptyString
  | Blank_1 a s : space1 a = true -> Blank s -> Blank (String a s)
  | Blank_2 a b s : space2 a b = true -> Blank s -> Blank (String a (String b s))
  | Blank_3 a b c s :
      space3 a b c = true -> Blank s -> Blank (String a (String b (String c s))).

Definition cont (c : ascii) : bool := byte_in 128 191 c.

(** Well-formed UTF-8, as the strict decoder of [bytes.decode('utf-8')]
    accepts it: shortest forms only, no surrogates, nothing above
    U+10FFFF. *)
Fixpoint utf8_valid (s : string) : bool :=
  match s with
  | EmptyString => true
  | String a r1 =>
      if byte_in 0 127 a then utf8_valid r1
      else match r1 with
      | EmptyString => false
      | String b r2 =>
          if byte_in 194 223 a then cont b && utf8_valid r2
          else match r2 with
          | EmptyString => false
          | String c r3 =>
              if byte_in 224 239 a then
                ((byte_is 224 a && byte_in 160 191 b)
                 || (byte_in 225 236 a && cont b)
                 || (byte_is 237 a && byte_in 128 159 b)
                 || (byte_in 238 239 a && cont b))
                && cont c && utf8_valid r3
              else match r3 with
              | EmptyString => false
              | String d r4 =>
                  ((byte_is 240 a && byte_in 144 191 b)
                   || (byte_in 241 243 a && cont b)
                   || (byte_is 244 a && byte_in 128 143 b))
                  && cont c && cont d && utf8_valid r4
              end
          end
      end
  end.

(** The code points of a string, each as a one-character string: a byte
    that is not a continuation byte starts a new one. *)
Fixpoint chars_aux (s : string) : string * list string :=
  match s with
  | EmptyString => (EmptyString, [])
  | String a r =>
      let '(pending, done) := chars_aux r in
      if cont a then (String a pending, done)
      else (EmptyString, String a pending :: done)
  end.

Definition chars (s : string) : list string :=
  match chars_aux s with
  | (EmptyString, done) => done
  | (pending, done) => pending :: done
  end.

End PyStr.

(** ** Python values and insertion-ordered dictionaries *)

(** The values the script handles: what [json.loads] produces, plus the
    dictionaries the script builds itself.  A [dict] keeps its keys in
    insertion order, as Python does. *)
Inductive pyval : Type :=
  | PNone
  | PBool (b : bool)
  | PInt (z : Z)
  | PFloat (q : Q)
  | PStr (s : string)
  | PList (l : list pyval)
  | PDict (d : list (string * pyval)).

Module PyDict.
Section Dict.
Context {V : Type}.

(** [d.get(k)] / [d[k]]. *)
Fixpoint get (k : string) (d : list (string * V)) : option V :=
  match d with
  | [] => None
  | (k', v) :: r => if String.eqb k k' then Some v else get k r
  end.

(** [d[k] = v]: an existing key keeps its position, a new key goes last. *)
Fixpoint set (k : string) (v : V) (d : list (string * V)) : list (string * V) :=
  match d with
  | [] => [(k, v)]
  | (k', v') :: r =>
      if String.eqb k k' then (k, v) :: r else (k', v') :: set k v r
  end.

Definition mem (k : string) (d : list (string * V)) : bool :=
  match get k d with Some _ => true | None => false end.

Definition keys (d : list (string * V)) : list string := map fst d.
End Dict.
End PyDict.

Abbreviation dict := (list (string * pyval)).

(** ** Exceptions *)

Inductive exn_kind : Type :=
  | IndexError
  | KeyError
  | TypeError
  | AttributeError
  | UnicodeDecodeError
  | EnvironmentError
  | InvalidUpdateError
  | GraphRecursionError
  | CollaboratorError.   (* raised inside requests, libmagic or openai *)

(** An exception with the text [str(e)] gives. *)
Record exn : Type := Exn { exn_kind_of : exn_kind; exn_msg : string }.

Inductive outcome (A : Type) : Type :=
  | Raises (e : exn)
  | Returns (a : A).
Arguments Raises {A} e.
Arguments Returns {A} a.

(** ** The world the script acts on *)

(** One [requests.get(url, headers=headers)]. *)
Record NetCall : Type := { nc_url : pyval; nc_headers : list (string * string) }.

(** What [requests.get] hands back: the body, and what [.json()] makes of it. *)
Record Response : Type := { resp_content : string; resp_json : outcome pyval }.

(** One [client.chat.completions.create(...)]. *)
Record ChatRequest : Type := {
  cr_model : string;
  cr_system : string;
  cr_user : string;
  cr_max_tokens : Z;
  cr_temperature : Q
}.

(** Its result: an exception, or a response whose [choices[i].message.content]
    is a string or [None]. *)
Inductive ChatResult : Type :=
  | ChatRaises (e : exn)
  | ChatResponse (choices : list (option string)).

(** Node invocations of the graph runner, kept for the ordering theorems. *)
Inductive NodeEvent : Type :=
  | NodeStart (name : string) (st : dict)
  | NodeEnd (name : string) (update : dict).

Record World : Type := {
  net_log : list NetCall;                       (* GET requests issued, oldest first *)
  gen_log : list (ChatRequest * ChatResult);    (* generation calls and their results *)
  stdout : list string;                         (* one entry per [print] *)
  fs : list (string * string);                  (* files written *)
  node_log : list NodeEvent
}.

Definition empty_world : World :=
  {| net_log := []; gen_log := []; stdout := []; fs := []; node_log := [] |}.

(** What the runner does with a key of a node's update that the state schema
    does not declare.  LangGraph has ignored such keys in some releases and
    rejected an update with no declared key in others; a plain dictionary
    merge would keep them. *)
Inductive UndeclaredKeys : Type := IgnoreUndeclared | KeepUndeclared | RejectUndeclared.

(** The collaborators.  The index given to [http_get] and [chat_create] is
    the number of earlier calls, so an answer may depend on the whole
    history of the run.  [json_dumps] and [py_repr] are total: the script
    only serialises strings and values built from JSON data, on which
    neither raises. *)
Record Env : Type := {
  getenv : string -> option string;
  http_get : nat -> pyval -> list (string * string) -> outcome Response;
  mime_from_buffer : string -> outcome string;
  chat_create : nat -> ChatRequest -> ChatResult;
  json_dumps : option nat -> pyval -> string;   (* [json.dumps(v, indent=...)] *)
  py_repr : pyval -> string;                    (* [repr(v)] *)
  undeclared_keys : UndeclaredKeys
}.

(** ** The error-and-world monad *)

Definition M (A : Type) : Type := World -> outcome A * World.

Definition ret {A} (a : A) : M A := fun w => (Returns a, w).

Definition raise {A} (k : exn_kind) (msg : string) : M A :=
  fun w => (Raises (Exn k msg), w).

Definition bind {A B} (m : M A) (f : A -> M B) : M B :=
  fun w => match m w with
           | (Raises e, w') => (Raises e, w')
           | (Returns a, w') => f a w'
           end.

(** [try: m  except Exception as e: h e]. *)
Definition try_except {A} (m : M A) (h : exn -> M A) : M A :=
  fun w => match m w with
           | (Raises e, w') => h e w'
           | (Returns a, w') => (Returns a, w')
           end.

Definition lift {A} (o : outcome A) : M A := fun w => (o, w).

Notation "x <- c1 ;; c2" := (bind c1 (fun x => c2))
  (at level 100, c1 at next level, right associativity).
Notation "c1 ;;; c2" := (bind c1 (fun _ => c2))
  (at level 100, right associativity).

(** The five ways the script changes the world. *)
Definition log_net (c : NetCall) (w : World) : World :=
  {| net_log := net_log w ++ [c]; gen_log := gen_log w; stdout := stdout w;
     fs := fs w; node_log := node_log w |}.

Definition log_gen (x : ChatRequest * ChatResult) (w : World) : World :=
  {| net_log := net_log w; gen_log := gen_log w ++ [x]; stdout := stdout w;
     fs := fs w; node_log := node_log w |}.

Definition log_out (line : string) (w : World) : World :=
  {| net_log := net_log w; gen_log := gen_log w; stdout := stdout w ++ [line];
     fs := fs w; node_log := node_log w |}.

Definition log_event (ev : NodeEvent) (w : World) : World :=
  {| net_log := net_log w; gen_log := gen_log w; stdout := stdout w;
     fs := fs w; node_log := node_log w ++ [ev] |}.

Definition put_file (filename content : string) (w : World) : World :=
  {| net_log := net_log w; gen_log := gen_log w; stdout := stdout w;
     fs := PyDict.set filename content (fs w); node_log := node_log w |}.

Definition print (line : string) : M unit := fun w => (Returns tt, log_out line w).

Definition log_node (ev : NodeEvent) : M unit := fun w => (Returns tt, log_event ev w).

(** [requests.get(url, headers=headers)]: the call is issued, then it
    raises or returns. *)
Definition requests_get (E : Env) (url : pyval) (headers : list (string * string))
  : M Response :=
  fun w => (http_get E (length (net_log w)) url headers,
            log_net {| nc_url := url; nc_headers := headers |} w).

(** [client.chat.completions.create(...)]. *)
Definition chat_completions_create (E : Env) (req : ChatRequest)
  : M (list (option string)) :=
  fun w =>
    let r := chat_create E (length (gen_log w)) req in
    (match r with ChatRaises e => Raises e | ChatResponse cs => Returns cs end,
     log_gen (req, r) w).

(** ** Dynamic operations of Python *)

(** [l[i]] on a list, negative indices counting from the end. *)
Definition list_index {A} (l : list A) (i : Z) : M A :=
  let n := Z.of_nat (length l) in
  let j := if (i <? 0)%Z then (i + n)%Z else i in
  if ((j <? 0) || (n <=? j))%Z then raise IndexError "list index out of range"
  else match l !! Z.to_nat j with
       | Some x => ret x
       | None => raise IndexError "list index out of range"
       end.

(** [d[k]] on a dictionary of the script's own. *)
Definition getitem (k : string) (d : dict) : M pyval :=
  match PyDict.get k d with
  | Some v => ret v
  | None => raise KeyError k
  end.

(** [v[k]] with a string key on an arbitrary value. *)
Definition py_subscript (v : pyval) (k : string) : M pyval :=
  match v with
  | PDict d => getitem k d
  | PStr _ => raise TypeError "string indices must be integers"
  | PList _ => raise TypeError "list indices must be integers or slices, not str"
  | _ => raise TypeError "object is not subscriptable"
  end.

(** [v.get(k, default)]: only dictionaries have the method. *)
Definition py_get (v : pyval) (k : string) (default : pyval) : M pyval :=
  match v with
  | PDict d => ret (match PyDict.get k d with Some x => x | None => default end)
  | _ => raise AttributeError "object has no attribute 'get'"
  end.

(** [v + s] with a string on the right. *)
Definition py_add_str (v : pyval) (s : string) : M pyval :=
  match v with
  | PStr a => ret (PStr (a +:+ s))
  | _ => raise TypeError "unsupported operand type(s) for +"
  end.

(** [for x in v]: the items the loop visits. *)
Definition py_iter (v : pyval) : M (list pyval) :=
  match v with
  | PList l => ret l
  | PDict d => ret (map (fun kv => PStr (fst kv)) d)
  | PStr s => ret (map PStr (PyStr.chars s))
  | _ => raise TypeError "object is not iterable"
  end.

(** The receiver of a [str] method such as [rstrip] or [endswith]. *)
Definition str_receiver (v : pyval) (method : string) : M string :=
  match v with
  | PStr s => ret s
  | _ => raise AttributeError ("object has no attribute '" +:+ method +:+ "'")
  end.

(** The key of [d[v] = ...].  The script only stores under a value that has
    already answered [endswith], a [str]; lists and dictionaries are
    unhashable, and no other key type occurs in the dictionaries built
    here. *)
Definition dict_key (v : pyval) : M string :=
  match v with
  | PStr s => ret s
  | _ => raise TypeError "unhashable type"
  end.

(** [content.decode('utf-8')]. *)
Definition decode_utf8 (content : string) : M string :=
  if PyStr.utf8_valid content then ret content
  else raise UnicodeDecodeError "'utf-8' codec can't decode byte".

(** A value inside an f-string: a [str] as it is, anything else by its
    [repr]. *)
Definition py_format (E : Env) (v : pyval) : string :=
  match v with
  | PStr s => s
  | _ => py_repr E v
  end.

(** ** The state and the script's globals *)

(** [GITHUB_PERSONAL_ACCESS = os.getenv("GITHUB_PERSONAL_ACCESS")]. *)
Definition GITHUB_PERSONAL_ACCESS (E : Env) : pyval :=
  match getenv E "GITHUB_PERSONAL_ACCESS" with
  | Some s => PStr s
  | None => PNone
  end.

(** The keys of [PRState]. *)
Definition PRState_keys : list string :=
  ["pr_url"; "pr_info"; "context"; "features"; "team_review"; "final_report"].

Definition lines (l : list string) : string :=
  PyStr.join (String (ascii_of_nat 10) EmptyString) l.

Definition placeholder : string := "Error generating context.".

(** [validate_env_vars()]: a variable that is unset or empty is missing. *)
Definition required_vars : list string := ["OPENAI_API_KEY"; "GITHUB_PERSONAL_ACCESS"].

Definition env_missing (E : Env) (var : string) : bool :=
  match getenv E var with
  | None => true
  | Some EmptyString => true
  | Some _ => false
  end.

Definition validate_env_vars (E : Env) : M unit :=
  let missing_vars := List.filter (env_missing E) required_vars in
  match missing_vars with
  | [] => ret tt
  | _ => raise EnvironmentError
           ("Missing required environment variables: " +:+ PyStr.join ", " missing_vars)
  end.

(** ** Stage 1: [gather_pr_info] *)

(** Lines 58-61: owner, repository and number out of [state['pr_url']]. *)
Definition url_segments (url : string) : list string :=
  PyStr.split_char PyStr.slash (PyStr.rstrip_char PyStr.slash url).

Definition extract_reference (state : dict) : M (string * string * string) :=
  pr_url <- getitem "pr_url" state ;;
  url <- str_receiver pr_url "rstrip" ;;
  let url_parts := url_segments url in
  repo_owner <- list_index url_parts (-4) ;;
  repo_name <- list_index url_parts (-3) ;;
  pr_number <- list_index url_parts (-1) ;;
  ret (repo_owner, repo_name, pr_number).

Definition api_url (repo_owner repo_name pr_number : string) : string :=
  "https://api.github.com/repos/" +:+ repo_owner +:+ "/" +:+ repo_name
  +:+ "/pulls/" +:+ pr_number.

Definition request_headers (E : Env) : list (string * string) :=
  [("Accept", "application/vnd.github.v3+json");
   ("Authorization", "token " +:+ py_format E (GITHUB_PERSONAL_ACCESS E))].

(** The test of line 99, [True] meaning the file is skipped.  The suffix
    test is only evaluated when the content type mentions text or json. *)
Definition skip_file (content_type : string) (filename : pyval) : M bool :=
  if negb (PyStr.contains "text" content_type)
     && negb (PyStr.contains "json" content_type)
  then ret true
  else name <- str_receiver filename "endswith" ;;
       ret (PyStr.endswith ".excalidraw" name).

(** The body of the [for file in files_data] loop, lines 87-106. *)
Definition gather_file (E : Env) (headers : list (string * string))
    (file : pyval) (diffs : dict) : M dict :=
  filename <- py_subscript file "filename" ;;
  patch <- py_get file "patch" (PStr EmptyString) ;;
  raw_url <- py_subscript file "raw_url" ;;
  file_content_response <- requests_get E raw_url headers ;;
  let file_content := resp_content file_content_response in
  content_type <- lift (mime_from_buffer E file_content) ;;
  skip <- skip_file content_type filename ;;
  if skip then ret diffs
  else
    text <- decode_utf8 file_content ;;
    name <- dict_key filename ;;
    ret (PyDict.set name (PDict [("patch", patch); ("content", PStr text)]) diffs).

Fixpoint gather_files (E : Env) (headers : list (string * string))
    (files : list pyval) (diffs : dict) : M dict :=
  match files with
  | [] => ret diffs
  | file :: rest =>
      diffs' <- gather_file E headers file diffs ;;
      gather_files E headers rest diffs'
  end.

(** Lines 57-82: the reference, the metadata request and the file listing. *)
Definition fetch_pr_data (E : Env) (state : dict) : M (pyval * pyval) :=
  reference <- extract_reference state ;;
  let '(repo_owner, repo_name, pr_number) := reference in
  let headers := request_headers E in
  response <- requests_get E (PStr (api_url repo_owner repo_name pr_number)) headers ;;
  pr_data <- lift (resp_json response) ;;
  pr_description <- py_get pr_data "body" (PStr EmptyString) ;;
  links <- py_get pr_data "_links" (PDict []) ;;
  self <- py_get links "self" (PDict []) ;;
  href <- py_get self "href" PNone ;;
  files_url <- py_add_str href "/files" ;;
  files_response <- requests_get E files_url headers ;;
  files_data <- lift (resp_json files_response) ;;
  ret (pr_description, files_data).

Definition gather_pr_info (E : Env) (state : dict) : M dict :=
  pr_data <- fetch_pr_data E state ;;
  let '(pr_description, files_data) := pr_data in
  files <- py_iter files_data ;;
  diffs <- gather_files E (request_headers E) files [] ;;
  ret [("pr_info", PDict [("description", pr_description); ("diffs", PDict diffs)])].

(** ** Stages 2-5: the analysis stages *)

(** The [try]/[except] block the four stages share word for word: one
    generation call, [response.choices[0].message.content.strip()], and on
    any exception the log line and the placeholder. *)
Definition generate (E : Env) (req : ChatRequest) : M string :=
  try_except
    (choices <- chat_completions_create E req ;;
     content <- list_index choices 0 ;;
     match content with
     | Some text => ret (PyStr.strip text)
     | None => raise AttributeError "'NoneType' object has no attribute 'strip'"
     end)
    (fun e => print ("An error occurred: " +:+ exn_msg e) ;;; ret placeholder).

Definition reviewer_role : string :=
  "You are an expert software engineer reviewing a pull request.".

Definition checklist_role : string :=
  "You are an expert AI system well versed in software engineer. You are currently reviewing a pull request.".

Definition final_role : string :=
  "You are an AI entity with the goal of reducing suffering in the universe, increasing prosperity in the universe and increasing understanding in the universe.".

Definition chat_request (role prompt : string) (temperature : Q) : ChatRequest :=
  {| cr_model := "gpt-4o"; cr_system := role; cr_user := prompt;
     cr_max_tokens := 4095; cr_temperature := temperature |}.

Definition contextualize_prompt_0 : string :=
  lines [
    "Below is the information extracted from the PR:";
    EmptyString;
    "```json";
    EmptyString ].

Definition contextualize_prompt_1 : string :=
  lines [
    EmptyString;
    "```";
    EmptyString;
    "Based on the data provided, please analyze the following:";
    "1. What could be the possible motivation behind this PR?";
    "2. What specific problem or issue might this PR be trying to solve?";
    "3. How do the changes in the PR relate to the overall codebase? Consider potential impacts on functionality, performance, security, and maintainability.";
    "4. Speculate on the intent of the author. Why might they have made these specific changes? What are the potential benefits or risks?";
    "5. List any questions or concerns that arise from this PR, which might require further clarification from the author or additional review.";
    EmptyString;
    "Please provide a detailed and thoughtful analysis, using all the available information and your expert knowledge." ].

Definition contextualize_prompt (E : Env) (state : dict) : M string :=
  pr_info <- getitem "pr_info" state ;;
  ret (contextualize_prompt_0 +:+ json_dumps E (Some 2) pr_info
       +:+ contextualize_prompt_1).

Definition contextualize_info (E : Env) (state : dict) : M dict :=
  prompt <- contextualize_prompt E state ;;
  reply <- generate E (chat_request reviewer_role prompt (6 # 10)) ;;
  print ("context: " +:+ reply) ;;;
  ret [("context", PStr reply)].

Definition features_prompt_0 : string :=
  lines [
    "Based on the following pull request information and contextual analysis, identify the new features or technical changes introduced by this PR: ";
    EmptyString;
    "PR Information:";
    "```json";
    EmptyString ].

Definition features_prompt_1 : string :=
  lines [
    EmptyString;
    "```";
    EmptyString;
    "Contextual Analysis:";
    "```txt";
    EmptyString ].

Definition features_prompt_2 : string :=
  lines [
    EmptyString;
    "```";
    EmptyString;
    "Please provide a detailed breakdown of the new features, technical changes, and any relevant implications." ].

Definition extract_features_prompt (E : Env) (state : dict) : M string :=
  pr_info <- getitem "pr_info" state ;;
  context <- getitem "context" state ;;
  ret (features_prompt_0 +:+ json_dumps E (Some 2) pr_info
       +:+ features_prompt_1 +:+ py_format E context
       +:+ features_prompt_2).

Definition extract_features (E : Env) (state : dict) : M dict :=
  prompt <- extract_features_prompt E state ;;
  reply <- generate E (chat_request reviewer_role prompt (6 # 10)) ;;
  print ("features: " +:+ reply) ;;;
  ret [("features", PStr reply)].

Definition checklist_prompt_0 : string :=
  lines [
    "You are about to perform an expert-level review of a pull request. Below, you'll find detailed information about the PR, including the extracted context and identified features. You will adopt the mindset of three different expert personas, each focusing on a critical aspect of code quality.";
    EmptyString;
    "PR Information:";
    "```json";
    EmptyString ].

Definition checklist_prompt_1 : string :=
  lines [
    EmptyString;
    "```";
    EmptyString;
    "Contextual Analysis:";
    "```";
    EmptyString ].

Definition checklist_prompt_2 : string :=
  lines [
    EmptyString;
    "```";
    EmptyString;
    "Identified Features:";
    "```";
    EmptyString ].

Definition checklist_prompt_3 : string :=
  lines [
    EmptyString;
    "```";
    EmptyString;
    "Please provide a detailed review from each of the following perspectives:";
    EmptyString;
    "1. **Code Quality Guru**";
    "   - Focus on readability, maintainability, and overall structure. Consider best practices, documentation, and ease of understanding. Identify issues or areas for improvement in code quality and maintainability.";
    EmptyString;
    "2. **Performance Wizard**";
    "   - Focus on performance and efficiency. Consider speed, resource usage, scalability, and identify bottlenecks or inefficiencies. Suggest optimizations if necessary.";
    EmptyString;
    "3. **Security Sentinel**";
    "   - Focus on security and compliance. Consider security vulnerabilities, data handling, and industry standards compliance. Highlight security risks or concerns and suggest improvements.";
    EmptyString;
    "**Review Structure**:";
    "Each persona should provide a detailed, thoughtful review with specific points that a human reviewer might want to double-check or consider further. Each review should include the persona name and a thorough analysis of the PR from their perspective.";
    EmptyString;
    "Code Quality Guru Review:";
    "Name: Code Quality Guru";
    "Review:";
    "[Your analysis here]";
    EmptyString;
    "Performance Wizard Review:";
    "Name: Performance Wizard";
    "Review:";
    "[Your analysis here]";
    EmptyString;
    "Security Sentinel Review:";
    "Name: Security Sentinel";
    "Review:";
    "[Your analysis here]";
    EmptyString;
    "Think deeply about the potential motivations behind the PR, the implications of the changes, and any areas that could be optimized or improved." ].

Definition create_expert_checklist_prompt (E : Env) (state : dict) : M string :=
  pr_info <- getitem "pr_info" state ;;
  context <- getitem "context" state ;;
  features <- getitem "features" state ;;
  ret (checklist_prompt_0 +:+ py_format E pr_info
       +:+ checklist_prompt_1 +:+ py_format E context
       +:+ checklist_prompt_2 +:+ py_format E features
       +:+ checklist_prompt_3).

Definition create_expert_checklist (E : Env) (state : dict) : M dict :=
  prompt <- create_expert_checklist_prompt E state ;;
  reply <- generate E (chat_request checklist_role prompt (6 # 10)) ;;
  print ("team_review: " +:+ reply) ;;;
  ret [("team_review", PStr reply)].

Definition final_prompt_0 : string :=
  lines [
    "You are tasked with performing an expert-level review of a pull request (PR) using information compiled. Below is structured data about the PR, including context, key features, and evaluations from a team of different AI agents.";
    EmptyString;
    "**PR Data:**";
    "```json";
    EmptyString ].

Definition final_prompt_1 : string :=
  lines [
    EmptyString;
    "```";
    EmptyString;
    "**Task:**";
    "Your goal is to create a focused and highly actionable PR review. The review should prioritize specific, targeted feedback that directly addresses key pain points in the code, offering immediate suggestions for improvement. Each comment should be quoting a specific line or section of the code, aiming for clarity and impact.";
    EmptyString;
    "**Guidelines for the Review:**";
    EmptyString;
    "1. **Contextual Summary:**";
    "   - Briefly summarize the purpose of the PR, including the assumptions made on its context, the problem it seems to address, and the key changes introduced.";
    EmptyString;
    "2. **Key Changes Overview:**";
    "   - List the primary changes made in the PR, providing a clear, high-level but thorough understanding of the modifications.";
    EmptyString;
    "3. **Focused, Actionable Comments:**";
    "   - Provide a series of specific, actionable comments that address identified issues or areas for improvement in the code.";
    "   - Each comment should:";
    "     - Reference a specific line or section of the code.";
    "     - Clearly explain the issue or potential improvement.";
    "     - Offer a concrete suggestion or solution that can be implemented immediately.";
    EmptyString;
    "4. **General Cautions (Optional):**";
    "   - If applicable, include a section for general cautions or remarks that don’t fit into the specific comments but are important for future consideration. These should still be concise and actionable where possible.";
    EmptyString;
    "5. **Approval Recommendation:**";
    "   - Conclude with a clear recommendation:";
    "     - [ ] Request Changes: Significant issues need to be addressed.";
    "     - [ ] Approve with Comments: Minor changes or clarifications are recommended.";
    "     - [ ] Approve: The PR is ready for merge.";
    EmptyString;
    "**Formatting Template:**";
    EmptyString;
    "```";
    "**PR Review Summary**";
    EmptyString;
    "**Title:** [Concise PR title]";
    EmptyString;
    "**Context:**";
    "- [Brief summary of the PR’s purpose and context]";
    EmptyString;
    "**Key Changes:**";
    "- [List of key changes made in the PR]";
    EmptyString;
    "**Specific Comments:**";
    "[Detailed, actionable comment on a specific issue]";
    "```";
    "code X";
    "```";
    EmptyString;
    "[Detailed, actionable comment on a specific issue]";
    "```";
    "code Y";
    "```";
    EmptyString;
    "...";
    EmptyString;
    "**General Cautions:**";
    "- [Optional section for general remarks or cautions]";
    EmptyString;
    "**Approval Recommendation:**";
    "- [Choose one: Request Changes / Approve with Comments / Approve]";
    "```" ].

Definition final_review_prompt (E : Env) (state : dict) : M string :=
  ret (final_prompt_0 +:+ py_format E (PDict state) +:+ final_prompt_1).

(** The key of the returned update is written with a space, as on line 223. *)
Definition final_review (E : Env) (state : dict) : M dict :=
  prompt <- final_review_prompt E state ;;
  reply <- generate E (chat_request final_role prompt (7 # 10)) ;;
  print ("final report: " +:+ reply) ;;;
  ret [("final report", PStr reply)].

(** ** The graph and its runner *)

Definition END : string := "__end__".

(** A [StateGraph]: the channels of the state schema, the nodes, the edges
    and the entry point, in the order the script adds them. *)
Record StateGraph : Type := {
  sg_channels : list string;
  sg_nodes : list (string * (dict -> M dict));
  sg_edges : list (string * string);
  sg_entry : option string
}.

Definition new_graph (channels : list string) : StateGraph :=
  {| sg_channels := channels; sg_nodes := []; sg_edges := []; sg_entry := None |}.

Definition add_node (name : string) (fn : dict -> M dict) (g : StateGraph) : StateGraph :=
  {| sg_channels := sg_channels g; sg_nodes := sg_nodes g ++ [(name, fn)];
     sg_edges := sg_edges g; sg_entry := sg_entry g |}.

Definition add_edge (src dst : string) (g : StateGraph) : StateGraph :=
  {| sg_channels := sg_channels g; sg_nodes := sg_nodes g;
     sg_edges := sg_edges g ++ [(src, dst)]; sg_entry := sg_entry g |}.

Definition set_entry_point (name : string) (g : StateGraph) : StateGraph :=
  {| sg_channels := sg_channels g; sg_nodes := sg_nodes g;
     sg_edges := sg_edges g; sg_entry := Some name |}.

(** Lines 227-245. *)
Definition workflow (E : Env) : StateGraph :=
  let g := new_graph PRState_keys in
  let g := add_node "gather_pr_info" (gather_pr_info E) g in
  let g := add_node "contextualize_info" (contextualize_info E) g in
  let g := add_node "extract_features" (extract_features E) g in
  let g := add_node "create_expert_checklist" (create_expert_checklist E) g in
  let g := add_node "final_review" (final_review E) g in
  let g := set_entry_point "gather_pr_info" g in
  let g := add_edge "gather_pr_info" "contextualize_info" g in
  let g := add_edge "contextualize_info" "extract_features" g in
  let g := add_edge "extract_features" "create_expert_checklist" g in
  let g := add_edge "create_expert_checklist" "final_review" g in
  let g := add_edge "final_review" END g in
  g.

Definition declared (channels : list string) (k : string) : bool :=
  existsb (String.eqb k) channels.

(** The writes of one update, key by key. *)
Fixpoint write_update (keep_undeclared : bool) (channels : list string)
    (update st : dict) : dict :=
  match update with
  | [] => st
  | (k, v) :: rest =>
      write_update keep_undeclared channels rest
        (if declared channels k || keep_undeclared then PyDict.set k v st else st)
  end.

(** Merging a node's update into the state, under each treatment of
    undeclared keys. *)
Definition apply_update (policy : UndeclaredKeys) (channels : list string)
    (update st : dict) : M dict :=
  match policy with
  | IgnoreUndeclared => ret (write_update false channels update st)
  | KeepUndeclared => ret (write_update true channels update st)
  | RejectUndeclared =>
      if forallb (fun kv => negb (declared channels (fst kv))) update
      then raise InvalidUpdateError "Expected node to update at least one of the state keys"
      else ret (write_update false channels update st)
  end.

Fixpoint apply_updates (policy : UndeclaredKeys) (channels : list string)
    (updates : list dict) (st : dict) : M dict :=
  match updates with
  | [] => ret st
  | u :: rest =>
      st' <- apply_update policy channels u st ;;
      apply_updates policy channels rest st'
  end.

Fixpoint has_duplicate (l : list string) : bool :=
  match l with
  | [] => false
  | k :: rest => existsb (String.eqb k) rest || has_duplicate rest
  end.

Fixpoint dedupe (l : list string) : list string :=
  match l with
  | [] => []
  | k :: rest => if existsb (String.eqb k) rest then dedupe rest else k :: dedupe rest
  end.

(** One superstep: every active node runs on the same snapshot of the
    state. *)
Fixpoint run_nodes (g : StateGraph) (active : list string) (st : dict)
  : M (list dict) :=
  match active with
  | [] => ret []
  | name :: rest =>
      match PyDict.get name (sg_nodes g) with
      | None => raise KeyError name
      | Some fn =>
          log_node (NodeStart name st) ;;;
          update <- fn st ;;
          log_node (NodeEnd name update) ;;;
          updates <- run_nodes g rest st ;;
          ret (update :: updates)
      end
  end.

Definition successors (g : StateGraph) (name : string) : list string :=
  map snd (List.filter (fun e => String.eqb (fst e) name) (sg_edges g)).

Definition next_active (g : StateGraph) (active : list string) : list string :=
  dedupe (List.filter (fun n => negb (String.eqb n END)) (flat_map (successors g) active)).

(** Supersteps until no node is active; a channel takes at most one write
    per step. *)
Fixpoint run_steps (policy : UndeclaredKeys) (limit : nat) (g : StateGraph)
    (active : list string) (st : dict) : M dict :=
  match active with
  | [] => ret st
  | _ =>
      match limit with
      | 0 => raise GraphRecursionError "Recursion limit reached"
      | S limit' =>
          updates <- run_nodes g active st ;;
          if has_duplicate
               (List.filter (declared (sg_channels g))
                       (flat_map PyDict.keys updates))
          then raise InvalidUpdateError "Can receive only one value per step"
          else
            st' <- apply_updates policy (sg_channels g) updates st ;;
            run_steps policy limit' g (next_active g active) st'
      end
  end.

Definition recursion_limit : nat := 25.

(** [workflow.compile().invoke(input)]. *)
Definition invoke (policy : UndeclaredKeys) (g : StateGraph) (input : dict) : M dict :=
  match sg_entry g with
  | None => raise KeyError "entry point"
  | Some entry => run_steps policy recursion_limit g [entry] input
  end.

Definition app_invoke (E : Env) (input : dict) : M dict :=
  invoke (undeclared_keys E) (workflow E) input.

(** ** The module-level script *)

(** Lines 248-255, for an arbitrary reference. *)
Definition initial_state (pr_url : string) : dict :=
  [("pr_url", PStr pr_url);
   ("pr_info", PStr EmptyString);
   ("context", PStr EmptyString);
   ("features", PStr EmptyString);
   ("team_review", PStr EmptyString);
   ("final_report", PStr EmptyString)].

Definition set_file (filename content : string) : M unit :=
  fun w => (Returns tt, put_file filename content w).

(** [write_file(content, filename)]: [open(filename, 'w')] truncates, then
    [file.write] accepts a [str] only.  The file system is taken to accept
    the write. *)
Definition write_file (content : pyval) (filename : string) : M unit :=
  set_file filename EmptyString ;;;
  match content with
  | PStr s => set_file filename s
  | _ => raise TypeError "write() argument must be str"
  end.

(** The script from line 28 on. *)
Definition main (E : Env) (pr_url : string) : M unit :=
  validate_env_vars E ;;;
  result <- app_invoke E (initial_state pr_url) ;;
  write_file (PStr (json_dumps E None (PDict result))) "result.json" ;;;
  final_report <- getitem "final_report" result ;;
  write_file final_report "final_report.md".

(** ** Vocabulary of the theorems *)

(** The stages, the node functions behind them, and the field of [PRState]
    each one is meant to fill. *)
Inductive Stage : Type :=
  Gather | Contextualize | ExtractFeatures | ExpertChecklist | FinalReview.

Definition analysis_stages : list Stage :=
  [Contextualize; ExtractFeatures; ExpertChecklist; FinalReview].

Definition stage_name (s : Stage) : string :=
  match s with
  | Gather => "gather_pr_info"
  | Contextualize => "contextualize_info"
  | ExtractFeatures => "extract_features"
  | ExpertChecklist => "create_expert_checklist"
  | FinalReview => "final_review"
  end.

Definition stage_fn (E : Env) (s : Stage) : dict -> M dict :=
  match s with
  | Gather => gather_pr_info E
  | Contextualize => contextualize_info E
  | ExtractFeatures => extract_features E
  | ExpertChecklist => create_expert_checklist E
  | FinalReview => final_review E
  end.

Definition output_field (s : Stage) : string :=
  match s with
  | Gather => "pr_info"
  | Contextualize => "context"
  | ExtractFeatures => "features"
  | ExpertChecklist => "team_review"
  | FinalReview => "final_report"
  end.

(** The fields of the state a stage reads to build its request.  The final
    stage formats the whole state; the fields listed for it are those an
    earlier stage produces. *)
Definition stage_inputs (s : Stage) : list string :=
  match s with
  | Gather => ["pr_url"]
  | Contextualize => ["pr_info"]
  | ExtractFeatures => ["pr_info"; "context"]
  | ExpertChecklist => ["pr_info"; "context"; "features"]
  | FinalReview => ["pr_info"; "context"; "features"; "team_review"]
  end.

(** Only the network log grows. *)
Definition with_net (calls : list NetCall) (w : World) : World :=
  {| net_log := net_log w ++ calls; gen_log := gen_log w; stdout := stdout w;
     fs := fs w; node_log := node_log w |}.

(** What one iteration of the gather loop learns about a listed file when
    its raw content is the answer to call number [k]. *)
Record Fetched : Type := {
  f_name : pyval;
  f_patch : pyval;
  f_content : string;
  f_type : string
}.

Definition entry_name (file : pyval) : option pyval :=
  match file with
  | PDict d => PyDict.get "filename" d
  | _ => None
  end.

Definition raw_url_of (file : pyval) : pyval :=
  match file with
  | PDict d => match PyDict.get "raw_url" d with Some u => u | None => PNone end
  | _ => PNone
  end.

Definition raw_call (headers : list (string * string)) (file : pyval) : NetCall :=
  {| nc_url := raw_url_of file; nc_headers := headers |}.

Definition fetch_fact (E : Env) (k : nat) (headers : list (string * string))
    (file : pyval) : option Fetched :=
  match file with
  | PDict d =>
      match PyDict.get "filename" d, PyDict.get "raw_url" d with
      | Some name, Some raw_url =>
          match http_get E k raw_url headers with
          | Returns resp =>
              match mime_from_buffer E (resp_content resp) with
              | Returns ct =>
                  Some {| f_name := name;
                          f_patch := match PyDict.get "patch" d with
                                     | Some p => p
                                     | None => PStr EmptyString
                                     end;
                          f_content := resp_content resp;
                          f_type := ct |}
              | Raises _ => None
              end
          | Raises _ => None
          end
      | _, _ => None
      end
  | _ => None
  end.

Fixpoint fetch_facts (E : Env) (k : nat) (headers : list (string * string))
    (files : list pyval) : option (list Fetched) :=
  match files with
  | [] => Some []
  | file :: rest =>
      match fetch_fact E k headers file, fetch_facts E (S k) headers rest with
      | Some f, Some fs => Some (f :: fs)
      | _, _ => None
      end
  end.

Definition accepted_type (content_type : string) : bool :=
  PyStr.contains "text" content_type || PyStr.contains "json" content_type.

Definition kept (f : Fetched) : bool :=
  accepted_type (f_type f)
  && match f_name f with
     | PStr name => negb (PyStr.endswith ".excalidraw" name)
     | _ => false
     end.

Definition diff_entry (f : Fetched) : pyval :=
  PDict [("patch", f_patch f); ("content", PStr (f_content f))].

(** The effect of one completed iteration on [diffs]. *)
Definition store (diffs : dict) (f : Fetched) : dict :=
  match f_name f with
  | PStr name => if kept f then PyDict.set name (diff_entry f) diffs else diffs
  | _ => diffs
  end.

(** The file named [filename] is a key of [diffs]. *)
Definition included (filename : pyval) (diffs : dict) : Prop :=
  exists name, filename = PStr name /\ is_Some (PyDict.get name diffs).

(** The content type mentions text or json, and the name does not end in
    the drawing-file suffix. *)
Definition accepted (content_type : string) (filename : pyval) : Prop :=
  (PyStr.contains "text" content_type = true \/ PyStr.contains "json" content_type = true)
  /\ ~ (exists name, filename = PStr name /\ PyStr.endswith ".excalidraw" name = true).

Definition metadata_call (E : Env) (reference : string * string * string) : NetCall :=
  let '(repo_owner, repo_name, pr_number) := reference in
  {| nc_url := PStr (api_url repo_owner repo_name pr_number);
     nc_headers := request_headers E |}.

(** The text [str(e)] of the exception that ends the [try] block of an
    analysis stage, if one does. *)
Definition failure_of (r : ChatResult) : option string :=
  match r with
  | ChatRaises e => Some (exn_msg e)
  | ChatResponse [] => Some "list index out of range"
  | ChatResponse (None :: _) => Some "'NoneType' object has no attribute 'strip'"
  | ChatResponse (Some _ :: _) => None
  end.

(** The reply an analysis stage ends with. *)
Definition reply_of (r : ChatResult) : string :=
  match r with
  | ChatResponse (Some text :: _) => PyStr.strip text
  | _ => placeholder
  end.

Definition after_generate (req : ChatRequest) (r : ChatResult) (w : World) : World :=
  match failure_of r with
  | Some msg => log_out ("An error occurred: " +:+ msg) (log_gen (req, r) w)
  | None => log_gen (req, r) w
  end.

(** The one shape of the four analysis stages: prompt, role, temperature,
    the label of the closing [print] and the key of the returned update. *)
Record Analysis : Type := {
  an_prompt : Env -> dict -> M string;
  an_role : string;
  an_temperature : Q;
  an_label : string;
  an_key : string
}.

Definition analysis_of (s : Stage) : option Analysis :=
  match s with
  | Gather => None
  | Contextualize =>
      Some {| an_prompt := contextualize_prompt; an_role := reviewer_role;
              an_temperature := 6 # 10; an_label := "context: "; an_key := "context" |}
  | ExtractFeatures =>
      Some {| an_prompt := extract_features_prompt; an_role := reviewer_role;
              an_temperature := 6 # 10; an_label := "features: "; an_key := "features" |}
  | ExpertChecklist =>
      Some {| an_prompt := create_expert_checklist_prompt; an_role := checklist_role;
              an_temperature := 6 # 10; an_label := "team_review: ";
              an_key := "team_review" |}
  | FinalReview =>
      Some {| an_prompt := final_review_prompt; an_role := final_role;
              an_temperature := 7 # 10; an_label := "final report: ";
              an_key := "final report" |}
  end.

Definition run_analysis (E : Env) (a : Analysis) (state : dict) : M dict :=
  prompt <- an_prompt a E state ;;
  reply <- generate E (chat_request (an_role a) prompt (an_temperature a)) ;;
  print (an_label a +:+ reply) ;;;
  ret [(an_key a, PStr reply)].

(** The request an analysis stage sends for a given prompt. *)
Definition request_of (a : Analysis) (prompt : string) : ChatRequest :=
  chat_request (an_role a) prompt (an_temperature a).

(** The key a stage's update is written under in the source. *)
Definition written_key (s : Stage) : string :=
  match analysis_of s with
  | Some a => an_key a
  | None => "pr_info"
  end.

(** One node of the graph as the runner executes it. *)
Definition run_stage (E : Env) (s : Stage) (st : dict) : M dict :=
  log_node (NodeStart (stage_name s) st) ;;;
  update <- stage_fn E s st ;;
  log_node (NodeEnd (stage_name s) update) ;;;
  apply_update (undeclared_keys E) PRState_keys update st.

(** The five stages one after the other. *)
Definition pipeline (E : Env) (st0 : dict) : M dict :=
  st1 <- run_stage E Gather st0 ;;
  st2 <- run_stage E Contextualize st1 ;;
  st3 <- run_stage E ExtractFeatures st2 ;;
  st4 <- run_stage E ExpertChecklist st3 ;;
  run_stage E FinalReview st4.

(** The names of the nodes a log shows starting, in order. *)
Fixpoint started (log : list NodeEvent) : list string :=
  match log with
  | [] => []
  | NodeStart name _ :: rest => name :: started rest
  | NodeEnd _ _ :: rest => started rest
  end.

Definition stage_order : list string :=
  map stage_name [Gather; Contextualize; ExtractFeatures; ExpertChecklist; FinalReview].

(** The stage meant to produce a field. *)
Definition producer (field : string) : option Stage :=
  if String.eqb field "pr_info" then Some Gather
  else if String.eqb field "context" then Some Contextualize
  else if String.eqb field "features" then Some ExtractFeatures
  else if String.eqb field "team_review" then Some ExpertChecklist
  else if String.eqb field "final_report" then Some FinalReview
  else None.

(** [field] is populated in [st], given the events logged so far: its
    producer has returned, and [st] holds the value it returned. *)
Definition populated (log : list NodeEvent) (st : dict) (field : string) : Prop :=
  exists s update v,
    producer field = Some s
    /\ In (NodeEnd (stage_name s) update) log
    /\ PyDict.get field update = Some v
    /\ PyDict.get field st = Some v.

(** The events a run added to the node log. *)
Definition new_events (w w' : World) : list NodeEvent :=
  drop (length (node_log w)) (node_log w').

Definition new_calls (w w' : World) : list NetCall :=
  drop (length (net_log w)) (net_log w').

Definition new_generations (w w' : World) : list (ChatRequest * ChatResult) :=
  drop (length (gen_log w)) (gen_log w').

(** The final state of a run whose stages all returned, under each
    treatment of the undeclared key of the last update. *)
Definition analysed_state (url : string) (info : pyval) (a1 a2 a3 : string) : dict :=
  [("pr_url", PStr url);
   ("pr_info", info);
   ("context", PStr a1);
   ("features", PStr a2);
   ("team_review", PStr a3);
   ("final_report", PStr EmptyString)].

Definition final_outcome (policy : UndeclaredKeys) (url : string) (info : pyval)
    (a1 a2 a3 a4 : string) : outcome dict :=
  match policy with
  | IgnoreUndeclared => Returns (analysed_state url info a1 a2 a3)
  | KeepUndeclared =>
      Returns (analysed_state url info a1 a2 a3 ++ [("final report", PStr a4)])
  | RejectUndeclared =>
      Raises (Exn InvalidUpdateError
                "Expected node to update at least one of the state keys")
  end.

(** The world after an analysis stage has run as a node of the graph. *)
Definition analysis_world (s : Stage) (a : Analysis) (st : dict) (prompt : string)
    (r : ChatResult) (w : World) : World :=
  log_event (NodeEnd (stage_name s) [(an_key a, PStr (reply_of r))])
    (log_out (an_label a +:+ reply_of r)
       (after_generate (request_of a prompt) r
          (log_event (NodeStart (stage_name s) st) w))).

Definition gathered_world (info : pyval) (wg : World) : World :=
  log_event (NodeEnd "gather_pr_info" [("pr_info", info)]) wg.

(** The node events of a run in which every stage returned. *)
Definition completed_events (url : string) (info : pyval) (a1 a2 a3 a4 : string)
  : list NodeEvent :=
  [NodeStart "gather_pr_info" (initial_state url);
   NodeEnd "gather_pr_info" [("pr_info", info)];
   NodeStart "contextualize_info" (analysed_state url info EmptyString EmptyString EmptyString);
   NodeEnd "contextualize_info" [("context", PStr a1)];
   NodeStart "extract_features" (analysed_state url info a1 EmptyString EmptyString);
   NodeEnd "extract_features" [("features", PStr a2)];
   NodeStart "create_expert_checklist" (analysed_state url info a1 a2 EmptyString);
   NodeEnd "create_expert_checklist" [("team_review", PStr a3)];
   NodeStart "final_review" (analysed_state url info a1 a2 a3);
   NodeEnd "final_review" [("final report", PStr a4)]].

(** The prompts of the four analysis stages, for the states of such a run. *)
Definition contextualize_text (E : Env) (info : pyval) : string :=
  contextualize_prompt_0 +:+ json_dumps E (Some 2) info +:+ contextualize_prompt_1.

Definition extract_features_text (E : Env) (info : pyval) (a1 : string) : string :=
  features_prompt_0 +:+ json_dumps E (Some 2) info
  +:+ features_prompt_1 +:+ a1 +:+ features_prompt_2.

Definition create_expert_checklist_text (E : Env) (info : pyval) (a1 a2 : string) : string :=
  checklist_prompt_0 +:+ py_format E info
  +:+ checklist_prompt_1 +:+ a1
  +:+ checklist_prompt_2 +:+ a2
  +:+ checklist_prompt_3.

Definition final_review_text (E : Env) (st : dict) : string :=
  final_prompt_0 +:+ py_repr E (PDict st) +:+ final_prompt_1.

(** ** Concrete collaborators

    A pull request with a Python file, an image and a drawing; one whose
    first file is Latin-1 text; and generation services that always fail,
    fail on the last call only, or always answer. *)
Module Demo.

Definition reference : string :=
  "https://github.com/ai-cfia/fertiscan-backend/pull/106".

Definition file_entry (name raw_url : string) : pyval :=
  PDict [("filename", PStr name); ("patch", PStr "@@ -1 +1 @@"); ("raw_url", PStr raw_url)].

Definition metadata : pyval :=
  PDict [("body", PStr "Adds a label parser");
         ("_links",
          PDict [("self",
                  PDict [("href",
                          PStr "https://api.github.com/repos/ai-cfia/fertiscan-backend/pulls/106")])])].

Definition listing : list pyval :=
  [file_entry "app.py" "https://raw.example/app.py";
   file_entry "logo.png" "https://raw.example/logo.png";
   file_entry "board.excalidraw" "https://raw.example/board.excalidraw"].

Definition png_bytes : string := String (ascii_of_nat 137) "PNG".

(** [caf], then byte 0xE9: Latin-1 text, not UTF-8. *)
Definition latin1_bytes : string := "caf" +:+ String (ascii_of_nat 233) EmptyString.

Definition latin1_listing : list pyval :=
  [file_entry "notes.txt" "https://raw.example/notes.txt";
   file_entry "app.py" "https://raw.example/app.py"].

Definition no_json : outcome pyval := Raises (Exn CollaboratorError "Expecting value").

Definition answer (content : string) (json : outcome pyval) : outcome Response :=
  Returns {| resp_content := content; resp_json := json |}.

Definition github (k : nat) (url : pyval) (headers : list (string * string))
  : outcome Response :=
  match k with
  | 0 => answer "{...}" (Returns metadata)
  | 1 => answer "[...]" (Returns (PList listing))
  | 2 => answer "print(1)" no_json
  | 3 => answer png_bytes no_json
  | _ => answer "{}" (Returns (PDict []))
  end.

Definition github_latin1 (k : nat) (url : pyval) (headers : list (string * string))
  : outcome Response :=
  match k with
  | 0 => answer "{...}" (Returns metadata)
  | 1 => answer "[...]" (Returns (PList latin1_listing))
  | 2 => answer latin1_bytes no_json
  | _ => answer "print(1)" no_json
  end.

Definition libmagic (content : string) : outcome string :=
  Returns (if String.eqb content png_bytes then "image/png"
           else if String.eqb content "{}" then "application/json"
           else if String.eqb content "print(1)" then "text/x-script.python"
           else "text/plain").

Definition quota : exn := Exn CollaboratorError "insufficient_quota".

Definition always_fails (k : nat) (req : ChatRequest) : ChatResult := ChatRaises quota.

Definition always_answers (k : nat) (req : ChatRequest) : ChatResult :=
  ChatResponse [Some "  LGTM  "].

Definition last_fails (k : nat) (req : ChatRequest) : ChatResult :=
  match k with
  | 3 => ChatRaises quota
  | _ => ChatResponse [Some "  LGTM  "]
  end.

Definition env (net : nat -> pyval -> list (string * string) -> outcome Response)
    (chat : nat -> ChatRequest -> ChatResult) (policy : UndeclaredKeys) : Env :=
  {| getenv := fun _ => Some "secret";
     http_get := net;
     mime_from_buffer := libmagic;
     chat_create := chat;
     json_dumps := fun _ _ => "<json>";
     py_repr := fun _ => "<repr>";
     undeclared_keys := policy |}.

(** The same pull request seen through another mirror: other URLs and
    credentials, the same change. *)
Definition mirror_env (chat : nat -> ChatRequest -> ChatResult) (policy : UndeclaredKeys)
  : Env :=
  {| getenv := fun _ => Some "other-secret";
     http_get := fun k url headers => github k PNone [];
     mime_from_buffer := libmagic;
     chat_create := fun k req => chat (k + 0) req;
     json_dumps := fun _ _ => "<other json>";
     py_repr := fun _ => "<other repr>";
     undeclared_keys := policy |}.

Definition gathered_info : pyval :=
  PDict [("description", PStr "Adds a label parser");
         ("diffs",
          PDict [("app.py",
                  PDict [("patch", PStr "@@ -1 +1 @@"); ("content", PStr "print(1)")])])].

End Demo.

(** A computation that leaves the world alone. *)
Definition pure {A} (m : M A) : Prop := forall w r w', m w = (r, w') -> w' = w.

(** ** Vocabulary of the further properties *)

(** The lines a run printed. *)
Definition new_output (w w' : World) : list string :=
  drop (length (stdout w)) (stdout w').

(** A computation whose only effect is to send requests, each with the
    headers [h]. *)
Definition net_only {A} (h : list (string * string)) (m : M A) : Prop :=
  forall w r w', m w = (r, w') ->
    exists calls, w' = with_net calls w /\ Forall (fun c => nc_headers c = h) calls.



(** What an analysis stage prints for a generation result and a label. *)
Definition stage_output (a : Analysis) (r : ChatResult) : list string :=
  match failure_of r with
  | Some msg => ["An error occurred: " +:+ msg; an_label a +:+ reply_of r]
  | None => [an_label a +:+ reply_of r]
  end.

Module Demo2.

(** No credentials at all. *)
Definition bare_env : Env :=
  {| getenv := fun _ => None;
     http_get := Demo.github;
     mime_from_buffer := Demo.libmagic;
     chat_create := Demo.always_answers;
     json_dumps := fun _ _ => "<json>";
     py_repr := fun _ => "<repr>";
     undeclared_keys := IgnoreUndeclared |}.

(** The answer GitHub gives to a bad token. *)
Definition error_body : pyval :=
  PDict [("message", PStr "Bad credentials");
         ("documentation_url", PStr "https://docs.github.com/rest")].

Definition github_denied (k : nat) (url : pyval) (headers : list (string * string))
  : outcome Response :=
  Demo.answer "{...}" (Returns error_body).

(** The metadata is served, the listing is refused. *)
Definition github_listing_denied (k : nat) (url : pyval) (headers : list (string * string))
  : outcome Response :=
  match k with
  | 0 => Demo.answer "{...}" (Returns Demo.metadata)
  | _ => Demo.answer "{...}" (Returns error_body)
  end.

Definition github_no_files (k : nat) (url : pyval) (headers : list (string * string))
  : outcome Response :=
  match k with
  | 0 => Demo.answer "{...}" (Returns Demo.metadata)
  | _ => Demo.answer "[]" (Returns (PList []))
  end.

(** The same file listed twice, with different contents. *)
Definition twice_listing : list pyval :=
  [Demo.file_entry "app.py" "https://raw.example/old/app.py";
   Demo.file_entry "app.py" "https://raw.example/new/app.py"].

Definition github_twice (k : nat) (url : pyval) (headers : list (string * string))
  : outcome Response :=
  match k with
  | 0 => Demo.answer "{...}" (Returns Demo.metadata)
  | 1 => Demo.answer "[...]" (Returns (PList twice_listing))
  | 2 => Demo.answer "print(1)" Demo.no_json
  | _ => Demo.answer "print(2)" Demo.no_json
  end.

(** The network is down. *)
Definition github_down (k : nat) (url : pyval) (headers : list (string * string))
  : outcome Response :=
  Raises (Exn CollaboratorError "Connection refused").

End Demo2.

(** * Properties *)

(** ** Strings *)

Module PyStrFacts.
Import PyStr.

Lemma append_assoc (a b c : string) : (a +:+ b) +:+ c = a +:+ (b +:+ c).
Proof. induction a as [|x a IH]; simpl; [reflexivity | now rewrite IH]. Qed.

Lemma append_empty_r (a : string) : a +:+ EmptyString = a.
Proof. induction a as [|x a IH]; simpl; [reflexivity | now rewrite IH]. Qed.

Lemma startswith_spec (p s : string) :
  startswith p s = true <-> exists r, s = p +:+ r.
Proof.
  revert s; induction p as [|a p IH]; intros s; simpl.
  - split; [intros _; now exists s | reflexivity].
  - destruct s as [|b s].
    + split; [discriminate | intros [r Hr]; discriminate].
    + rewrite andb_true_iff, Ascii.eqb_eq, IH. split.
      * intros [-> [r ->]]. now exists r.
      * intros [r Hr]. injection Hr as -> ->. split; [reflexivity | now exists r].
Qed.

Lemma contains_spec (needle hay : string) :
  contains needle hay = true <-> exists l r, hay = l +:+ needle +:+ r.
Proof.
  induction hay as [|b hay IH].
  - simpl. destruct (startswith needle EmptyString) eqn:Hp.
    + apply startswith_spec in Hp as [r Hr]. split; [intros _ | reflexivity].
      now exists EmptyString, r.
    + split; [discriminate | intros (l & r & Hlr)].
      destruct l; [|discriminate]. simpl in Hlr.
      assert (startswith needle EmptyString = true) as Ht
        by (apply startswith_spec; now exists r).
      congruence.
  - cbn [contains]. destruct (startswith needle (String b hay)) eqn:Hp.
    + apply startswith_spec in Hp as [r Hr]. split; [intros _ | reflexivity].
      now exists EmptyString, r.
    + rewrite IH. split.
      * intros (l & r & ->). now exists (String b l), r.
      * intros (l & r & Hlr). destruct l as [|x l].
        -- simpl in Hlr.
           assert (startswith needle (String b hay) = true) as Ht
             by (apply startswith_spec; now exists r).
           congruence.
        -- simpl in Hlr. injection Hlr as _ ->. now exists l, r.
Qed.

Lemma endswith_spec (suffix s : string) :
  endswith suffix s = true <-> exists l, s = l +:+ suffix.
Proof.
  induction s as [|b s IH].
  - cbn [endswith]. destruct (String.eqb EmptyString suffix) eqn:He.
    + apply String.eqb_eq in He as <-. split; [intros _ | reflexivity].
      now exists EmptyString.
    + split; [discriminate | intros [l Hl]].
      destruct l; [|discriminate]. simpl in Hl. subst suffix.
      now rewrite String.eqb_refl in He.
  - cbn [endswith]. destruct (String.eqb (String b s) suffix) eqn:He.
    + apply String.eqb_eq in He as <-. split; [intros _ | reflexivity].
      now exists EmptyString.
    + rewrite IH. split.
      * intros [l ->]. now exists (String b l).
      * intros [l Hl]. destruct l as [|x l].
        -- simpl in Hl. subst suffix. now rewrite String.eqb_refl in He.
        -- simpl in Hl. injection Hl as _ ->. now exists l.
Qed.

Lemma split_char_nonempty (sep : ascii) (s : string) : split_char sep s <> [].
Proof.
  induction s as [|a s IH]; simpl; [discriminate|].
  destruct (Ascii.eqb a sep); [discriminate|].
  destruct (split_char sep s); discriminate.
Qed.

Lemma split_char_length (sep : ascii) (s : string) :
  length (split_char sep s) = S (count_char sep s).
Proof.
  induction s as [|a s IH]; simpl; [reflexivity|].
  destruct (Ascii.eqb a sep); simpl; [now rewrite IH|].
  destruct (split_char sep s) eqn:Hs; simpl in *; lia.
Qed.

Lemma split_char_join (sep : ascii) (s : string) :
  join (String sep EmptyString) (split_char sep s) = s.
Proof.
  induction s as [|a s IH]; simpl; [reflexivity|].
  destruct (Ascii.eqb a sep) eqn:Ha.
  - apply Ascii.eqb_eq in Ha as ->.
    pose proof (split_char_nonempty sep s) as Hne.
    destruct (split_char sep s) as [|h t] eqn:Hs; [contradiction|].
    cbn [join]. simpl. now rewrite <- IH.
  - pose proof (split_char_nonempty sep s) as Hne.
    destruct (split_char sep s) as [|h t] eqn:Hs; [contradiction|].
    destruct t as [|h' t]; simpl in *; now rewrite <- IH.
Qed.

Lemma split_char_no_sep (sep : ascii) (s seg : string) :
  In seg (split_char sep s) -> occurs sep seg = false.
Proof.
  revert seg; induction s as [|a s IH]; intros seg; simpl.
  - intros [<- | []]. reflexivity.
  - destruct (Ascii.eqb a sep) eqn:Ha.
    + intros [<- | Hin]; [reflexivity | now apply IH].
    + destruct (split_char sep s) as [|h t] eqn:Hs.
      * intros [<- | []]. simpl. now rewrite Ha.
      * intros [<- | Hin].
        -- simpl. rewrite Ha. apply IH. now left.
        -- apply IH. now right.
Qed.

Lemma rstrip_char_spec (c : ascii) (s : string) :
  exists n, s = rstrip_char c s +:+ repeat_char c n
            /\ endswith (String c EmptyString) (rstrip_char c s) = false.
Proof.
  induction s as [|a s (n & Hs & He)]; simpl.
  - now exists 0.
  - destruct (rstrip_char c s) as [|b r] eqn:Hr.
    + destruct (Ascii.eqb a c) eqn:Ha.
      * apply Ascii.eqb_eq in Ha as ->. exists (S n). simpl in *.
        split; [now rewrite Hs at 1 | reflexivity].
      * exists n. simpl in *. split; [now rewrite Hs at 1|].
        rewrite Ha. reflexivity.
    + exists n. split; [simpl; now rewrite Hs at 1|].
      change (endswith (String c EmptyString) (String a (String b r)))
        with (if String.eqb (String a (String b r)) (String c EmptyString) then true
              else endswith (String c EmptyString) (String b r)).
      assert (String.eqb (String a (String b r)) (String c EmptyString) = false) as ->.
      { apply String.eqb_neq. intros Heq. injection Heq as _ Heq. discriminate. }
      exact He.
Qed.

End PyStrFacts.

Module PyStripFacts.
Import PyStr PyStrFacts.

Lemma rev_onto_spec (s acc : string) : rev_onto s acc = rev s +:+ acc.
Proof.
  revert acc. induction s as [|a s IH]; intros acc; [reflexivity|].
  unfold rev. simpl. rewrite (IH (String a acc)), (IH (String a EmptyString)).
  now rewrite append_assoc.
Qed.

Lemma rev_cons (a : ascii) (s : string) : rev (String a s) = rev s +:+ String a EmptyString.
Proof. unfold rev at 1. simpl. apply rev_onto_spec. Qed.

Lemma rev_app (x y : string) : rev (x +:+ y) = rev y +:+ rev x.
Proof.
  induction x as [|a x IH]; simpl.
  - now rewrite append_empty_r.
  - now rewrite !rev_cons, IH, append_assoc.
Qed.

Lemma rev_involutive (s : string) : rev (rev s) = s.
Proof.
  induction s as [|a s IH]; [reflexivity|].
  now rewrite rev_cons, rev_app, IH.
Qed.

Lemma Blank_app (x y : string) : Blank x -> Blank y -> Blank (x +:+ y).
Proof.
  intros Hx Hy. induction Hx; simpl; [exact Hy | | |].
  - now apply Blank_1.
  - now apply Blank_2.
  - now apply Blank_3.
Qed.

Lemma lstrip_spec (s : string) : exists l, s = l +:+ lstrip s /\ Blank l.
Proof.
  assert (forall n s, String.length s <= n -> exists l, s = l +:+ lstrip s /\ Blank l) as H.
  { clear s. induction n as [|n IH]; intros s Hn.
    - destruct s; [|simpl in Hn; lia]. exists EmptyString. split; [reflexivity | constructor].
    - destruct s as [|a r1]; [exists EmptyString; split; [reflexivity | constructor]|].
      simpl in Hn. cbn [lstrip].
      destruct (space1 a) eqn:H1.
      { destruct (IH r1) as (l & Hl & Hb); [lia|].
        exists (String a l). split; [simpl; now rewrite <- Hl | now apply Blank_1]. }
      destruct r1 as [|b r2]; [exists EmptyString; split; [reflexivity | constructor]|].
      simpl in Hn.
      destruct (space2 a b) eqn:H2.
      { destruct (IH r2) as (l & Hl & Hb); [lia|].
        exists (String a (String b l)). split; [simpl; now rewrite <- Hl | now apply Blank_2]. }
      destruct r2 as [|c r3]; [exists EmptyString; split; [reflexivity | constructor]|].
      simpl in Hn.
      destruct (space3 a b c) eqn:H3.
      { destruct (IH r3) as (l & Hl & Hb); [lia|].
        exists (String a (String b (String c l))).
        split; [simpl; now rewrite <- Hl | now apply Blank_3]. }
      exists EmptyString. split; [reflexivity | constructor]. }
  apply (H (String.length s)). lia.
Qed.

(** What [lstrip] returns does not start with white space. *)
Lemma lstrip_idempotent (s : string) : lstrip (lstrip s) = lstrip s.
Proof.
  assert (forall n s, String.length s <= n -> lstrip (lstrip s) = lstrip s) as H.
  { clear s. induction n as [|n IH]; intros s Hn.
    - destruct s; [reflexivity | simpl in Hn; lia].
    - destruct s as [|a r1]; [reflexivity|]. simpl in Hn.
      destruct (space1 a) eqn:H1.
      { cbn [lstrip]. rewrite H1. apply IH. lia. }
      destruct r1 as [|b r2]; [cbn [lstrip]; rewrite H1; cbn [lstrip]; now rewrite H1|].
      simpl in Hn.
      destruct (space2 a b) eqn:H2.
      { cbn [lstrip]. rewrite H1, H2. apply IH. lia. }
      destruct r2 as [|c r3];
        [cbn [lstrip]; rewrite H1, H2; cbn [lstrip]; now rewrite H1, H2|].
      simpl in Hn.
      destruct (space3 a b c) eqn:H3.
      { cbn [lstrip]. rewrite H1, H2, H3. apply IH. lia. }
      cbn [lstrip]. rewrite H1, H2, H3. cbn [lstrip]. now rewrite H1, H2, H3. }
  apply (H (String.length s)). lia.
Qed.

Lemma lstrip_rev_spec (s : string) : exists l, s = l +:+ lstrip_rev s /\ Blank (rev l).
Proof.
  assert (forall n s, String.length s <= n ->
            exists l, s = l +:+ lstrip_rev s /\ Blank (rev l)) as H.
  { clear s. induction n as [|n IH]; intros s Hn.
    - destruct s; [|simpl in Hn; lia]. exists EmptyString. split; [reflexivity | constructor].
    - destruct s as [|a r1]; [exists EmptyString; split; [reflexivity | constructor]|].
      simpl in Hn. cbn [lstrip_rev].
      destruct (space1 a) eqn:H1.
      { destruct (IH r1) as (l & Hl & Hb); [lia|].
        exists (String a l). split; [simpl; now rewrite <- Hl|].
        rewrite rev_cons. apply Blank_app; [exact Hb | now apply Blank_1; [|constructor]]. }
      destruct r1 as [|b r2]; [exists EmptyString; split; [reflexivity | constructor]|].
      simpl in Hn.
      destruct (space2 b a) eqn:H2.
      { destruct (IH r2) as (l & Hl & Hb); [lia|].
        exists (String a (String b l)). split; [simpl; now rewrite <- Hl|].
        rewrite !rev_cons, append_assoc. apply Blank_app; [exact Hb|].
        simpl. now apply Blank_2; [|constructor]. }
      destruct r2 as [|c r3]; [exists EmptyString; split; [reflexivity | constructor]|].
      simpl in Hn.
      destruct (space3 c b a) eqn:H3.
      { destruct (IH r3) as (l & Hl & Hb); [lia|].
        exists (String a (String b (String c l))). split; [simpl; now rewrite <- Hl|].
        rewrite !rev_cons, !append_assoc. apply Blank_app; [exact Hb|].
        simpl. now apply Blank_3; [|constructor]. }
      exists EmptyString. split; [reflexivity | constructor]. }
  apply (H (String.length s)). lia.
Qed.

Lemma rstrip_spec (s : string) : exists r, s = rstrip s +:+ r /\ Blank r.
Proof.
  destruct (lstrip_rev_spec (rev s)) as (l & Hl & Hb).
  exists (rev l). split; [|exact Hb].
  unfold rstrip. rewrite <- rev_app, <- Hl. now rewrite rev_involutive.
Qed.

(** [strip] removes white space at both ends and nothing else. *)
Lemma strip_spec (t : string) :
  exists l r, t = l +:+ strip t +:+ r /\ Blank l /\ Blank r.
Proof.
  destruct (lstrip_spec t) as (l & Hl & Hbl).
  destruct (rstrip_spec (lstrip t)) as (r & Hr & Hbr).
  exists l, r. unfold strip. now rewrite <- Hr.
Qed.

End PyStripFacts.

(** ** Dictionaries *)
Module PyDictFacts.
Section Facts.
Context {V : Type}.
Implicit Types (d : list (string * V)) (k : string) (v : V).

Lemma get_set_eq k v d : PyDict.get k (PyDict.set k v d) = Some v.
Proof.
  induction d as [|[k' v'] d IH]; simpl.
  - now rewrite String.eqb_refl.
  - destruct (String.eqb k k') eqn:Hk; simpl.
    + now rewrite String.eqb_refl.
    + now rewrite Hk.
Qed.

Lemma get_set_ne k k' v d : k <> k' -> PyDict.get k' (PyDict.set k v d) = PyDict.get k' d.
Proof.
  intros Hne. induction d as [|[k0 v0] d IH]; simpl.
  - destruct (String.eqb k' k) eqn:Hk; [|reflexivity].
    apply String.eqb_eq in Hk. congruence.
  - destruct (String.eqb k k0) eqn:Hk; simpl.
    + apply String.eqb_eq in Hk as <-.
      destruct (String.eqb k' k) eqn:Hk'; [|reflexivity].
      apply String.eqb_eq in Hk'. congruence.
    + now rewrite IH.
Qed.

Lemma get_set k k' v d :
  PyDict.get k' (PyDict.set k v d) = if String.eqb k k' then Some v else PyDict.get k' d.
Proof.
  destruct (String.eqb k k') eqn:Hk.
  - apply String.eqb_eq in Hk as <-. apply get_set_eq.
  - apply String.eqb_neq in Hk. now apply get_set_ne.
Qed.

Lemma keys_set_present k v d :
  is_Some (PyDict.get k d) -> PyDict.keys (PyDict.set k v d) = PyDict.keys d.
Proof.
  induction d as [|[k0 v0] d IH]; simpl.
  - intros [x Hx]. discriminate.
  - destruct (String.eqb k k0) eqn:Hk; simpl.
    + apply String.eqb_eq in Hk as <-. reflexivity.
    + intros H. f_equal. now apply IH.
Qed.
End Facts.
End PyDictFacts.

(** ** The monad *)

Lemma bind_returns {A B} (m : M A) (f : A -> M B) w b w' :
  bind m f w = (Returns b, w') ->
  exists a w1, m w = (Returns a, w1) /\ f a w1 = (Returns b, w').
Proof.
  unfold bind. destruct (m w) as [[e|a] w1]; [discriminate|].
  intros H. now exists a, w1.
Qed.

Lemma bind_cases {A B} (m : M A) (f : A -> M B) w r w' :
  bind m f w = (r, w') ->
  (exists e, m w = (Raises e, w') /\ r = Raises e)
  \/ (exists a w1, m w = (Returns a, w1) /\ f a w1 = (r, w')).
Proof.
  unfold bind. destruct (m w) as [[e|a] w1].
  - intros H. injection H as <- <-. left. now exists e.
  - intros H. right. now exists a, w1.
Qed.


Lemma pure_ret {A} (a : A) : pure (ret a).
Proof. intros w r w' H. now injection H. Qed.

Lemma pure_raise {A} k msg : pure (@raise A k msg).
Proof. intros w r w' H. now injection H. Qed.

Lemma pure_lift {A} (o : outcome A) : pure (lift o).
Proof. intros w r w' H. now injection H. Qed.

Lemma pure_bind {A B} (m : M A) (f : A -> M B) :
  pure m -> (forall a, pure (f a)) -> pure (bind m f).
Proof.
  intros Hm Hf w r w' H. apply bind_cases in H as [(e & He & _) | (a & w1 & Ha & Hk)].
  - now apply Hm in He.
  - apply Hm in Ha as ->. now apply Hf in Hk.
Qed.

Ltac pure_tac :=
  repeat first
    [ apply pure_ret | apply pure_raise | apply pure_lift
    | apply pure_bind; [|intros ?]
    | match goal with |- pure (match ?x with _ => _ end) => destruct x end
    | match goal with |- pure (if ?x then _ else _) => destruct x end ].

Lemma pure_list_index {A} (l : list A) i : pure (list_index l i).
Proof. unfold list_index. pure_tac. Qed.

Lemma pure_getitem k d : pure (getitem k d).
Proof. unfold getitem. pure_tac. Qed.

Lemma pure_py_subscript v k : pure (py_subscript v k).
Proof. unfold py_subscript. destruct v; try apply pure_raise. apply pure_getitem. Qed.

Lemma pure_py_get v k dflt : pure (py_get v k dflt).
Proof. unfold py_get. destruct v; try apply pure_raise. apply pure_ret. Qed.

Lemma pure_py_add_str v s : pure (py_add_str v s).
Proof. unfold py_add_str. pure_tac. Qed.

Lemma pure_py_iter v : pure (py_iter v).
Proof. unfold py_iter. pure_tac. Qed.

Lemma pure_str_receiver v m : pure (str_receiver v m).
Proof. unfold str_receiver. pure_tac. Qed.

Lemma pure_dict_key v : pure (dict_key v).
Proof. unfold dict_key. pure_tac. Qed.

Lemma pure_decode_utf8 c : pure (decode_utf8 c).
Proof. unfold decode_utf8. pure_tac. Qed.

Lemma pure_skip_file ct name : pure (skip_file ct name).
Proof.
  unfold skip_file. destruct (_ && _); [apply pure_ret|].
  apply pure_bind; [apply pure_str_receiver | intros; apply pure_ret].
Qed.

Lemma pure_extract_reference st : pure (extract_reference st).
Proof.
  unfold extract_reference.
  apply pure_bind; [apply pure_getitem | intros].
  apply pure_bind; [apply pure_str_receiver | intros].
  repeat (apply pure_bind; [apply pure_list_index | intros]).
  apply pure_ret.
Qed.

(** ** World bookkeeping *)

Lemma with_net_nil w : with_net [] w = w.
Proof. destruct w. unfold with_net. simpl. now rewrite app_nil_r. Qed.

Lemma with_net_app a b w : with_net b (with_net a w) = with_net (a ++ b) w.
Proof. unfold with_net. simpl. now rewrite app_assoc. Qed.

Lemma log_net_with_net c w : log_net c w = with_net [c] w.
Proof. reflexivity. Qed.

Lemma requests_get_world E url h w r w' :
  requests_get E url h w = (r, w') ->
  r = http_get E (length (net_log w)) url h
  /\ w' = with_net [{| nc_url := url; nc_headers := h |}] w.
Proof. unfold requests_get. intros H. now injection H as <- <-. Qed.

(** ** The gather loop *)

Lemma skip_file_returns ct filename b w w' :
  skip_file ct filename w = (Returns b, w') ->
  w' = w /\
  ((accepted_type ct = false /\ b = true)
   \/ (accepted_type ct = true /\ exists name,
         filename = PStr name /\ b = PyStr.endswith ".excalidraw" name)).
Proof.
  unfold skip_file, accepted_type.
  destruct (PyStr.contains "text" ct), (PyStr.contains "json" ct); simpl;
    try (destruct filename; simpl; unfold raise, ret; try discriminate;
         intros H; injection H as <- <-; split; [reflexivity|]; right;
         split; [reflexivity|]; eexists; split; reflexivity).
  intros H. injection H as <- <-. split; [reflexivity|]. now left.
Qed.

Lemma gather_file_returns E h file diffs w d' w' :
  gather_file E h file diffs w = (Returns d', w') ->
  exists f,
    fetch_fact E (length (net_log w)) h file = Some f
    /\ w' = with_net [raw_call h file] w
    /\ d' = store diffs f
    /\ (accepted_type (f_type f) = true ->
        exists name, f_name f = PStr name /\
          (PyStr.endswith ".excalidraw" name = false -> PyStr.utf8_valid (f_content f) = true)).
Proof.
  unfold gather_file. intros H.
  apply bind_returns in H as (filename & w1 & Hfn & H).
  pose proof (pure_py_subscript _ _ _ _ _ Hfn) as ->.
  apply bind_returns in H as (patch & w1 & Hp & H).
  pose proof (pure_py_get _ _ _ _ _ _ Hp) as ->.
  apply bind_returns in H as (raw_url & w1 & Hu & H).
  pose proof (pure_py_subscript _ _ _ _ _ Hu) as ->.
  apply bind_returns in H as (resp & w1 & Hr & H).
  apply requests_get_world in Hr as [Hresp ->].
  apply bind_returns in H as (ct & w1 & Hct & H).
  pose proof (pure_lift _ _ _ _ Hct) as ->.
  apply bind_returns in H as (skip & w1 & Hs & H).
  apply skip_file_returns in Hs as [-> Hs].
  destruct file as [| | | | | |d]; simpl in Hfn, Hp, Hu; unfold raise in *; try discriminate.
  unfold getitem, ret, raise in *.
  destruct (PyDict.get "filename" d) as [fn|] eqn:Hd1; [|discriminate].
  destruct (PyDict.get "raw_url" d) as [ru|] eqn:Hd2; [|discriminate].
  injection Hfn as <-. injection Hu as <-. injection Hp as <-.
  unfold lift in Hct. injection Hct as Hct.
  unfold fetch_fact. rewrite Hd1, Hd2, <- Hresp, Hct.
  eexists. split; [reflexivity|].
  unfold raw_call, raw_url_of. rewrite Hd2.
  split.
  { destruct skip.
    - now injection H as _ <-.
    - apply bind_returns in H as (text & w2 & Ht & H).
      pose proof (pure_decode_utf8 _ _ _ _ Ht) as ->.
      apply bind_returns in H as (name & w2 & Hn & H).
      pose proof (pure_dict_key _ _ _ _ Hn) as ->.
      now injection H as _ <-. }
  unfold store, kept; simpl.
  destruct Hs as [[Hacc ->] | (Hacc & name & -> & ->)].
  - rewrite Hacc. simpl. split.
    + injection H as <- _. now destruct fn.
    + discriminate.
  - rewrite Hacc. simpl. split.
    + destruct (PyStr.endswith ".excalidraw" name); simpl.
      * now injection H as <- _.
      * apply bind_returns in H as (text & w2 & Ht & H).
        apply bind_returns in H as (key & w3 & Hk & H).
        unfold decode_utf8 in Ht.
        destruct (PyStr.utf8_valid (resp_content resp)); [|discriminate].
        injection Ht as <- _. injection Hk as <- _. now injection H as <- _.
    + intros _. exists name. split; [reflexivity|]. intros Hend. rewrite Hend in H.
      apply bind_returns in H as (text & w2 & Ht & H).
      unfold decode_utf8 in Ht.
      now destruct (PyStr.utf8_valid (resp_content resp)).
Qed.

Lemma gather_file_world E h file diffs w r w' :
  gather_file E h file diffs w = (r, w') ->
  exists calls, w' = with_net calls w /\ length calls <= 1.
Proof.
  unfold gather_file. intros H.
  apply bind_cases in H as [(e & He & _) | (filename & w1 & Hfn & H)].
  { apply pure_py_subscript in He as ->. exists []. now rewrite with_net_nil; simpl; split; [|lia]. }
  apply pure_py_subscript in Hfn as ->.
  apply bind_cases in H as [(e & He & _) | (patch & w1 & Hp & H)].
  { apply pure_py_get in He as ->. exists []. now rewrite with_net_nil; simpl; split; [|lia]. }
  apply pure_py_get in Hp as ->.
  apply bind_cases in H as [(e & He & _) | (raw_url & w1 & Hu & H)].
  { apply pure_py_subscript in He as ->. exists []. now rewrite with_net_nil; simpl; split; [|lia]. }
  apply pure_py_subscript in Hu as ->.
  assert (forall A (m : M A) r0 w0 w2, pure m -> m w0 = (r0, w2) ->
            exists calls, w2 = with_net calls w0 /\ length calls <= 0) as Hpure.
  { intros A m r0 w0 w2 Hm Hrun. apply Hm in Hrun as ->. exists [].
    now rewrite with_net_nil; simpl; split. }
  apply bind_cases in H as [(e & He & _) | (resp & w1 & Hr & H)].
  { apply requests_get_world in He as [_ ->]. eexists. split; [reflexivity | simpl; lia]. }
  apply requests_get_world in Hr as [_ ->].
  assert (pure (content_type <- lift (mime_from_buffer E (resp_content resp)) ;;
                skip <- skip_file content_type filename ;;
                if skip then ret diffs
                else text <- decode_utf8 (resp_content resp) ;;
                     name <- dict_key filename ;;
                     ret (PyDict.set name (PDict [("patch", patch); ("content", PStr text)]) diffs)))
    as Hrest.
  { apply pure_bind; [apply pure_lift | intros ct].
    apply pure_bind; [apply pure_skip_file | intros [|]]; [apply pure_ret|].
    apply pure_bind; [apply pure_decode_utf8 | intros].
    apply pure_bind; [apply pure_dict_key | intros]. apply pure_ret. }
  apply Hrest in H as ->. eexists. split; [reflexivity | simpl; lia].
Qed.

Lemma gather_files_returns E h files : forall diffs w d' w',
  gather_files E h files diffs w = (Returns d', w') ->
  exists facts,
    fetch_facts E (length (net_log w)) h files = Some facts
    /\ w' = with_net (map (raw_call h) files) w
    /\ d' = fold_left store facts diffs
    /\ Forall (fun f => accepted_type (f_type f) = true ->
                 exists name, f_name f = PStr name /\
                   (PyStr.endswith ".excalidraw" name = false ->
                    PyStr.utf8_valid (f_content f) = true)) facts.
Proof.
  induction files as [|file files IH]; intros diffs w d' w' H; simpl in H.
  - injection H as <- <-. exists []. simpl. now rewrite with_net_nil.
  - apply bind_returns in H as (d1 & w1 & Hf & H).
    apply gather_file_returns in Hf as (f & Hfact & -> & -> & Hname).
    apply IH in H as (facts & Hfacts & -> & -> & Hall).
    exists (f :: facts). simpl. rewrite Hfact.
    simpl in Hfacts. rewrite length_app in Hfacts. simpl in Hfacts.
    replace (length (net_log w) + 1) with (S (length (net_log w))) in Hfacts by lia.
    rewrite Hfacts. rewrite with_net_app. simpl.
    repeat split; try reflexivity. now constructor.
Qed.

Lemma gather_files_world E h files : forall diffs w r w',
  gather_files E h files diffs w = (r, w') ->
  exists calls, w' = with_net calls w /\ length calls <= length files.
Proof.
  induction files as [|file files IH]; intros diffs w r w' H; simpl in H.
  - injection H as <- <-. exists []. rewrite with_net_nil. simpl. now split.
  - apply bind_cases in H as [(e & He & _) | (d1 & w1 & Hf & H)].
    + apply gather_file_world in He as (calls & -> & Hlen).
      exists calls. split; [reflexivity | simpl; lia].
    + apply gather_file_world in Hf as (c1 & -> & Hl1).
      apply IH in H as (c2 & -> & Hl2). rewrite with_net_app.
      exists (c1 ++ c2). split; [reflexivity|]. rewrite length_app. simpl. lia.
Qed.

Lemma fetch_pr_data_returns E st w description files_data w1 :
  fetch_pr_data E st w = (Returns (description, files_data), w1) ->
  exists reference files_url,
    extract_reference st w = (Returns reference, w)
    /\ w1 = with_net [metadata_call E reference;
                      {| nc_url := files_url; nc_headers := request_headers E |}] w.
Proof.
  unfold fetch_pr_data. intros H.
  apply bind_returns in H as ([[owner repo] number] & w0 & Href & H).
  pose proof (pure_extract_reference _ _ _ _ Href) as ->.
  apply bind_returns in H as (resp & w0 & Hr & H).
  apply requests_get_world in Hr as [_ ->].
  apply bind_returns in H as (pr_data & w0 & Hj & H). apply pure_lift in Hj as ->.
  apply bind_returns in H as (desc & w0 & Hd & H). apply pure_py_get in Hd as ->.
  apply bind_returns in H as (links & w0 & Hl & H). apply pure_py_get in Hl as ->.
  apply bind_returns in H as (self & w0 & Hs & H). apply pure_py_get in Hs as ->.
  apply bind_returns in H as (href & w0 & Hh & H). apply pure_py_get in Hh as ->.
  apply bind_returns in H as (files_url & w0 & Hu & H). apply pure_py_add_str in Hu as ->.
  apply bind_returns in H as (fresp & w0 & Hfr & H).
  apply requests_get_world in Hfr as [_ ->].
  apply bind_returns in H as (fdata & w0 & Hfd & H). apply pure_lift in Hfd as ->.
  injection H as _ _ <-.
  exists (owner, repo, number), files_url. split; [exact Href|].
  rewrite with_net_app. reflexivity.
Qed.

Lemma fetch_pr_data_world E st w r w1 :
  fetch_pr_data E st w = (r, w1) ->
  exists calls, w1 = with_net calls w /\ length calls <= 2.
Proof.
  unfold fetch_pr_data. intros H.
  assert (forall w0, exists calls, w0 = with_net calls w0 /\ length calls <= 0) as Hnil.
  { intros w0. exists []. rewrite with_net_nil. simpl. now split. }
  apply bind_cases in H as [(e & He & _) | ([[owner repo] number] & w0 & Href & H)].
  { apply pure_extract_reference in He as ->. exists []. rewrite with_net_nil.
    simpl. split; [reflexivity | lia]. }
  apply pure_extract_reference in Href as ->.
  apply bind_cases in H as [(e & He & _) | (resp & w0 & Hr & H)].
  { apply requests_get_world in He as [_ ->]. eexists. split; [reflexivity | simpl; lia]. }
  apply requests_get_world in Hr as [_ ->].
  assert (forall A (m : M A) B (k : A -> M B) r0 w2,
            pure m ->
            (forall a, k a (with_net [metadata_call E (owner, repo, number)] w) = (r0, w2) ->
               exists calls, w2 = with_net calls w /\ length calls <= 2) ->
            bind m k (with_net [metadata_call E (owner, repo, number)] w) = (r0, w2) ->
            exists calls, w2 = with_net calls w /\ length calls <= 2) as Hstep.
  { intros A m B k r0 w2 Hm Hk Hrun.
    apply bind_cases in Hrun as [(e & He & _) | (a & w3 & Ha & Hrun)].
    - apply Hm in He as ->. eexists. split; [reflexivity | simpl; lia].
    - apply Hm in Ha as ->. now apply Hk in Hrun. }
  revert H. apply Hstep; [apply pure_lift | intros pr_data].
  apply Hstep; [apply pure_py_get | intros desc].
  apply Hstep; [apply pure_py_get | intros links].
  apply Hstep; [apply pure_py_get | intros self].
  apply Hstep; [apply pure_py_get | intros href].
  apply Hstep; [apply pure_py_add_str | intros files_url].
  intros H.
  apply bind_cases in H as [(e & He & _) | (fresp & w0 & Hfr & H)].
  { apply requests_get_world in He as [_ ->]. rewrite with_net_app.
    eexists. split; [reflexivity | simpl; lia]. }
  apply requests_get_world in Hfr as [_ ->].
  assert (pure (files_data <- lift (resp_json fresp) ;; ret (desc, files_data))) as Hp.
  { apply pure_bind; [apply pure_lift | intros; apply pure_ret]. }
  apply Hp in H as ->. rewrite with_net_app.
  eexists. split; [reflexivity | simpl; lia].
Qed.

Lemma gather_pr_info_returns E st w update w' :
  gather_pr_info E st w = (Returns update, w') ->
  exists description files_data files facts w1,
    fetch_pr_data E st w = (Returns (description, files_data), w1)
    /\ py_iter files_data w1 = (Returns files, w1)
    /\ fetch_facts E (length (net_log w1)) (request_headers E) files = Some facts
    /\ w' = with_net (map (raw_call (request_headers E)) files) w1
    /\ update = [("pr_info", PDict [("description", description);
                                    ("diffs", PDict (fold_left store facts []))])]
    /\ Forall (fun f => accepted_type (f_type f) = true ->
                 exists name, f_name f = PStr name /\
                   (PyStr.endswith ".excalidraw" name = false ->
                    PyStr.utf8_valid (f_content f) = true)) facts.
Proof.
  unfold gather_pr_info. intros H.
  apply bind_returns in H as ([desc files_data] & w1 & Hfetch & H).
  apply bind_returns in H as (files & w2 & Hiter & H).
  pose proof (pure_py_iter _ _ _ _ Hiter) as ->.
  apply bind_returns in H as (diffs & w2 & Hloop & H).
  apply gather_files_returns in Hloop as (facts & Hfacts & -> & -> & Hall).
  injection H as <- <-.
  now exists desc, files_data, files, facts, w1.
Qed.

Lemma gather_pr_info_world E st w r w' :
  gather_pr_info E st w = (r, w') -> exists calls, w' = with_net calls w.
Proof.
  unfold gather_pr_info. intros H.
  apply bind_cases in H as [(e & He & _) | ([desc files_data] & w1 & Hfetch & H)].
  { apply fetch_pr_data_world in He as (calls & -> & _). now exists calls. }
  apply fetch_pr_data_world in Hfetch as (c1 & -> & _).
  apply bind_cases in H as [(e & He & _) | (files & w2 & Hiter & H)].
  { apply pure_py_iter in He as ->. now exists c1. }
  apply pure_py_iter in Hiter as ->.
  apply bind_cases in H as [(e & He & _) | (diffs & w2 & Hloop & H)].
  { apply gather_files_world in He as (c2 & -> & _). rewrite with_net_app. now eexists. }
  apply gather_files_world in Hloop as (c2 & -> & _).
  injection H as _ <-. rewrite with_net_app. now eexists.
Qed.

(** ** What the loop leaves in [diffs] *)

Lemma store_get (diffs : dict) (f : Fetched) (name : string) :
  PyDict.get name (store diffs f) =
    if kept f then
      match f_name f with
      | PStr n => if String.eqb n name then Some (diff_entry f) else PyDict.get name diffs
      | _ => PyDict.get name diffs
      end
    else PyDict.get name diffs.
Proof.
  unfold store. destruct (f_name f) eqn:Hn; destruct (kept f) eqn:Hk; try reflexivity.
  apply PyDictFacts.get_set.
Qed.

Lemma fold_store_other (facts : list Fetched) : forall (diffs : dict) (name : string),
  (forall g, In g facts -> f_name g <> PStr name) ->
  PyDict.get name (fold_left store facts diffs) = PyDict.get name diffs.
Proof.
  induction facts as [|f facts IH]; intros diffs name Hother; simpl; [reflexivity|].
  rewrite IH by (intros g Hg; apply Hother; now right).
  rewrite store_get. destruct (kept f); [|reflexivity].
  destruct (f_name f) eqn:Hn; try reflexivity.
  destruct (String.eqb s name) eqn:Hs; [|reflexivity].
  apply String.eqb_eq in Hs as ->. exfalso. apply (Hother f); [now left | exact Hn].
Qed.

Lemma fold_store_keys (facts : list Fetched) : forall (diffs : dict) (name : string),
  is_Some (PyDict.get name (fold_left store facts diffs)) <->
  is_Some (PyDict.get name diffs)
  \/ exists f, In f facts /\ f_name f = PStr name /\ kept f = true.
Proof.
  induction facts as [|f facts IH]; intros diffs name; simpl.
  - split; [now left | intros [H | (f & [] & _)]; exact H].
  - rewrite IH, store_get. split.
    + intros [H | (g & Hg & Hn & Hk)].
      * destruct (kept f) eqn:Hk; [|now left].
        destruct (f_name f) eqn:Hn; try (now left).
        destruct (String.eqb s name) eqn:Hs; [|now left].
        apply String.eqb_eq in Hs as ->. right. exists f. auto.
      * right. exists g. auto.
    + intros [H | (g & [<- | Hg] & Hn & Hk)].
      * left. destruct (kept f); [|exact H].
        destruct (f_name f); try exact H.
        destruct (String.eqb s name); [now eexists | exact H].
      * left. rewrite Hk, Hn, String.eqb_refl. now eexists.
      * right. exists g. auto.
Qed.

Lemma fold_store_unique (facts : list Fetched) :
  forall (diffs : dict) (i : nat) (f : Fetched) (name : string),
  facts !! i = Some f ->
  f_name f = PStr name ->
  (forall j g, facts !! j = Some g -> j <> i -> f_name g <> PStr name) ->
  PyDict.get name (fold_left store facts diffs) =
    if kept f then Some (diff_entry f) else PyDict.get name diffs.
Proof.
  induction facts as [|g facts IH]; intros diffs i f name Hi Hn Huniq; [discriminate|].
  destruct i as [|i]; simpl in *.
  - injection Hi as ->. rewrite fold_store_other.
    + rewrite store_get, Hn, String.eqb_refl. reflexivity.
    + intros g Hg. apply list_elem_of_In, list_elem_of_lookup in Hg as [j Hj].
      apply (Huniq (S j)); [exact Hj | lia].
  - rewrite (IH _ i f name Hi Hn).
    + destruct (kept f); [reflexivity|].
      rewrite store_get. destruct (kept g); [|reflexivity].
      destruct (f_name g) eqn:Hg; try reflexivity.
      destruct (String.eqb s name) eqn:Hs; [|reflexivity].
      apply String.eqb_eq in Hs as ->. exfalso.
      apply (Huniq 0 g); [reflexivity | lia | exact Hg].
    + intros j g' Hj Hne. apply (Huniq (S j)); [exact Hj | lia].
Qed.

Lemma fetch_fact_entry_name E k h file f :
  fetch_fact E k h file = Some f -> entry_name file = Some (f_name f).
Proof.
  unfold fetch_fact, entry_name. destruct file; try discriminate.
  destruct (PyDict.get "filename" d); [|discriminate].
  destruct (PyDict.get "raw_url" d); [|discriminate].
  destruct (http_get E k p0 h); [discriminate|].
  destruct (mime_from_buffer E (resp_content a)); [discriminate|].
  intros H. now injection H as <-.
Qed.

Lemma fetch_facts_lookup E h files : forall k facts,
  fetch_facts E k h files = Some facts ->
  length facts = length files
  /\ forall i file, files !! i = Some file ->
       exists f, facts !! i = Some f /\ fetch_fact E (k + i) h file = Some f.
Proof.
  induction files as [|file files IH]; intros k facts H; simpl in H.
  - injection H as <-. split; [reflexivity | intros i file Hi; discriminate].
  - destruct (fetch_fact E k h file) as [f|] eqn:Hf; [|discriminate].
    destruct (fetch_facts E (S k) h files) as [fs|] eqn:Hfs; [|discriminate].
    injection H as <-. apply IH in Hfs as [Hlen Hfs]. split; [simpl; lia|].
    intros [|i] file' Hi; simpl in Hi.
    + injection Hi as <-. exists f. rewrite Nat.add_0_r. now split.
    + apply Hfs in Hi as (f' & Hf' & Hfact). exists f'. split; [exact Hf'|].
      now replace (k + S i) with (S k + i) by lia.
Qed.

Lemma fetch_facts_names E h files : forall k facts,
  fetch_facts E k h files = Some facts ->
  map entry_name files = map (fun f => Some (f_name f)) facts.
Proof.
  induction files as [|file files IH]; intros k facts H; simpl in H.
  - now injection H as <-.
  - destruct (fetch_fact E k h file) as [f|] eqn:Hf; [|discriminate].
    destruct (fetch_facts E (S k) h files) as [fs|] eqn:Hfs; [|discriminate].
    injection H as <-. simpl. f_equal; [now apply fetch_fact_entry_name in Hf|].
    now apply IH in Hfs.
Qed.

Lemma kept_accepted (f : Fetched) :
  (accepted_type (f_type f) = true -> exists name, f_name f = PStr name) ->
  kept f = true <-> accepted (f_type f) (f_name f).
Proof.
  intros Hname. unfold kept, accepted, accepted_type in *.
  rewrite andb_true_iff, orb_true_iff. split.
  - intros [Hacc Hsfx]. split; [exact Hacc|]. intros (name & Hn & He).
    rewrite Hn in Hsfx. now rewrite He in Hsfx.
  - intros [Hacc Hsfx]. split; [exact Hacc|].
    destruct Hname as [name Hn]; [now apply orb_true_iff|].
    rewrite Hn. destruct (PyStr.endswith ".excalidraw" name) eqn:He; [|reflexivity].
    exfalso. apply Hsfx. now exists name.
Qed.

Lemma fetch_pr_data_first_call E st w reference r w1 :
  extract_reference st w = (Returns reference, w) ->
  fetch_pr_data E st w = (r, w1) ->
  exists later, w1 = with_net (metadata_call E reference :: later) w /\ length later <= 1.
Proof.
  intros Href. unfold fetch_pr_data. unfold bind at 1. rewrite Href.
  destruct reference as [[owner repo] number]. intros H.
  apply bind_cases in H as [(e & He & _) | (resp & w0 & Hr & H)].
  { apply requests_get_world in He as [_ ->]. exists []. split; [reflexivity | simpl; lia]. }
  apply requests_get_world in Hr as [_ ->].
  assert (forall A (m : M A) B (k : A -> M B) r0 w2,
            pure m ->
            (forall a, k a (with_net [metadata_call E (owner, repo, number)] w) = (r0, w2) ->
               exists later, w2 = with_net (metadata_call E (owner, repo, number) :: later) w
                             /\ length later <= 1) ->
            bind m k (with_net [metadata_call E (owner, repo, number)] w) = (r0, w2) ->
            exists later, w2 = with_net (metadata_call E (owner, repo, number) :: later) w
                          /\ length later <= 1) as Hstep.
  { intros A m B k r0 w2 Hm Hk Hrun.
    apply bind_cases in Hrun as [(e & He & _) | (a & w3 & Ha & Hrun)].
    - apply Hm in He as ->. exists []. split; [reflexivity | simpl; lia].
    - apply Hm in Ha as ->. now apply Hk in Hrun. }
  revert H. apply Hstep; [apply pure_lift | intros pr_data].
  apply Hstep; [apply pure_py_get | intros desc].
  apply Hstep; [apply pure_py_get | intros links].
  apply Hstep; [apply pure_py_get | intros self].
  apply Hstep; [apply pure_py_get | intros href].
  apply Hstep; [apply pure_py_add_str | intros files_url].
  intros H.
  apply bind_cases in H as [(e & He & _) | (fresp & w0 & Hfr & H)].
  { apply requests_get_world in He as [_ ->]. rewrite with_net_app.
    eexists. split; [reflexivity | simpl; lia]. }
  apply requests_get_world in Hfr as [_ ->].
  assert (pure (files_data <- lift (resp_json fresp) ;; ret (desc, files_data))) as Hp.
  { apply pure_bind; [apply pure_lift | intros; apply pure_ret]. }
  apply Hp in H as ->. rewrite with_net_app.
  eexists. split; [reflexivity | simpl; lia].
Qed.

Lemma gather_first_call E st w reference r w' :
  extract_reference st w = (Returns reference, w) ->
  gather_pr_info E st w = (r, w') ->
  exists later, w' = with_net (metadata_call E reference :: later) w.
Proof.
  intros Href. unfold gather_pr_info. intros H.
  apply bind_cases in H as [(e & He & _) | ([desc files_data] & w1 & Hfetch & H)].
  { apply (fetch_pr_data_first_call _ _ _ _ _ _ Href) in He as (later & -> & _).
    now exists later. }
  apply (fetch_pr_data_first_call _ _ _ _ _ _ Href) in Hfetch as (l1 & -> & _).
  apply bind_cases in H as [(e & He & _) | (files & w2 & Hiter & H)].
  { apply pure_py_iter in He as ->. now exists l1. }
  apply pure_py_iter in Hiter as ->.
  apply bind_cases in H as [(e & He & _) | (diffs & w2 & Hloop & H)].
  { apply gather_files_world in He as (c2 & -> & _). rewrite with_net_app.
    now exists (l1 ++ c2). }
  apply gather_files_world in Hloop as (c2 & -> & _).
  injection H as _ <-. rewrite with_net_app. now exists (l1 ++ c2).
Qed.

Lemma extract_reference_raises_gather E st w e :
  extract_reference st w = (Raises e, w) ->
  gather_pr_info E st w = (Raises e, w).
Proof.
  intros H. unfold gather_pr_info, fetch_pr_data, bind. now rewrite H.
Qed.

(** ** The analysis stages *)

Lemma stage_fn_analysis E s a :
  analysis_of s = Some a -> stage_fn E s = run_analysis E a.
Proof. destruct s; simpl; intros H; inversion H; reflexivity. Qed.

Lemma generate_run E req w :
  generate E req w =
    (Returns (reply_of (chat_create E (length (gen_log w)) req)),
     after_generate req (chat_create E (length (gen_log w)) req) w).
Proof.
  unfold generate, try_except, bind, chat_completions_create, after_generate.
  destruct (chat_create E (length (gen_log w)) req) as [e | [|[text|] choices]];
    reflexivity.
Qed.

Lemma run_analysis_returns E a st w p :
  an_prompt a E st w = (Returns p, w) ->
  run_analysis E a st w =
    (Returns [(an_key a, PStr (reply_of (chat_create E (length (gen_log w)) (request_of a p))))],
     log_out (an_label a +:+ reply_of (chat_create E (length (gen_log w)) (request_of a p)))
       (after_generate (request_of a p)
          (chat_create E (length (gen_log w)) (request_of a p)) w)).
Proof.
  intros Hp. unfold run_analysis, bind. rewrite Hp.
  fold (request_of a p). rewrite generate_run. reflexivity.
Qed.

Lemma run_analysis_raises E a st w e w1 :
  an_prompt a E st w = (Raises e, w1) -> run_analysis E a st w = (Raises e, w1).
Proof. intros Hp. unfold run_analysis, bind. now rewrite Hp. Qed.

(** A stage that returns, returns one key. *)
Lemma stage_update_shape E s st w update w' :
  stage_fn E s st w = (Returns update, w') ->
  exists v, update = [(written_key s, v)].
Proof.
  destruct (analysis_of s) as [a|] eqn:Ha.
  - rewrite (stage_fn_analysis E s a Ha). unfold written_key. rewrite Ha.
    unfold run_analysis. intros H.
    apply bind_returns in H as (p & w1 & _ & H).
    apply bind_returns in H as (reply & w2 & _ & H).
    apply bind_returns in H as (u & w3 & _ & H).
    injection H as <- _. now eexists.
  - destruct s; try discriminate. simpl. intros H.
    apply gather_pr_info_returns in H as (d & fd & fl & facts & w1 & _ & _ & _ & _ & -> & _).
    now eexists.
Qed.

(** ** The runner on this graph *)

Lemma run_steps_single policy limit g name fn st w :
  PyDict.get name (sg_nodes g) = Some fn ->
  (forall update w1, fn st (log_event (NodeStart name st) w) = (Returns update, w1) ->
     exists k v, update = [(k, v)]) ->
  run_steps policy (S limit) g [name] st w =
    (st' <- (log_node (NodeStart name st) ;;;
             update <- fn st ;;
             log_node (NodeEnd name update) ;;;
             apply_update policy (sg_channels g) update st) ;;
     run_steps policy limit g (next_active g [name]) st') w.
Proof.
  intros Hnode Hshape. simpl. rewrite Hnode. unfold bind, log_node. simpl.
  destruct (fn st (log_event (NodeStart name st) w)) as [[e|update] w1] eqn:Hfn;
    [reflexivity|].
  destruct (Hshape _ _ eq_refl) as (k & v & ->). simpl.
  destruct (declared (sg_channels g) k); simpl; unfold bind;
    destruct (apply_update policy (sg_channels g) [(k, v)] st (log_event (NodeEnd name [(k, v)]) w1))
      as [[e|st'] w2]; reflexivity.
Qed.

Lemma bind_congr {A B} (m : M A) (f g : A -> M B) w :
  (forall a w1, f a w1 = g a w1) -> bind m f w = bind m g w.
Proof. intros H. unfold bind. destruct (m w) as [[e|a] w1]; [reflexivity | apply H]. Qed.

Lemma bind_ret_r {A} (m : M A) w : bind m ret w = m w.
Proof. unfold bind, ret. now destruct (m w) as [[e|a] w1]. Qed.

Lemma run_steps_stage E s limit st w :
  run_steps (undeclared_keys E) (S limit) (workflow E) [stage_name s] st w =
    (st' <- run_stage E s st ;;
     run_steps (undeclared_keys E) limit (workflow E)
       (next_active (workflow E) [stage_name s]) st') w.
Proof.
  rewrite (run_steps_single _ _ _ _ (stage_fn E s)).
  - reflexivity.
  - now destruct s.
  - intros update w1 H. apply stage_update_shape in H as [v ->]. now eexists _, _.
Qed.

Lemma app_invoke_pipeline E st w : app_invoke E st w = pipeline E st w.
Proof.
  unfold app_invoke, invoke, pipeline.
  change (sg_entry (workflow E)) with (Some "gather_pr_info"). cbv beta iota.
  unfold recursion_limit.
  rewrite (run_steps_stage E Gather). apply bind_congr. intros st1 w1.
  change (next_active (workflow E) [stage_name Gather]) with [stage_name Contextualize].
  rewrite (run_steps_stage E Contextualize). apply bind_congr. intros st2 w2.
  change (next_active (workflow E) [stage_name Contextualize])
    with [stage_name ExtractFeatures].
  rewrite (run_steps_stage E ExtractFeatures). apply bind_congr. intros st3 w3.
  change (next_active (workflow E) [stage_name ExtractFeatures])
    with [stage_name ExpertChecklist].
  rewrite (run_steps_stage E ExpertChecklist). apply bind_congr. intros st4 w4.
  change (next_active (workflow E) [stage_name ExpertChecklist])
    with [stage_name FinalReview].
  rewrite (run_steps_stage E FinalReview).
  change (next_active (workflow E) [stage_name FinalReview]) with (@nil string).
  apply bind_ret_r.
Qed.

Lemma apply_update_declared policy k v st w :
  declared PRState_keys k = true ->
  apply_update policy PRState_keys [(k, v)] st w = (Returns (PyDict.set k v st), w).
Proof.
  intros Hk. destruct policy; unfold apply_update; cbn [write_update forallb fst];
    rewrite Hk; reflexivity.
Qed.

Lemma run_stage_gather_cases E st w r w' :
  run_stage E Gather st w = (r, w') ->
  (exists e, gather_pr_info E st (log_event (NodeStart "gather_pr_info" st) w) = (Raises e, w')
             /\ r = Raises e)
  \/ (exists info wg,
        gather_pr_info E st (log_event (NodeStart "gather_pr_info" st) w)
          = (Returns [("pr_info", info)], wg)
        /\ r = Returns (PyDict.set "pr_info" info st)
        /\ w' = log_event (NodeEnd "gather_pr_info" [("pr_info", info)]) wg).
Proof.
  unfold run_stage, bind, log_node. simpl stage_fn. simpl stage_name.
  destruct (gather_pr_info E st (log_event (NodeStart "gather_pr_info" st) w))
    as [[e|update] wg] eqn:Hg.
  - intros H. injection H as <- <-. left. now exists e.
  - destruct (stage_update_shape E Gather _ _ _ _ Hg) as [info ->].
    change (written_key Gather) with "pr_info".
    rewrite apply_update_declared by reflexivity.
    intros H. injection H as <- <-. right. now exists info, wg.
Qed.

Lemma run_stage_analysis E s a st w p :
  analysis_of s = Some a ->
  (forall w0, an_prompt a E st w0 = (Returns p, w0)) ->
  run_stage E s st w =
    apply_update (undeclared_keys E) PRState_keys
      [(an_key a, PStr (reply_of (chat_create E (length (gen_log w)) (request_of a p))))] st
      (analysis_world s a st p (chat_create E (length (gen_log w)) (request_of a p)) w).
Proof.
  intros Ha Hp. unfold run_stage. rewrite (stage_fn_analysis E s a Ha).
  unfold bind at 1. unfold log_node at 1. unfold bind at 1.
  rewrite (run_analysis_returns E a st _ p (Hp _)).
  reflexivity.
Qed.

Lemma analysis_world_gen_log s a st p r w :
  gen_log (analysis_world s a st p r w) = gen_log w ++ [(request_of a p, r)].
Proof. unfold analysis_world, after_generate. destruct (failure_of r); reflexivity. Qed.

Lemma analysis_world_node_log s a st p r w :
  node_log (analysis_world s a st p r w) =
    node_log w ++ [NodeStart (stage_name s) st;
                   NodeEnd (stage_name s) [(an_key a, PStr (reply_of r))]].
Proof.
  unfold analysis_world, after_generate. destruct (failure_of r); simpl;
    now rewrite <- app_assoc.
Qed.

Lemma analysis_world_net_log s a st p r w :
  net_log (analysis_world s a st p r w) = net_log w.
Proof. unfold analysis_world, after_generate. destruct (failure_of r); reflexivity. Qed.

Lemma analysis_world_fs s a st p r w : fs (analysis_world s a st p r w) = fs w.
Proof. unfold analysis_world, after_generate. destruct (failure_of r); reflexivity. Qed.

(** A state of the run: the reference, the gathered information and the
    replies stored so far. *)
Lemma initial_state_analysed url :
  initial_state url = analysed_state url (PStr EmptyString) EmptyString EmptyString EmptyString.
Proof. reflexivity. Qed.

Lemma pipeline_summary E url w r w' :
  pipeline E (initial_state url) w = (r, w') ->
  (exists e,
     gather_pr_info E (initial_state url)
       (log_event (NodeStart "gather_pr_info" (initial_state url)) w) = (Raises e, w')
     /\ r = Raises e)
  \/ (exists info wg a1 a2 a3 a4 p1 p2 p3 p4 r1 r2 r3 r4 w1 w2 w3,
        gather_pr_info E (initial_state url)
          (log_event (NodeStart "gather_pr_info" (initial_state url)) w)
          = (Returns [("pr_info", info)], wg)
        /\ analysis_of Contextualize = Some a1
        /\ analysis_of ExtractFeatures = Some a2
        /\ analysis_of ExpertChecklist = Some a3
        /\ analysis_of FinalReview = Some a4
        /\ (forall w0, an_prompt a1 E (analysed_state url info EmptyString EmptyString EmptyString) w0
                        = (Returns p1, w0))
        /\ r1 = chat_create E (length (gen_log w)) (request_of a1 p1)
        /\ w1 = analysis_world Contextualize a1
                  (analysed_state url info EmptyString EmptyString EmptyString) p1 r1
                  (gathered_world info wg)
        /\ (forall w0, an_prompt a2 E (analysed_state url info (reply_of r1) EmptyString EmptyString) w0
                        = (Returns p2, w0))
        /\ r2 = chat_create E (S (length (gen_log w))) (request_of a2 p2)
        /\ w2 = analysis_world ExtractFeatures a2
                  (analysed_state url info (reply_of r1) EmptyString EmptyString) p2 r2 w1
        /\ (forall w0, an_prompt a3 E (analysed_state url info (reply_of r1) (reply_of r2) EmptyString) w0
                        = (Returns p3, w0))
        /\ r3 = chat_create E (S (S (length (gen_log w)))) (request_of a3 p3)
        /\ w3 = analysis_world ExpertChecklist a3
                  (analysed_state url info (reply_of r1) (reply_of r2) EmptyString) p3 r3 w2
        /\ (forall w0, an_prompt a4 E
                         (analysed_state url info (reply_of r1) (reply_of r2) (reply_of r3)) w0
                        = (Returns p4, w0))
        /\ r4 = chat_create E (S (S (S (length (gen_log w))))) (request_of a4 p4)
        /\ w' = analysis_world FinalReview a4
                  (analysed_state url info (reply_of r1) (reply_of r2) (reply_of r3)) p4 r4 w3
        /\ r = final_outcome (undeclared_keys E) url info
                 (reply_of r1) (reply_of r2) (reply_of r3) (reply_of r4)).
Proof.
  unfold pipeline. intros H.
  apply bind_cases in H as [(e & He & ->) | (st1 & wa & Hg & H)].
  { apply run_stage_gather_cases in He as [(e' & He' & Heq) | (info & wg & _ & Heq & _)];
      [|discriminate].
    injection Heq as <-. left. now exists e. }
  apply run_stage_gather_cases in Hg as [(e' & _ & Heq) | (info & wg & Hg & Heq & ->)];
    [discriminate|].
  injection Heq as Heq. subst st1. right.
  destruct (gather_pr_info_world _ _ _ _ _ Hg) as [calls Hwg].
  assert (gen_log wg = gen_log w) as Hgen by (rewrite Hwg; reflexivity).
  change (PyDict.set "pr_info" info (initial_state url))
    with (analysed_state url info EmptyString EmptyString EmptyString) in H.
  fold (gathered_world info wg) in H.
  (* contextualize *)
  pose (a1 := {| an_prompt := contextualize_prompt; an_role := reviewer_role;
                 an_temperature := 6 # 10; an_label := "context: "; an_key := "context" |}).
  pose (p1 := contextualize_prompt_0 +:+ json_dumps E (Some 2) info +:+ contextualize_prompt_1).
  assert (forall w0, an_prompt a1 E (analysed_state url info EmptyString EmptyString EmptyString) w0
                     = (Returns p1, w0)) as Hp1 by reflexivity.
  unfold bind at 1 in H.
  rewrite (run_stage_analysis E Contextualize a1 _ _ p1 eq_refl Hp1) in H.
  rewrite apply_update_declared in H by reflexivity.
  change (length (gen_log (gathered_world info wg))) with (length (gen_log wg)) in H.
  rewrite Hgen in H.
  set (r1 := chat_create E (length (gen_log w)) (request_of a1 p1)) in *.
  set (w1 := analysis_world Contextualize a1 _ p1 r1 (gathered_world info wg)) in *.
  change (PyDict.set (an_key a1) (PStr (reply_of r1))
            (analysed_state url info EmptyString EmptyString EmptyString))
    with (analysed_state url info (reply_of r1) EmptyString EmptyString) in H.
  assert (length (gen_log w1) = S (length (gen_log w))) as Hl1.
  { subst w1. rewrite analysis_world_gen_log, length_app.
    change (gen_log (gathered_world info wg)) with (gen_log wg). rewrite Hgen. simpl. lia. }
  (* extract features *)
  pose (a2 := {| an_prompt := extract_features_prompt; an_role := reviewer_role;
                 an_temperature := 6 # 10; an_label := "features: "; an_key := "features" |}).
  pose (p2 := features_prompt_0 +:+ json_dumps E (Some 2) info
              +:+ features_prompt_1 +:+ py_format E (PStr (reply_of r1))
              +:+ features_prompt_2).
  assert (forall w0, an_prompt a2 E (analysed_state url info (reply_of r1) EmptyString EmptyString) w0
                     = (Returns p2, w0)) as Hp2 by reflexivity.
  unfold bind at 1 in H.
  rewrite (run_stage_analysis E ExtractFeatures a2 _ _ p2 eq_refl Hp2) in H.
  rewrite apply_update_declared in H by reflexivity.
  rewrite Hl1 in H.
  set (r2 := chat_create E (S (length (gen_log w))) (request_of a2 p2)) in *.
  set (w2 := analysis_world ExtractFeatures a2 _ p2 r2 w1) in *.
  change (PyDict.set (an_key a2) (PStr (reply_of r2))
            (analysed_state url info (reply_of r1) EmptyString EmptyString))
    with (analysed_state url info (reply_of r1) (reply_of r2) EmptyString) in H.
  assert (length (gen_log w2) = S (S (length (gen_log w)))) as Hl2.
  { subst w2. rewrite analysis_world_gen_log, length_app, Hl1. simpl. lia. }
  (* expert checklist *)
  pose (a3 := {| an_prompt := create_expert_checklist_prompt; an_role := checklist_role;
                 an_temperature := 6 # 10; an_label := "team_review: ";
                 an_key := "team_review" |}).
  pose (p3 := checklist_prompt_0 +:+ py_format E info
              +:+ checklist_prompt_1 +:+ py_format E (PStr (reply_of r1))
              +:+ checklist_prompt_2 +:+ py_format E (PStr (reply_of r2))
              +:+ checklist_prompt_3).
  assert (forall w0, an_prompt a3 E
                       (analysed_state url info (reply_of r1) (reply_of r2) EmptyString) w0
                     = (Returns p3, w0)) as Hp3 by reflexivity.
  unfold bind at 1 in H.
  rewrite (run_stage_analysis E ExpertChecklist a3 _ _ p3 eq_refl Hp3) in H.
  rewrite apply_update_declared in H by reflexivity.
  rewrite Hl2 in H.
  set (r3 := chat_create E (S (S (length (gen_log w)))) (request_of a3 p3)) in *.
  set (w3 := analysis_world ExpertChecklist a3 _ p3 r3 w2) in *.
  change (PyDict.set (an_key a3) (PStr (reply_of r3))
            (analysed_state url info (reply_of r1) (reply_of r2) EmptyString))
    with (analysed_state url info (reply_of r1) (reply_of r2) (reply_of r3)) in H.
  assert (length (gen_log w3) = S (S (S (length (gen_log w))))) as Hl3.
  { subst w3. rewrite analysis_world_gen_log, length_app, Hl2. simpl. lia. }
  (* final review *)
  pose (a4 := {| an_prompt := final_review_prompt; an_role := final_role;
                 an_temperature := 7 # 10; an_label := "final report: ";
                 an_key := "final report" |}).
  pose (p4 := final_prompt_0
              +:+ py_format E (PDict (analysed_state url info (reply_of r1) (reply_of r2) (reply_of r3)))
              +:+ final_prompt_1).
  assert (forall w0, an_prompt a4 E
                       (analysed_state url info (reply_of r1) (reply_of r2) (reply_of r3)) w0
                     = (Returns p4, w0)) as Hp4 by reflexivity.
  rewrite (run_stage_analysis E FinalReview a4 _ _ p4 eq_refl Hp4) in H.
  rewrite Hl3 in H.
  set (r4 := chat_create E (S (S (S (length (gen_log w))))) (request_of a4 p4)) in *.
  set (w4 := analysis_world FinalReview a4 _ p4 r4 w3) in *.
  exists info, wg, a1, a2, a3, a4, p1, p2, p3, p4, r1, r2, r3, r4, w1, w2, w3.
  assert (w' = w4 /\ r = final_outcome (undeclared_keys E) url info
                           (reply_of r1) (reply_of r2) (reply_of r3) (reply_of r4)) as [-> ->].
  { unfold apply_update, final_outcome in *.
    destruct (undeclared_keys E); simpl in H; injection H as <- <-; split; reflexivity. }
  repeat split; try reflexivity; assumption.
Qed.

Lemma new_events_app w w' evs :
  node_log w' = node_log w ++ evs -> new_events w w' = evs.
Proof. intros H. unfold new_events. rewrite H. apply drop_app_length. Qed.

Lemma new_generations_app w w' gs :
  gen_log w' = gen_log w ++ gs -> new_generations w w' = gs.
Proof. intros H. unfold new_generations. rewrite H. apply drop_app_length. Qed.

Lemma new_calls_app w w' cs :
  net_log w' = net_log w ++ cs -> new_calls w w' = cs.
Proof. intros H. unfold new_calls. rewrite H. apply drop_app_length. Qed.

(** Every run of the graph from the script's initial state, in full: either
    the gather stage raises, or the four generation calls follow it. *)
Lemma run_summary E url w r w' :
  app_invoke E (initial_state url) w = (r, w') ->
  (exists e calls,
     gather_pr_info E (initial_state url)
       (log_event (NodeStart "gather_pr_info" (initial_state url)) w) = (Raises e, w')
     /\ r = Raises e
     /\ w' = with_net calls (log_event (NodeStart "gather_pr_info" (initial_state url)) w))
  \/ (exists info wg calls r1 r2 r3 r4,
        gather_pr_info E (initial_state url)
          (log_event (NodeStart "gather_pr_info" (initial_state url)) w)
          = (Returns [("pr_info", info)], wg)
        /\ wg = with_net calls (log_event (NodeStart "gather_pr_info" (initial_state url)) w)
        /\ r1 = chat_create E (length (gen_log w))
                  (chat_request reviewer_role (contextualize_text E info) (6 # 10))
        /\ r2 = chat_create E (S (length (gen_log w)))
                  (chat_request reviewer_role
                     (extract_features_text E info (reply_of r1)) (6 # 10))
        /\ r3 = chat_create E (S (S (length (gen_log w))))
                  (chat_request checklist_role
                     (create_expert_checklist_text E info (reply_of r1) (reply_of r2)) (6 # 10))
        /\ r4 = chat_create E (S (S (S (length (gen_log w)))))
                  (chat_request final_role
                     (final_review_text E
                        (analysed_state url info (reply_of r1) (reply_of r2) (reply_of r3)))
                     (7 # 10))
        /\ r = final_outcome (undeclared_keys E) url info
                 (reply_of r1) (reply_of r2) (reply_of r3) (reply_of r4)
        /\ node_log w' = node_log w ++
             completed_events url info (reply_of r1) (reply_of r2) (reply_of r3) (reply_of r4)
        /\ gen_log w' = gen_log w ++
             [(chat_request reviewer_role (contextualize_text E info) (6 # 10), r1);
              (chat_request reviewer_role
                 (extract_features_text E info (reply_of r1)) (6 # 10), r2);
              (chat_request checklist_role
                 (create_expert_checklist_text E info (reply_of r1) (reply_of r2)) (6 # 10), r3);
              (chat_request final_role
                 (final_review_text E
                    (analysed_state url info (reply_of r1) (reply_of r2) (reply_of r3)))
                 (7 # 10), r4)]
        /\ net_log w' = net_log w ++ calls
        /\ fs w' = fs w).
Proof.
  rewrite app_invoke_pipeline. intros H.
  apply pipeline_summary in H as [(e & Hg & ->) | H].
  - left. destruct (gather_pr_info_world _ _ _ _ _ Hg) as [calls Hw].
    now exists e, calls.
  - right.
    destruct H as (info & wg & a1 & a2 & a3 & a4 & p1 & p2 & p3 & p4 & r1 & r2 & r3 & r4
                   & w1 & w2 & w3 & Hg & Ha1 & Ha2 & Ha3 & Ha4 & Hp1 & Hr1 & Hw1 & Hp2 & Hr2
                   & Hw2 & Hp3 & Hr3 & Hw3 & Hp4 & Hr4 & Hw' & Hr).
    destruct (gather_pr_info_world _ _ _ _ _ Hg) as [calls Hwg].
    simpl in Ha1, Ha2, Ha3, Ha4.
    injection Ha1 as <-. injection Ha2 as <-. injection Ha3 as <-. injection Ha4 as <-.
    specialize (Hp1 empty_world). specialize (Hp2 empty_world).
    specialize (Hp3 empty_world). specialize (Hp4 empty_world).
    cbn in Hp1, Hp2, Hp3, Hp4.
    injection Hp1 as Hp1. injection Hp2 as Hp2. injection Hp3 as Hp3. injection Hp4 as Hp4.
    exists info, wg, calls, r1, r2, r3, r4.
    split; [exact Hg|]. split; [exact Hwg|].
    split; [rewrite Hr1, <- Hp1; reflexivity|].
    split; [rewrite Hr2, <- Hp2; reflexivity|].
    split; [rewrite Hr3, <- Hp3; reflexivity|].
    split; [rewrite Hr4, <- Hp4; reflexivity|].
    split; [exact Hr|].
    split.
    { rewrite Hw', analysis_world_node_log, Hw3, analysis_world_node_log, Hw2,
        analysis_world_node_log, Hw1, analysis_world_node_log, Hwg.
      simpl. rewrite <- !app_assoc. reflexivity. }
    split.
    { rewrite Hw', analysis_world_gen_log, Hw3, analysis_world_gen_log, Hw2,
        analysis_world_gen_log, Hw1, analysis_world_gen_log, Hwg.
      simpl. rewrite <- !app_assoc. simpl.
      rewrite <- Hp1, <- Hp2, <- Hp3, <- Hp4. reflexivity. }
    split.
    { rewrite Hw', analysis_world_net_log, Hw3, analysis_world_net_log, Hw2,
        analysis_world_net_log, Hw1, analysis_world_net_log, Hwg. reflexivity. }
    rewrite Hw', analysis_world_fs, Hw3, analysis_world_fs, Hw2,
      analysis_world_fs, Hw1, analysis_world_fs, Hwg. reflexivity.
Qed.

(** ** The claims about the gather stage *)

Lemma list_index_from_end {A} (l : list A) (k : nat) (x : A) (w : World) :
  reverse l !! k = Some x ->
  list_index l (- Z.of_nat (S k)) w = (Returns x, w).
Proof.
  intros Hx. apply reverse_lookup_Some in Hx as [Hx Hk].
  unfold list_index.
  assert ((- Z.of_nat (S k) <? 0)%Z = true) as -> by (apply Z.ltb_lt; lia).
  assert (((- Z.of_nat (S k) + Z.of_nat (length l) <? 0)
           || (Z.of_nat (length l) <=? - Z.of_nat (S k) + Z.of_nat (length l)))%Z = false)
    as ->.
  { apply orb_false_iff. split; [apply Z.ltb_ge | apply Z.leb_gt]; lia. }
  replace (Z.to_nat (- Z.of_nat (S k) + Z.of_nat (length l))) with (length l - S k) by lia.
  now rewrite Hx.
Qed.

Lemma list_index_too_short {A} (l : list A) (k : nat) (w : World) :
  length l < k ->
  list_index l (- Z.of_nat k) w = (Raises (Exn IndexError "list index out of range"), w).
Proof.
  intros Hk. unfold list_index.
  assert ((- Z.of_nat k <? 0)%Z = true) as -> by (apply Z.ltb_lt; lia).
  assert (((- Z.of_nat k + Z.of_nat (length l) <? 0)
           || (Z.of_nat (length l) <=? - Z.of_nat k + Z.of_nat (length l)))%Z = true)
    as ->.
  { apply orb_true_iff. left. apply Z.ltb_lt. lia. }
  reflexivity.
Qed.

(** C3. For every reference whose form without trailing slashes splits on
    '/' into at least four segments, the extraction of the gather stage
    returns, and yields the fourth-from-last segment as owner, the
    third-from-last as repository and the last as number. *)
Theorem C3_reference_extraction (url : string) (st : dict) (w : World) :
  PyDict.get "pr_url" st = Some (PStr url) ->
  4 <= length (url_segments url) ->
  exists owner repo number,
    extract_reference st w = (Returns (owner, repo, number), w)
    /\ reverse (url_segments url) !! 3 = Some owner
    /\ reverse (url_segments url) !! 2 = Some repo
    /\ reverse (url_segments url) !! 0 = Some number
    /\ forall E r w', gather_pr_info E st w = (r, w') ->
         exists later,
           new_calls w w' =
             {| nc_url := PStr ("https://api.github.com/repos/" +:+ owner +:+ "/" +:+ repo
                                +:+ "/pulls/" +:+ number);
                nc_headers := request_headers E |} :: later.
Proof.
  intros Hurl Hlen.
  assert (forall k, k < 4 -> is_Some (reverse (url_segments url) !! k)) as Hseg.
  { intros k Hk. apply lookup_lt_is_Some. rewrite length_reverse. lia. }
  destruct (Hseg 3) as [owner Ho]; [lia|].
  destruct (Hseg 2) as [repo Hr]; [lia|].
  destruct (Hseg 0) as [number Hn]; [lia|].
  exists owner, repo, number.
  assert (extract_reference st w = (Returns (owner, repo, number), w)) as Href.
  { unfold extract_reference, bind, getitem. rewrite Hurl. simpl.
    change (-4)%Z with (- Z.of_nat 4)%Z. rewrite (list_index_from_end _ 3 owner) by exact Ho.
    change (-3)%Z with (- Z.of_nat 3)%Z. rewrite (list_index_from_end _ 2 repo) by exact Hr.
    change (-1)%Z with (- Z.of_nat 1)%Z. rewrite (list_index_from_end _ 0 number) by exact Hn.
    reflexivity. }
  repeat split; try assumption.
  intros E r w' Hrun.
  destruct (gather_first_call E st w _ r w' Href Hrun) as [later ->].
  exists later. now apply new_calls_app.
Qed.

Lemma C3_witness :
  exists owner repo number,
    extract_reference (initial_state Demo.reference) empty_world
      = (Returns (owner, repo, number), empty_world)
    /\ reverse (url_segments Demo.reference) !! 3 = Some owner
    /\ reverse (url_segments Demo.reference) !! 2 = Some repo
    /\ reverse (url_segments Demo.reference) !! 0 = Some number
    /\ forall E r w', gather_pr_info E (initial_state Demo.reference) empty_world = (r, w') ->
         exists later,
           new_calls empty_world w' =
             {| nc_url := PStr ("https://api.github.com/repos/" +:+ owner +:+ "/" +:+ repo
                                +:+ "/pulls/" +:+ number);
                nc_headers := request_headers E |} :: later.
Proof.
  apply (C3_reference_extraction Demo.reference (initial_state Demo.reference) empty_world).
  - reflexivity.
  - vm_compute. lia.
Defined.

Lemma validate_env_vars_pure E : pure (validate_env_vars E).
Proof.
  unfold validate_env_vars.
  destruct (List.filter (env_missing E) required_vars); [apply pure_ret | apply pure_raise].
Qed.

Lemma write_file_fs content filename w r w' :
  write_file content filename w = (r, w') ->
  PyDict.mem filename (fs w') = true.
Proof.
  unfold write_file, bind, set_file. destruct content; intros H; injection H as _ <-;
    simpl; unfold PyDict.mem; now rewrite !PyDictFacts.get_set_eq.
Qed.

(** C4. For every reference with fewer than four segments the
    decomposition raises IndexError on its first index, the graph run
    aborts inside the gather stage (the node has started and never ends, no
    request is sent, nothing is generated), and the script ends with an
    exception without writing any file: the fault of the gather stage when
    the environment check passes. *)
Theorem C4_malformed_reference_aborts (E : Env) (url : string) (w : World) :
  length (url_segments url) < 4 ->
  extract_reference (initial_state url) w
    = (Raises (Exn IndexError "list index out of range"), w)
  /\ app_invoke E (initial_state url) w
     = (Raises (Exn IndexError "list index out of range"),
        log_event (NodeStart "gather_pr_info" (initial_state url)) w)
  /\ exists e w',
       main E url w = (Raises e, w')
       /\ fs w' = fs w /\ net_log w' = net_log w /\ gen_log w' = gen_log w
       /\ (validate_env_vars E w = (Returns tt, w) ->
           e = Exn IndexError "list index out of range").
Proof.
  intros Hlen.
  assert (forall w0, extract_reference (initial_state url) w0
                     = (Raises (Exn IndexError "list index out of range"), w0)) as Href.
  { intros w0. unfold extract_reference, bind. simpl.
    change (-4)%Z with (- Z.of_nat 4)%Z. now rewrite list_index_too_short. }
  assert (app_invoke E (initial_state url) w
          = (Raises (Exn IndexError "list index out of range"),
             log_event (NodeStart "gather_pr_info" (initial_state url)) w)) as Hrun.
  { rewrite app_invoke_pipeline. unfold pipeline, bind, run_stage, bind, log_node.
    simpl stage_fn. now rewrite (extract_reference_raises_gather E _ _ _ (Href _)). }
  split; [apply Href|]. split; [exact Hrun|].
  unfold main, bind.
  destruct (validate_env_vars E w) as [[e|[]] w1] eqn:Hv.
  - apply validate_env_vars_pure in Hv as ->. exists e, w.
    repeat split; try reflexivity. discriminate.
  - apply validate_env_vars_pure in Hv as ->. rewrite Hrun.
    eexists _, _. repeat split; reflexivity.
Qed.

Lemma C4_witness :
  extract_reference (initial_state "not-a-valid-url") empty_world
    = (Raises (Exn IndexError "list index out of range"), empty_world)
  /\ app_invoke (Demo.env Demo.github Demo.always_answers IgnoreUndeclared)
       (initial_state "not-a-valid-url") empty_world
     = (Raises (Exn IndexError "list index out of range"),
        log_event (NodeStart "gather_pr_info" (initial_state "not-a-valid-url")) empty_world)
  /\ exists e w',
       main (Demo.env Demo.github Demo.always_answers IgnoreUndeclared)
         "not-a-valid-url" empty_world = (Raises e, w')
       /\ fs w' = fs empty_world /\ net_log w' = net_log empty_world
       /\ gen_log w' = gen_log empty_world
       /\ (validate_env_vars (Demo.env Demo.github Demo.always_answers IgnoreUndeclared)
             empty_world = (Returns tt, empty_world) ->
           e = Exn IndexError "list index out of range").
Proof.
  apply (C4_malformed_reference_aborts
           (Demo.env Demo.github Demo.always_answers IgnoreUndeclared)
           "not-a-valid-url" empty_world).
  vm_compute. lia.
Defined.

(** C10. A stage that returns, returns an update with exactly one key;
    once the runner has merged it, whatever it does with an undeclared key,
    every field of the state other than the stage's own output field is as
    it was: the gather stage leaves [pr_url] alone, an analysis stage leaves
    [pr_info] and the reports of the earlier stages alone. *)
Theorem C10_single_field_update
    (E : Env) (s : Stage) (st st' update : dict) (w w1 w2 : World) :
  stage_fn E s st w = (Returns update, w1) ->
  apply_update (undeclared_keys E) PRState_keys update st w1 = (Returns st', w2) ->
  (exists v, update = [(written_key s, v)])
  /\ forall field,
       In field PRState_keys -> field <> output_field s ->
       PyDict.get field st' = PyDict.get field st.
Proof.
  intros Hs Hm. destruct (stage_update_shape E s st w update w1 Hs) as [v ->].
  split; [now exists v|]. intros field Hin Hne.
  destruct (declared PRState_keys (written_key s)) eqn:Hd.
  - rewrite apply_update_declared in Hm by exact Hd. injection Hm as <- _.
    apply PyDictFacts.get_set_ne. intros Heq. apply Hne. rewrite <- Heq.
    destruct s; try reflexivity. discriminate.
  - destruct s; try discriminate. unfold apply_update in Hm.
    destruct (undeclared_keys E); simpl in Hm; try discriminate; injection Hm as <- _.
    + reflexivity.
    + apply PyDictFacts.get_set_ne. change (written_key FinalReview) with "final report".
      intros <-. simpl in Hin. intuition discriminate.
Qed.

Lemma C10_witness :
  (exists v, [("context", PStr "LGTM")] = [(written_key Contextualize, v)])
  /\ forall field,
       In field PRState_keys -> field <> output_field Contextualize ->
       PyDict.get field
         (analysed_state Demo.reference Demo.gathered_info "LGTM" EmptyString EmptyString)
       = PyDict.get field
           (analysed_state Demo.reference Demo.gathered_info EmptyString EmptyString EmptyString).
Proof.
  apply (C10_single_field_update
           (Demo.env Demo.github Demo.always_answers IgnoreUndeclared) Contextualize
           (analysed_state Demo.reference Demo.gathered_info EmptyString EmptyString EmptyString)
           _ _ empty_world
           (snd (contextualize_info
                   (Demo.env Demo.github Demo.always_answers IgnoreUndeclared)
                   (analysed_state Demo.reference Demo.gathered_info
                      EmptyString EmptyString EmptyString) empty_world))
           (snd (contextualize_info
                   (Demo.env Demo.github Demo.always_answers IgnoreUndeclared)
                   (analysed_state Demo.reference Demo.gathered_info
                      EmptyString EmptyString EmptyString) empty_world))).
  - vm_compute. reflexivity.
  - vm_compute. reflexivity.
Defined.

(** The keys of [diffs] after a gather stage that returned, with no
    assumption on the listing: a name is a key exactly when some listed
    entry of that name was accepted. *)
Lemma gather_diffs_keys (E : Env) (st update : dict) (w w1 w' : World)
    (description : pyval) (files : list pyval) :
  fetch_pr_data E st w = (Returns (description, PList files), w1) ->
  gather_pr_info E st w = (Returns update, w') ->
  exists diffs,
    update = [("pr_info", PDict [("description", description); ("diffs", PDict diffs)])]
    /\ forall name,
         is_Some (PyDict.get name diffs) <->
         exists i file f,
           files !! i = Some file
           /\ fetch_fact E (length (net_log w1) + i) (request_headers E) file = Some f
           /\ f_name f = PStr name
           /\ accepted (f_type f) (f_name f).
Proof.
  intros Hfetch Hrun.
  apply gather_pr_info_returns in Hrun
    as (d & fd & fl & facts & w1' & Hfetch' & Hiter & Hfacts & _ & -> & Hall).
  rewrite Hfetch in Hfetch'. injection Hfetch' as <- <- <-.
  simpl in Hiter. injection Hiter as <-.
  eexists. split; [reflexivity|]. intros name.
  rewrite fold_store_keys. simpl.
  destruct (fetch_facts_lookup _ _ _ _ _ Hfacts) as [Hlen Hlookup].
  rewrite Forall_forall in Hall.
  split.
  - intros [[x Hx] | (f & Hin & Hn & Hk)]; [discriminate|].
    pose proof Hin as Hin'. apply list_elem_of_In, list_elem_of_lookup in Hin' as [i Hi].
    assert (is_Some (files !! i)) as [file Hfile].
    { apply lookup_lt_is_Some. rewrite <- Hlen. now apply lookup_lt_is_Some. }
    destruct (Hlookup i file Hfile) as (f' & Hf' & Hfact).
    rewrite Hi in Hf'. injection Hf' as <-.
    exists i, file, f. repeat split; try assumption.
    + apply kept_accepted; [|exact Hk]. intros Hacc.
      destruct (Hall f (proj2 (list_elem_of_In _ _) Hin) Hacc) as (n & Hn' & _). now exists n.
    + apply kept_accepted; [|exact Hk]. intros Hacc.
      destruct (Hall f (proj2 (list_elem_of_In _ _) Hin) Hacc) as (n & Hn' & _). now exists n.
  - intros (i & file & f & Hfile & Hfact & Hn & Hacc). right.
    destruct (Hlookup i file Hfile) as (f' & Hf' & Hfact').
    rewrite Hfact in Hfact'. injection Hfact' as <-.
    assert (In f facts) as Hin by (apply list_elem_of_In; eapply list_elem_of_lookup_2; eauto).
    exists f. repeat split; try assumption.
    apply kept_accepted; [|exact Hacc]. intros Ht.
    destruct (Hall f (proj2 (list_elem_of_In _ _) Hin) Ht) as (n & Hn' & _). now exists n.
Qed.

(** C2. When the gather stage returns and the listing names each file
    once, a listed file is a key of [diffs] if and only if its detected
    content type contains "text" or "json" and its name does not end in
    ".excalidraw"; when it is, the entry holds its patch and its decoded
    content. *)
Theorem C2_diffs_inclusion (E : Env) (st update : dict) (w w1 w' : World)
    (description : pyval) (files : list pyval) :
  fetch_pr_data E st w = (Returns (description, PList files), w1) ->
  gather_pr_info E st w = (Returns update, w') ->
  NoDup (map entry_name files) ->
  exists diffs,
    update = [("pr_info", PDict [("description", description); ("diffs", PDict diffs)])]
    /\ forall i file,
         files !! i = Some file ->
         exists f,
           fetch_fact E (length (net_log w1) + i) (request_headers E) file = Some f
           /\ (included (f_name f) diffs <-> accepted (f_type f) (f_name f))
           /\ (accepted (f_type f) (f_name f) ->
               exists name,
                 f_name f = PStr name
                 /\ PyDict.get name diffs = Some (diff_entry f)).
Proof.
  intros Hfetch Hrun Hnodup.
  apply gather_pr_info_returns in Hrun
    as (d & fd & fl & facts & w1' & Hfetch' & Hiter & Hfacts & _ & -> & Hall).
  rewrite Hfetch in Hfetch'. injection Hfetch' as <- <- <-.
  simpl in Hiter. injection Hiter as <-.
  eexists. split; [reflexivity|]. intros i file Hfile.
  destruct (fetch_facts_lookup _ _ _ _ _ Hfacts) as [Hlen Hlookup].
  destruct (Hlookup i file Hfile) as (f & Hf & Hfact).
  exists f. split; [exact Hfact|].
  rewrite Forall_forall in Hall.
  assert (In f facts) as Hin by (apply list_elem_of_In; eapply list_elem_of_lookup_2; eauto).
  assert (accepted_type (f_type f) = true -> exists name, f_name f = PStr name) as Hname.
  { intros Ht. destruct (Hall f (proj2 (list_elem_of_In _ _) Hin) Ht) as (n & Hn & _).
    now exists n. }
  (* no other listed file carries the same name *)
  assert (forall name, f_name f = PStr name ->
            forall j g, facts !! j = Some g -> j <> i -> f_name g <> PStr name) as Huniq.
  { intros name Hn j g Hg Hji Hgn.
    rewrite (fetch_facts_names _ _ _ _ _ Hfacts) in Hnodup.
    apply Hji. eapply NoDup_lookup; [exact Hnodup | |].
    - rewrite list_lookup_fmap, Hg. simpl. rewrite Hgn. reflexivity.
    - rewrite list_lookup_fmap, Hf. simpl. rewrite Hn. reflexivity. }
  split.
  - rewrite <- (kept_accepted f Hname). unfold included. split.
    + intros (name & Hn & Hsome).
      rewrite (fold_store_unique facts [] i f name Hf Hn (Huniq name Hn)) in Hsome.
      destruct (kept f); [reflexivity|]. destruct Hsome as [x Hx]. discriminate.
    + intros Hk. destruct Hname as [name Hn].
      { unfold kept in Hk. now apply andb_true_iff in Hk as [Hk _]. }
      exists name. split; [exact Hn|].
      rewrite (fold_store_unique facts [] i f name Hf Hn (Huniq name Hn)), Hk. now eexists.
  - intros Hacc. apply (kept_accepted f Hname) in Hacc as Hk.
    destruct Hname as [name Hn].
    { unfold kept in Hk. now apply andb_true_iff in Hk as [Hk _]. }
    exists name. split; [exact Hn|].
    now rewrite (fold_store_unique facts [] i f name Hf Hn (Huniq name Hn)), Hk.
Qed.

Lemma C2_witness :
  exists diffs,
    [("pr_info", Demo.gathered_info)]
      = [("pr_info", PDict [("description", PStr "Adds a label parser");
                            ("diffs", PDict diffs)])]
    /\ forall i file,
         Demo.listing !! i = Some file ->
         exists f,
           fetch_fact (Demo.env Demo.github Demo.always_answers IgnoreUndeclared)
             (2 + i)
             (request_headers (Demo.env Demo.github Demo.always_answers IgnoreUndeclared))
             file = Some f
           /\ (included (f_name f) diffs <-> accepted (f_type f) (f_name f))
           /\ (accepted (f_type f) (f_name f) ->
               exists name,
                 f_name f = PStr name
                 /\ PyDict.get name diffs = Some (diff_entry f)).
Proof.
  apply (C2_diffs_inclusion
           (Demo.env Demo.github Demo.always_answers IgnoreUndeclared)
           (initial_state Demo.reference) _ empty_world
           (snd (fetch_pr_data (Demo.env Demo.github Demo.always_answers IgnoreUndeclared)
                   (initial_state Demo.reference) empty_world))
           (snd (gather_pr_info (Demo.env Demo.github Demo.always_answers IgnoreUndeclared)
                   (initial_state Demo.reference) empty_world))).
  - vm_compute. reflexivity.
  - vm_compute. reflexivity.
  - simpl. repeat (apply NoDup_cons; split; [rewrite ?elem_of_cons, elem_of_nil; intuition discriminate|]).
    apply NoDup_nil. exact I.
Defined.

Lemma new_calls_with_net w cs : new_calls w (with_net cs w) = cs.
Proof. now apply new_calls_app. Qed.

(** C7, as amended. When the file listing returns [n] changed files, a
    gather stage that returns has sent exactly 2 + n requests: the metadata
    request, the listing request, and one raw-content request per listed
    file, in the order of the listing; a gather stage that raises has sent
    at most 2 + n. *)
Theorem C7_network_calls (E : Env) (st : dict) (w w1 w' : World)
    (description : pyval) (files : list pyval) (r : outcome dict) :
  fetch_pr_data E st w = (Returns (description, PList files), w1) ->
  gather_pr_info E st w = (r, w') ->
  length (new_calls w w') <= 2 + length files
  /\ forall update,
       r = Returns update ->
       length (new_calls w w') = 2 + length files
       /\ exists reference files_url,
            extract_reference st w = (Returns reference, w)
            /\ new_calls w w' =
                 metadata_call E reference
                 :: {| nc_url := files_url; nc_headers := request_headers E |}
                 :: map (raw_call (request_headers E)) files.
Proof.
  intros Hfetch Hrun. split.
  - unfold gather_pr_info in Hrun.
    apply bind_cases in Hrun as [(e & He & _) | (pd & w1' & Hf & Hrun)];
      [rewrite Hfetch in He; discriminate|].
    rewrite Hfetch in Hf. injection Hf as <- <-.
    apply fetch_pr_data_returns in Hfetch as (reference & files_url & _ & ->).
    apply bind_cases in Hrun as [(e & He & _) | (fl & w2 & Hiter & Hrun)];
      [discriminate|].
    injection Hiter as <- <-.
    assert (exists calls, w' = with_net calls
                                 (with_net [metadata_call E reference;
                                            {| nc_url := files_url;
                                               nc_headers := request_headers E |}] w)
                          /\ length calls <= length files) as (calls & -> & Hlen).
    { apply bind_cases in Hrun as [(e & He & _) | (diffs & w2 & Hloop & Hrun)].
      - now apply gather_files_world in He.
      - injection Hrun as _ <-. now apply gather_files_world in Hloop. }
    rewrite with_net_app, new_calls_with_net.
    rewrite length_app. simpl. lia.
  - intros update ->.
    apply gather_pr_info_returns in Hrun
      as (d & fd & fl & facts & w1' & Hfetch' & Hiter & _ & -> & _ & _).
    rewrite Hfetch in Hfetch'. injection Hfetch' as <- <- <-.
    simpl in Hiter. injection Hiter as <-.
    apply fetch_pr_data_returns in Hfetch as (reference & files_url & Href & ->).
    rewrite with_net_app, new_calls_with_net.
    split; [simpl; rewrite length_map; lia|].
    now exists reference, files_url.
Qed.

Lemma C7_witness :
  length (new_calls empty_world
            (snd (gather_pr_info (Demo.env Demo.github Demo.always_answers IgnoreUndeclared)
                    (initial_state Demo.reference) empty_world)))
    <= 2 + length Demo.listing
  /\ forall update,
       Returns [("pr_info", Demo.gathered_info)] = Returns update ->
       length (new_calls empty_world
                 (snd (gather_pr_info
                         (Demo.env Demo.github Demo.always_answers IgnoreUndeclared)
                         (initial_state Demo.reference) empty_world)))
         = 2 + length Demo.listing
       /\ exists reference files_url,
            extract_reference (initial_state Demo.reference) empty_world
              = (Returns reference, empty_world)
            /\ new_calls empty_world
                 (snd (gather_pr_info
                         (Demo.env Demo.github Demo.always_answers IgnoreUndeclared)
                         (initial_state Demo.reference) empty_world))
               = metadata_call
                   (Demo.env Demo.github Demo.always_answers IgnoreUndeclared) reference
                 :: {| nc_url := files_url;
                       nc_headers :=
                         request_headers
                           (Demo.env Demo.github Demo.always_answers IgnoreUndeclared) |}
                 :: map (raw_call
                           (request_headers
                              (Demo.env Demo.github Demo.always_answers IgnoreUndeclared)))
                        Demo.listing.
Proof.
  apply (C7_network_calls
           (Demo.env Demo.github Demo.always_answers IgnoreUndeclared)
           (initial_state Demo.reference) empty_world
           (snd (fetch_pr_data (Demo.env Demo.github Demo.always_answers IgnoreUndeclared)
                   (initial_state Demo.reference) empty_world))
           _ (PStr "Adds a label parser") Demo.listing).
  - vm_compute. reflexivity.
  - vm_compute. reflexivity.
Defined.

(** C7 as stated fails: the listing returns two files, the first is
    Latin-1 text that libmagic calls text/plain, [decode('utf-8')] raises,
    and the stage ends after three requests instead of four. *)
Lemma C7_counterexample :
  let E := Demo.env Demo.github_latin1 Demo.always_answers IgnoreUndeclared in
  let run := gather_pr_info E (initial_state Demo.reference) empty_world in
  fst (fetch_pr_data E (initial_state Demo.reference) empty_world)
    = Returns (PStr "Adds a label parser", PList Demo.latin1_listing)
  /\ length Demo.latin1_listing = 2
  /\ fst run = Raises (Exn UnicodeDecodeError "'utf-8' codec can't decode byte")
  /\ length (new_calls empty_world (snd run)) = 3
  /\ length (new_calls empty_world (snd run)) <> 2 + length Demo.latin1_listing.
Proof. vm_compute. repeat split; try reflexivity. discriminate. Qed.

(** ** The claims about the whole run *)

Lemma stage_name_inj s s' : stage_name s = stage_name s' -> s = s'.
Proof. destruct s, s'; simpl; intros H; try reflexivity; discriminate. Qed.

Ltac pick_event := simpl; repeat first [left; reflexivity | right].

Ltac populated_tac :=
  eexists _, _, _; split; [reflexivity|]; split; [pick_event|]; split; reflexivity.

(** C6, as amended. In every run the stages that start do so in the
    fixed order gather, contextualize, extract features, expert checklist,
    final review, each at most once, and an analysis stage starts only when
    each of its input fields holds the value returned by the stage that
    produces it; in every run in which the gather stage returns, all five
    stages run, each exactly once. *)
Theorem C6_stage_order (E : Env) (url : string) (w w' : World) (r : outcome dict) :
  app_invoke E (initial_state url) w = (r, w') ->
  started (new_events w w') `prefix_of` stage_order
  /\ NoDup (started (new_events w w'))
  /\ (forall i s st field,
        In s analysis_stages ->
        new_events w w' !! i = Some (NodeStart (stage_name s) st) ->
        In field (stage_inputs s) ->
        populated (take i (new_events w w')) st field)
  /\ ((exists update, In (NodeEnd "gather_pr_info" update) (new_events w w')) ->
      started (new_events w w') = stage_order).
Proof.
  intros Hrun.
  assert (NoDup stage_order) as Hnd.
  { unfold stage_order. simpl.
    repeat (apply NoDup_cons; split;
            [rewrite ?elem_of_cons, elem_of_nil; intuition discriminate|]).
    apply NoDup_nil. exact I. }
  apply run_summary in Hrun as [(e & calls & _ & _ & ->) | Hrun].
  - assert (new_events w (with_net calls (log_event (NodeStart "gather_pr_info" (initial_state url)) w))
            = [NodeStart "gather_pr_info" (initial_state url)]) as ->
      by (now apply new_events_app).
    simpl. split; [now exists (tail stage_order)|].
    split; [apply NoDup_singleton|].
    split.
    + intros [|i] s st field Hs Hi Hf; simpl in Hi; [|destruct i; discriminate].
      injection Hi as Hname _. apply (stage_name_inj Gather) in Hname. subst s.
      simpl in Hs. intuition discriminate.
    + intros [update [Hin | []]]. discriminate.
  - destruct Hrun as (info & wg & calls & r1 & r2 & r3 & r4 & _ & _ & _ & _ & _ & _ & _
                      & Hlog & _).
    rewrite (new_events_app _ _ _ Hlog).
    split; [now exists []|]. split; [exact Hnd|].
    split; [|reflexivity].
    intros i s st field Hs Hi Hf.
    do 10 (destruct i as [|i];
           [solve [ simpl in Hi; discriminate
                  | injection Hi as Hname <-;
                    first [apply (stage_name_inj Gather) in Hname
                          | apply (stage_name_inj Contextualize) in Hname
                          | apply (stage_name_inj ExtractFeatures) in Hname
                          | apply (stage_name_inj ExpertChecklist) in Hname
                          | apply (stage_name_inj FinalReview) in Hname];
                    subst s; simpl in Hf, Hs;
                    first [ intuition discriminate
                          | repeat (destruct Hf as [<- | Hf]; [populated_tac|]);
                            contradiction ] ]|]).
    simpl in Hi. discriminate.
Qed.

Lemma C6_witness :
  let E := Demo.env Demo.github Demo.last_fails IgnoreUndeclared in
  let w' := snd (app_invoke E (initial_state Demo.reference) empty_world) in
  started (new_events empty_world w') `prefix_of` stage_order
  /\ NoDup (started (new_events empty_world w'))
  /\ (forall i s st field,
        In s analysis_stages ->
        new_events empty_world w' !! i = Some (NodeStart (stage_name s) st) ->
        In field (stage_inputs s) ->
        populated (take i (new_events empty_world w')) st field)
  /\ ((exists update, In (NodeEnd "gather_pr_info" update) (new_events empty_world w')) ->
      started (new_events empty_world w') = stage_order).
Proof.
  intros E w'.
  apply (C6_stage_order E Demo.reference empty_world w'
           (fst (app_invoke E (initial_state Demo.reference) empty_world))).
  vm_compute. reflexivity.
Defined.

(** C6 as stated fails: on the reference "not-a-valid-url" the gather
    stage raises and no other stage runs. *)
Lemma C6_counterexample :
  let E := Demo.env Demo.github Demo.always_answers IgnoreUndeclared in
  let run := app_invoke E (initial_state "not-a-valid-url") empty_world in
  fst run = Raises (Exn IndexError "list index out of range")
  /\ started (new_events empty_world (snd run)) = ["gather_pr_info"]
  /\ started (new_events empty_world (snd run)) <> stage_order.
Proof. vm_compute. repeat split; try reflexivity. discriminate. Qed.

Lemma completed_events_gather url info a1 a2 a3 a4 info' :
  In (NodeEnd "gather_pr_info" [("pr_info", info')]) (completed_events url info a1 a2 a3 a4) ->
  info' = info.
Proof.
  unfold completed_events. simpl. intros H.
  repeat (destruct H as [H | H]; [try discriminate; now injection H|]).
  contradiction.
Qed.

(** C8. Two runs from the same initial state, on the same runner, in
    which the gather stage produced the same information and the
    generation calls got the same responses, end alike: the same final
    state, or the same exception.  Nothing else about the collaborators
    needs to agree. *)
Theorem C8_deterministic (E1 E2 : Env) (url : string) (info : pyval)
    (w1 w1' w2 w2' : World) (r1 r2 : outcome dict) :
  undeclared_keys E1 = undeclared_keys E2 ->
  app_invoke E1 (initial_state url) w1 = (r1, w1') ->
  app_invoke E2 (initial_state url) w2 = (r2, w2') ->
  In (NodeEnd "gather_pr_info" [("pr_info", info)]) (new_events w1 w1') ->
  In (NodeEnd "gather_pr_info" [("pr_info", info)]) (new_events w2 w2') ->
  map snd (new_generations w1 w1') = map snd (new_generations w2 w2') ->
  r1 = r2.
Proof.
  intros Hpol H1 H2 Hg1 Hg2 Hgen.
  apply run_summary in H1 as [(e & calls & _ & _ & ->) | H1].
  { rewrite (new_events_app _ _ [NodeStart "gather_pr_info" (initial_state url)]) in Hg1
      by reflexivity.
    destruct Hg1 as [Hg1 | []]. discriminate. }
  apply run_summary in H2 as [(e & calls & _ & _ & ->) | H2].
  { rewrite (new_events_app _ _ [NodeStart "gather_pr_info" (initial_state url)]) in Hg2
      by reflexivity.
    destruct Hg2 as [Hg2 | []]. discriminate. }
  destruct H1 as (i1 & wg1 & c1 & a1 & a2 & a3 & a4 & _ & _ & _ & _ & _ & _ & -> & Hl1 & Hq1 & _).
  destruct H2 as (i2 & wg2 & c2 & b1 & b2 & b3 & b4 & _ & _ & _ & _ & _ & _ & -> & Hl2 & Hq2 & _).
  rewrite (new_events_app _ _ _ Hl1) in Hg1. apply completed_events_gather in Hg1.
  rewrite (new_events_app _ _ _ Hl2) in Hg2. apply completed_events_gather in Hg2.
  rewrite (new_generations_app _ _ _ Hq1), (new_generations_app _ _ _ Hq2) in Hgen.
  simpl in Hgen. injection Hgen as -> -> -> ->.
  rewrite Hpol. congruence.
Qed.

Lemma C8_witness :
  fst (app_invoke (Demo.env Demo.github Demo.last_fails KeepUndeclared)
         (initial_state Demo.reference) empty_world)
  = fst (app_invoke (Demo.mirror_env Demo.last_fails KeepUndeclared)
           (initial_state Demo.reference)
           (log_out "an earlier line" empty_world)).
Proof.
  apply (C8_deterministic
           (Demo.env Demo.github Demo.last_fails KeepUndeclared)
           (Demo.mirror_env Demo.last_fails KeepUndeclared)
           Demo.reference Demo.gathered_info
           empty_world
           (snd (app_invoke (Demo.env Demo.github Demo.last_fails KeepUndeclared)
                   (initial_state Demo.reference) empty_world))
           (log_out "an earlier line" empty_world)
           (snd (app_invoke (Demo.mirror_env Demo.last_fails KeepUndeclared)
                   (initial_state Demo.reference)
                   (log_out "an earlier line" empty_world)))).
  - reflexivity.
  - vm_compute. reflexivity.
  - vm_compute. reflexivity.
  - vm_compute. right. left. reflexivity.
  - vm_compute. right. left. reflexivity.
  - vm_compute. reflexivity.
Defined.

(** ** What a completed run leaves in the state *)

Lemma reply_of_failure r msg : failure_of r = Some msg -> reply_of r = placeholder.
Proof. destruct r as [e | [|[t|] cs]]; simpl; intros H; try reflexivity. discriminate. Qed.

Lemma reply_of_success t cs : reply_of (ChatResponse (Some t :: cs)) = PyStr.strip t.
Proof. reflexivity. Qed.

(** The first three analysis stages store their reply in their field; the
    reply of the final stage never reaches [final_report], which keeps the
    empty string of the initial state under every treatment of undeclared
    keys. *)
Lemma completed_run_fields E url w final w' :
  app_invoke E (initial_state url) w = (Returns final, w') ->
  exists info r1 r2 r3 r4,
    map snd (new_generations w w') = [r1; r2; r3; r4]
    /\ In (NodeEnd "final_review" [("final report", PStr (reply_of r4))]) (new_events w w')
    /\ PyDict.get "pr_url" final = Some (PStr url)
    /\ PyDict.get "pr_info" final = Some info
    /\ PyDict.get "context" final = Some (PStr (reply_of r1))
    /\ PyDict.get "features" final = Some (PStr (reply_of r2))
    /\ PyDict.get "team_review" final = Some (PStr (reply_of r3))
    /\ PyDict.get "final_report" final = Some (PStr EmptyString).
Proof.
  intros H. apply run_summary in H as [(e & calls & _ & Hr & _) | H]; [discriminate|].
  destruct H as (info & wg & calls & r1 & r2 & r3 & r4 & _ & _ & _ & _ & _ & _ & Hr
                 & Hlog & Hgen & _).
  exists info, r1, r2, r3, r4.
  rewrite (new_generations_app _ _ _ Hgen), (new_events_app _ _ _ Hlog).
  split; [reflexivity|]. split; [unfold completed_events; simpl; tauto|].
  unfold final_outcome in Hr.
  destruct (undeclared_keys E); try discriminate; injection Hr as ->;
    repeat split; reflexivity.
Qed.

(** An analysis stage never raises once the fields it formats are present:
    a failed generation call ends in the placeholder. *)
Lemma analysis_stage_contains_failure E s a st w p :
  analysis_of s = Some a ->
  (forall w0, an_prompt a E st w0 = (Returns p, w0)) ->
  exists reply w',
    stage_fn E s st w = (Returns [(an_key a, PStr reply)], w')
    /\ reply = reply_of (chat_create E (length (gen_log w)) (request_of a p))
    /\ (forall msg, failure_of (chat_create E (length (gen_log w)) (request_of a p)) = Some msg ->
          reply = placeholder)
    /\ (forall t cs, chat_create E (length (gen_log w)) (request_of a p)
                       = ChatResponse (Some t :: cs) ->
          reply = PyStr.strip t).
Proof.
  intros Ha Hp. rewrite (stage_fn_analysis E s a Ha), (run_analysis_returns E a st w p (Hp w)).
  eexists _, _. split; [reflexivity|]. split; [reflexivity|]. split.
  - intros msg Hmsg. now apply reply_of_failure in Hmsg.
  - intros t cs ->. reflexivity.
Qed.

(** C1 fails on the code. With every generation call failing, the run
    completes and three report fields hold the placeholder, but
    [final_report] keeps the empty string of the initial state: the final
    stage returns its placeholder under the key "final report".  Where the
    runner ignores or keeps that key both files are written, the report
    file empty; where it rejects the update, the script raises and writes
    nothing. *)
Theorem C1_final_report_left_empty :
  (exists final w',
     app_invoke (Demo.env Demo.github Demo.always_fails IgnoreUndeclared)
       (initial_state Demo.reference) empty_world = (Returns final, w')
     /\ map snd (gen_log w') = [ChatRaises Demo.quota; ChatRaises Demo.quota;
                                ChatRaises Demo.quota; ChatRaises Demo.quota]
     /\ PyDict.get "context" final = Some (PStr placeholder)
     /\ PyDict.get "features" final = Some (PStr placeholder)
     /\ PyDict.get "team_review" final = Some (PStr placeholder)
     /\ PyDict.get "final_report" final = Some (PStr EmptyString)
     /\ In (NodeEnd "final_review" [("final report", PStr placeholder)]) (node_log w')
     /\ fs (snd (main (Demo.env Demo.github Demo.always_fails IgnoreUndeclared)
                   Demo.reference empty_world))
        = [("result.json", "<json>"); ("final_report.md", EmptyString)])
  /\ (exists final w',
        app_invoke (Demo.env Demo.github Demo.always_fails KeepUndeclared)
          (initial_state Demo.reference) empty_world = (Returns final, w')
        /\ PyDict.get "final_report" final = Some (PStr EmptyString)
        /\ PyDict.get "final report" final = Some (PStr placeholder)
        /\ fs (snd (main (Demo.env Demo.github Demo.always_fails KeepUndeclared)
                      Demo.reference empty_world))
           = [("result.json", "<json>"); ("final_report.md", EmptyString)])
  /\ EmptyString <> placeholder
  /\ fst (main (Demo.env Demo.github Demo.always_fails RejectUndeclared)
            Demo.reference empty_world)
     = Raises (Exn InvalidUpdateError
                 "Expected node to update at least one of the state keys")
  /\ fs (snd (main (Demo.env Demo.github Demo.always_fails RejectUndeclared)
                Demo.reference empty_world)) = [].
Proof.
  split; [|split; [|split; [discriminate | split; vm_compute; reflexivity]]].
  - eexists _, _. vm_compute. split; [reflexivity|]. repeat split; tauto.
  - eexists _, _. vm_compute. split; [reflexivity|]. repeat split; tauto.
Qed.

(** C5 fails on the code for the final stage. Its generation call fails,
    the stage returns the placeholder without raising, and the run
    completes, but the placeholder goes under the key "final report":
    [final_report] is not set. *)
Theorem C5_final_stage_placeholder_lost :
  let E := Demo.env Demo.github Demo.last_fails IgnoreUndeclared in
  exists final w',
    app_invoke E (initial_state Demo.reference) empty_world = (Returns final, w')
    /\ map snd (gen_log w') = [ChatResponse [Some "  LGTM  "]; ChatResponse [Some "  LGTM  "];
                               ChatResponse [Some "  LGTM  "]; ChatRaises Demo.quota]
    /\ In (NodeEnd "final_review" [("final report", PStr placeholder)]) (node_log w')
    /\ PyDict.get "final_report" final = Some (PStr EmptyString)
    /\ PyDict.get "final_report" final <> Some (PStr placeholder).
Proof.
  eexists _, _. vm_compute. split; [reflexivity|]. repeat split; try tauto. discriminate.
Qed.

(** C9 fails on the code for the final stage. Its generation call
    answers "  LGTM  ", the stage returns the trimmed text under the key
    "final report", and [final_report] keeps the empty string. *)
Theorem C9_final_stage_reply_not_stored :
  let E := Demo.env Demo.github Demo.always_answers IgnoreUndeclared in
  exists final w',
    app_invoke E (initial_state Demo.reference) empty_world = (Returns final, w')
    /\ (forall k req, chat_create E k req = ChatResponse [Some "  LGTM  "])
    /\ PyStr.strip "  LGTM  " = "LGTM"
    /\ PyDict.get "context" final = Some (PStr "LGTM")
    /\ PyDict.get "features" final = Some (PStr "LGTM")
    /\ PyDict.get "team_review" final = Some (PStr "LGTM")
    /\ In (NodeEnd "final_review" [("final report", PStr "LGTM")]) (node_log w')
    /\ PyDict.get "final_report" final = Some (PStr EmptyString)
    /\ PyDict.get "final_report" final <> Some (PStr "LGTM").
Proof.
  eexists _, _. vm_compute. split; [reflexivity|]. repeat split; try tauto. discriminate.
Qed.

(** * Further properties *)

(** ** The environment check and the script as a whole *)




(** X2. When a required variable is unset or empty, the script raises
    EnvironmentError before it does anything else: no request, no
    generation call, no output, no file. *)
Theorem X2_missing_credentials_abort (E : Env) (url var : string) (w : World) :
  In var required_vars ->
  env_missing E var = true ->
  exists msg, main E url w = (Raises (Exn EnvironmentError msg), w).
Proof.
  intros Hin Hm. unfold main, bind, validate_env_vars.
  destruct (List.filter (env_missing E) required_vars) as [|m ms] eqn:Hf.
  - exfalso. assert (In var (List.filter (env_missing E) required_vars)) as Hv
      by (apply filter_In; now split).
    rewrite Hf in Hv. contradiction.
  - eexists. reflexivity.
Qed.

Lemma X2_witness :
  exists msg, main Demo2.bare_env Demo.reference empty_world
              = (Raises (Exn EnvironmentError msg), empty_world).
Proof.
  apply (X2_missing_credentials_abort Demo2.bare_env Demo.reference
           "GITHUB_PERSONAL_ACCESS" empty_world).
  - simpl. tauto.
  - reflexivity.
Defined.

Lemma app_invoke_fs E url w r w' :
  app_invoke E (initial_state url) w = (r, w') -> fs w' = fs w.
Proof.
  intros H. apply run_summary in H as [(e & calls & _ & _ & ->) | H]; [reflexivity|].
  now destruct H as (? & ? & ? & ? & ? & ? & ? & _ & _ & _ & _ & _ & _ & _ & _ & _ & _ & ?).
Qed.

Lemma app_invoke_final_report E url w final w' :
  app_invoke E (initial_state url) w = (Returns final, w') ->
  PyDict.get "final_report" final = Some (PStr EmptyString).
Proof.
  intros H. apply completed_run_fields in H.
  now destruct H as (? & ? & ? & ? & ? & _ & _ & _ & _ & _ & _ & _ & ?).
Qed.

(** X3. The script writes its two files together or not at all. When it
    raises, for whatever reason, the file system is as it found it; when it
    returns, the graph has returned a final state, [result.json] holds
    [json.dumps] of that state and [final_report.md] holds its
    [final_report] field, which is the empty string. *)
Theorem X3_artifacts_all_or_nothing (E : Env) (url : string) (w : World) :
  match main E url w with
  | (Raises _, w') => fs w' = fs w
  | (Returns _, w') =>
      exists final wr,
        app_invoke E (initial_state url) w = (Returns final, wr)
        /\ PyDict.get "final_report" final = Some (PStr EmptyString)
        /\ fs w' = PyDict.set "final_report.md" EmptyString
                     (PyDict.set "result.json" (json_dumps E None (PDict final)) (fs w))
  end.
Proof.
  unfold main, bind.
  destruct (validate_env_vars E w) as [[e|[]] w0] eqn:Hv;
    apply validate_env_vars_pure in Hv as ->; [reflexivity|].
  destruct (app_invoke E (initial_state url) w) as [[e|final] wr] eqn:Hrun.
  - now apply app_invoke_fs in Hrun.
  - pose proof (app_invoke_final_report _ _ _ _ _ Hrun) as Hfr.
    pose proof (app_invoke_fs _ _ _ _ _ Hrun) as Hfs.
    unfold write_file, bind, set_file, getitem. simpl. rewrite Hfr. simpl.
    exists final, wr. repeat split; try assumption.
    unfold put_file. simpl. rewrite Hfs.
    set (d := json_dumps E None (PDict final)).
    assert (forall (V : Type) k (v1 v2 : V) d0,
              PyDict.set k v2 (PyDict.set k v1 d0) = PyDict.set k v2 d0) as Hss.
    { intros V k v1 v2 d0. induction d0 as [|[k0 v0] d0 IH]; simpl.
      - now rewrite String.eqb_refl.
      - destruct (String.eqb k k0) eqn:Hk; simpl.
        + now rewrite String.eqb_refl.
        + now rewrite Hk, IH. }
    now rewrite !Hss.
Qed.


(** ** The analysis stages on their own *)

Lemma new_output_app w w' ls : stdout w' = stdout w ++ ls -> new_output w w' = ls.
Proof. intros H. unfold new_output. rewrite H. apply drop_app_length. Qed.

Lemma analysis_prompt_returns E s a st :
  analysis_of s = Some a ->
  (forall field, In field (stage_inputs s) -> is_Some (PyDict.get field st)) ->
  exists p, forall w, an_prompt a E st w = (Returns p, w).
Proof.
  intros Ha Hin.
  assert (forall field, In field (stage_inputs s) ->
            exists v, forall w, getitem field st w = (Returns v, w)) as Hget.
  { intros field Hf. destruct (Hin field Hf) as [v Hv]. exists v. intros w.
    unfold getitem. now rewrite Hv. }
  destruct s; simpl in Ha; inversion Ha; subst a; simpl an_prompt; simpl in Hget.
  - destruct (Hget "pr_info") as [v1 H1]; [tauto|].
    eexists. intros w. unfold contextualize_prompt, bind. rewrite H1. reflexivity.
  - destruct (Hget "pr_info") as [v1 H1]; [tauto|].
    destruct (Hget "context") as [v2 H2]; [tauto|].
    eexists. intros w. unfold extract_features_prompt, bind. rewrite H1, H2. reflexivity.
  - destruct (Hget "pr_info") as [v1 H1]; [tauto|].
    destruct (Hget "context") as [v2 H2]; [tauto|].
    destruct (Hget "features") as [v3 H3]; [tauto|].
    eexists. intros w. unfold create_expert_checklist_prompt, bind.
    rewrite H1, H2, H3. reflexivity.
  - eexists. intros w. reflexivity.
Qed.

(** X5. An analysis stage whose input fields are present never raises:
    it sends exactly one generation request, whatever the answer, and no
    network request; it writes no file; it returns one key with the trimmed
    text of the first choice, or with the placeholder when the call raised,
    the response had no choice, or the content was None; and it prints the
    error line, if any, then its label and the reply. *)
Theorem X5_analysis_stage_contract (E : Env) (s : Stage) (a : Analysis)
    (st : dict) (w : World) :
  analysis_of s = Some a ->
  (forall field, In field (stage_inputs s) -> is_Some (PyDict.get field st)) ->
  exists p result w',
    stage_fn E s st w = (Returns [(an_key a, PStr (reply_of result))], w')
    /\ result = chat_create E (length (gen_log w)) (request_of a p)
    /\ new_generations w w' = [(request_of a p, result)]
    /\ new_output w w' = stage_output a result
    /\ net_log w' = net_log w
    /\ fs w' = fs w
    /\ node_log w' = node_log w.
Proof.
  intros Ha Hin. destruct (analysis_prompt_returns E s a st Ha Hin) as [p Hp].
  exists p, (chat_create E (length (gen_log w)) (request_of a p)).
  eexists. rewrite (stage_fn_analysis E s a Ha), (run_analysis_returns E a st w p (Hp w)).
  split; [reflexivity|]. split; [reflexivity|].
  unfold after_generate, stage_output.
  destruct (failure_of (chat_create E (length (gen_log w)) (request_of a p))) eqn:Hf.
  - repeat split.
    + now apply new_generations_app.
    + apply new_output_app. simpl. now rewrite <- app_assoc.
  - repeat split.
    + now apply new_generations_app.
    + now apply new_output_app.
Qed.

Lemma X5_witness :
  exists p result w',
    stage_fn (Demo.env Demo.github Demo.always_fails IgnoreUndeclared) ExtractFeatures
      (initial_state Demo.reference) empty_world
    = (Returns [("features", PStr (reply_of result))], w')
    /\ result = chat_create (Demo.env Demo.github Demo.always_fails IgnoreUndeclared)
                  (length (gen_log empty_world))
                  (request_of {| an_prompt := extract_features_prompt;
                                 an_role := reviewer_role; an_temperature := 6 # 10;
                                 an_label := "features: "; an_key := "features" |} p)
    /\ new_generations empty_world w'
       = [(request_of {| an_prompt := extract_features_prompt;
                         an_role := reviewer_role; an_temperature := 6 # 10;
                         an_label := "features: "; an_key := "features" |} p, result)]
    /\ new_output empty_world w'
       = stage_output {| an_prompt := extract_features_prompt;
                         an_role := reviewer_role; an_temperature := 6 # 10;
                         an_label := "features: "; an_key := "features" |} result
    /\ net_log w' = net_log empty_world
    /\ fs w' = fs empty_world
    /\ node_log w' = node_log empty_world.
Proof.
  apply (X5_analysis_stage_contract
           (Demo.env Demo.github Demo.always_fails IgnoreUndeclared) ExtractFeatures
           {| an_prompt := extract_features_prompt;
              an_role := reviewer_role; an_temperature := 6 # 10;
              an_label := "features: "; an_key := "features" |}
           (initial_state Demo.reference) empty_world).
  - reflexivity.
  - intros field Hf. simpl in Hf. destruct Hf as [<- | [<- | []]]; vm_compute; eauto.
Defined.

(** X6. The only way an analysis stage raises is a KeyError for one of
    its input fields that the state lacks; it then has sent nothing and
    printed nothing. The final stage, which reads no field by name, never
    raises. *)
Theorem X6_analysis_stage_faults (E : Env) (s : Stage) (a : Analysis)
    (st : dict) (w w' : World) (e : exn) :
  analysis_of s = Some a ->
  stage_fn E s st w = (Raises e, w') ->
  w' = w
  /\ exn_kind_of e = KeyError
  /\ In (exn_msg e) (stage_inputs s)
  /\ PyDict.get (exn_msg e) st = None
  /\ s <> FinalReview.
Proof.
  intros Ha. rewrite (stage_fn_analysis E s a Ha). unfold run_analysis. intros H.
  apply bind_cases in H as [(e' & Hp & He) | (p & w1 & Hp & H)].
  - injection He as <-.
    assert (forall field w0 r w1, getitem field st w0 = (r, w1) ->
              w1 = w0 /\ (forall e0, r = Raises e0 ->
                            e0 = Exn KeyError field /\ PyDict.get field st = None)) as Hget.
    { intros field w0 r w1. unfold getitem.
      destruct (PyDict.get field st); intros Hr; injection Hr as <- <-;
        (split; [reflexivity|]); intros e0 He0; [discriminate|].
      injection He0 as <-. now split. }
    destruct s; simpl in Ha; inversion Ha; subst a; simpl an_prompt in Hp.
    + unfold contextualize_prompt in Hp.
      apply bind_cases in Hp as [(e1 & Hg & He1) | (v & w1 & _ & Hr)]; [|discriminate].
      injection He1 as <-. apply Hget in Hg as [-> Hg].
      destruct (Hg _ eq_refl) as [-> Hnone]. simpl. repeat split; auto; discriminate.
    + unfold extract_features_prompt in Hp.
      apply bind_cases in Hp as [(e1 & Hg & He1) | (v & w1 & Hg1 & Hp)].
      { injection He1 as <-. apply Hget in Hg as [-> Hg].
        destruct (Hg _ eq_refl) as [-> Hnone]. simpl. repeat split; auto; discriminate. }
      apply Hget in Hg1 as [-> _].
      apply bind_cases in Hp as [(e1 & Hg & He1) | (v2 & w1 & _ & Hr)]; [|discriminate].
      injection He1 as <-. apply Hget in Hg as [-> Hg].
      destruct (Hg _ eq_refl) as [-> Hnone]. simpl. repeat split; auto; discriminate.
    + unfold create_expert_checklist_prompt in Hp.
      apply bind_cases in Hp as [(e1 & Hg & He1) | (v & w1 & Hg1 & Hp)].
      { injection He1 as <-. apply Hget in Hg as [-> Hg].
        destruct (Hg _ eq_refl) as [-> Hnone]. simpl. repeat split; auto; discriminate. }
      apply Hget in Hg1 as [-> _].
      apply bind_cases in Hp as [(e1 & Hg & He1) | (v2 & w1 & Hg2 & Hp)].
      { injection He1 as <-. apply Hget in Hg as [-> Hg].
        destruct (Hg _ eq_refl) as [-> Hnone]. simpl. repeat split; auto; discriminate. }
      apply Hget in Hg2 as [-> _].
      apply bind_cases in Hp as [(e1 & Hg & He1) | (v3 & w1 & _ & Hr)]; [|discriminate].
      injection He1 as <-. apply Hget in Hg as [-> Hg].
      destruct (Hg _ eq_refl) as [-> Hnone]. simpl. repeat split; auto; discriminate.
    + discriminate.
  - exfalso. unfold bind in H. rewrite generate_run in H. discriminate.
Qed.

Lemma X6_witness :
  empty_world = empty_world
  /\ exn_kind_of (Exn KeyError "context") = KeyError
  /\ In (exn_msg (Exn KeyError "context")) (stage_inputs ExtractFeatures)
  /\ PyDict.get (exn_msg (Exn KeyError "context")) [("pr_info", PStr "x")] = None
  /\ ExtractFeatures <> FinalReview.
Proof.
  apply (X6_analysis_stage_faults
           (Demo.env Demo.github Demo.always_answers IgnoreUndeclared) ExtractFeatures
           {| an_prompt := extract_features_prompt;
              an_role := reviewer_role; an_temperature := 6 # 10;
              an_label := "features: "; an_key := "features" |}
           [("pr_info", PStr "x")] empty_world empty_world (Exn KeyError "context")).
  - reflexivity.
  - vm_compute. reflexivity.
Defined.

(** ** What the gather stage does to the world *)

Lemma net_only_pure {A} h (m : M A) : pure m -> net_only h m.
Proof.
  intros Hm w r w' H. apply Hm in H as ->. exists []. split; [|constructor].
  now rewrite with_net_nil.
Qed.

Lemma net_only_bind {A B} h (m : M A) (f : A -> M B) :
  net_only h m -> (forall a, net_only h (f a)) -> net_only h (bind m f).
Proof.
  intros Hm Hf w r w' H.
  apply bind_cases in H as [(e & He & _) | (a & w1 & Ha & Hk)].
  - now apply Hm in He.
  - apply Hm in Ha as (c1 & -> & H1). apply Hf in Hk as (c2 & -> & H2).
    exists (c1 ++ c2). split; [apply with_net_app | now apply Forall_app].
Qed.

Lemma net_only_requests_get E url h : net_only h (requests_get E url h).
Proof.
  intros w r w' H. apply requests_get_world in H as [_ ->].
  eexists. split; [reflexivity|]. now repeat constructor.
Qed.

Lemma net_only_gather_file E h file diffs : net_only h (gather_file E h file diffs).
Proof.
  unfold gather_file.
  apply net_only_bind; [apply net_only_pure, pure_py_subscript | intros filename].
  apply net_only_bind; [apply net_only_pure, pure_py_get | intros patch].
  apply net_only_bind; [apply net_only_pure, pure_py_subscript | intros raw_url].
  apply net_only_bind; [apply net_only_requests_get | intros resp].
  apply net_only_bind; [apply net_only_pure, pure_lift | intros ct].
  apply net_only_bind; [apply net_only_pure, pure_skip_file | intros [|]].
  - apply net_only_pure, pure_ret.
  - apply net_only_bind; [apply net_only_pure, pure_decode_utf8 | intros text].
    apply net_only_bind; [apply net_only_pure, pure_dict_key | intros name].
    apply net_only_pure, pure_ret.
Qed.

Lemma net_only_gather_files E h files : forall diffs, net_only h (gather_files E h files diffs).
Proof.
  induction files as [|file files IH]; intros diffs; simpl.
  - apply net_only_pure, pure_ret.
  - apply net_only_bind; [apply net_only_gather_file | intros d; apply IH].
Qed.

Lemma net_only_fetch_pr_data E st : net_only (request_headers E) (fetch_pr_data E st).
Proof.
  unfold fetch_pr_data.
  apply net_only_bind; [apply net_only_pure, pure_extract_reference | intros [[o r] n]].
  apply net_only_bind; [apply net_only_requests_get | intros resp].
  apply net_only_bind; [apply net_only_pure, pure_lift | intros pr_data].
  do 4 (apply net_only_bind; [apply net_only_pure, pure_py_get | intros ?]).
  apply net_only_bind; [apply net_only_pure, pure_py_add_str | intros files_url].
  apply net_only_bind; [apply net_only_requests_get | intros fresp].
  apply net_only_bind; [apply net_only_pure, pure_lift | intros fd].
  apply net_only_pure, pure_ret.
Qed.

Lemma net_only_gather_pr_info E st : net_only (request_headers E) (gather_pr_info E st).
Proof.
  unfold gather_pr_info.
  apply net_only_bind; [apply net_only_fetch_pr_data | intros [d fd]].
  apply net_only_bind; [apply net_only_pure, pure_py_iter | intros files].
  apply net_only_bind; [apply net_only_gather_files | intros diffs].
  apply net_only_pure, pure_ret.
Qed.

(** X7. However it ends, the gather stage only talks to the network: it
    makes no generation call, prints nothing and writes no file. Every
    request it sends, the raw-content requests to the URLs taken from the
    listing included, carries the same two headers, the Authorization
    header holding the access token. *)
Theorem X7_gather_effects (E : Env) (st : dict) (w w' : World) (r : outcome dict)
    (token : string) :
  getenv E "GITHUB_PERSONAL_ACCESS" = Some token ->
  gather_pr_info E st w = (r, w') ->
  gen_log w' = gen_log w
  /\ stdout w' = stdout w
  /\ fs w' = fs w
  /\ Forall (fun c => nc_headers c
                      = [("Accept", "application/vnd.github.v3+json");
                         ("Authorization", "token " +:+ token)])
            (new_calls w w').
Proof.
  intros Htok H. apply net_only_gather_pr_info in H as (calls & -> & Hall).
  repeat split. rewrite new_calls_with_net.
  unfold request_headers, GITHUB_PERSONAL_ACCESS in Hall. now rewrite Htok in Hall.
Qed.

Lemma X7_witness :
  let E := Demo.env Demo.github Demo.always_answers IgnoreUndeclared in
  let w' := snd (gather_pr_info E (initial_state Demo.reference) empty_world) in
  gen_log w' = gen_log empty_world
  /\ stdout w' = stdout empty_world
  /\ fs w' = fs empty_world
  /\ Forall (fun c => nc_headers c
                      = [("Accept", "application/vnd.github.v3+json");
                         ("Authorization", "token " +:+ "secret")])
            (new_calls empty_world w').
Proof.
  intros E w'.
  apply (X7_gather_effects E (initial_state Demo.reference) empty_world w'
           (fst (gather_pr_info E (initial_state Demo.reference) empty_world)) "secret").
  - reflexivity.
  - vm_compute. reflexivity.
Defined.

(** ** The reference *)

Lemma rstrip_char_repeat c n : PyStr.rstrip_char c (PyStr.repeat_char c n) = EmptyString.
Proof. induction n as [|n IH]; simpl; [reflexivity|]. now rewrite IH, Ascii.eqb_refl. Qed.

Lemma rstrip_char_append c s n :
  PyStr.rstrip_char c (s +:+ PyStr.repeat_char c n) = PyStr.rstrip_char c s.
Proof.
  induction s as [|a s IH]; simpl.
  - apply rstrip_char_repeat.
  - now rewrite IH.
Qed.

(** X8. Trailing slashes do not matter: a reference followed by any
    number of '/' is decomposed exactly as the reference itself, into the
    same segments and the same owner, repository and number, or the same
    exception. *)
Theorem X8_trailing_slashes_ignored (url : string) (n : nat) (w : World) :
  url_segments (url +:+ PyStr.repeat_char PyStr.slash n) = url_segments url
  /\ extract_reference (initial_state (url +:+ PyStr.repeat_char PyStr.slash n)) w
     = extract_reference (initial_state url) w.
Proof.
  assert (url_segments (url +:+ PyStr.repeat_char PyStr.slash n) = url_segments url) as Hs.
  { unfold url_segments. now rewrite rstrip_char_append. }
  split; [exact Hs|].
  unfold extract_reference, bind. simpl. now rewrite Hs.
Qed.

Lemma split_char_last_nonempty sep s x :
  s <> EmptyString ->
  PyStr.endswith (String sep EmptyString) s = false ->
  last (PyStr.split_char sep s) = Some x ->
  x <> EmptyString.
Proof.
  revert x. induction s as [|a s IH]; intros x Hne Hend Hlast; [contradiction|].
  destruct s as [|b s].
  - simpl in Hlast. destruct (Ascii.eqb a sep) eqn:Ha.
    + apply Ascii.eqb_eq in Ha as ->.
      assert (PyStr.endswith (String sep EmptyString) (String sep EmptyString) = true) as Ht
        by (apply PyStrFacts.endswith_spec; now exists EmptyString).
      congruence.
    + simpl in Hlast. injection Hlast as <-. discriminate.
  - assert (PyStr.endswith (String sep EmptyString) (String b s) = false) as Hend'.
    { change (PyStr.endswith (String sep EmptyString) (String a (String b s)))
        with (if String.eqb (String a (String b s)) (String sep EmptyString) then true
              else PyStr.endswith (String sep EmptyString) (String b s)) in Hend.
      destruct (String.eqb (String a (String b s)) (String sep EmptyString));
        [discriminate | exact Hend]. }
    specialize (IH x ltac:(discriminate) Hend').
    pose proof (PyStrFacts.split_char_nonempty sep (String b s)) as Hnil.
    change (PyStr.split_char sep (String a (String b s)))
      with (if Ascii.eqb a sep then EmptyString :: PyStr.split_char sep (String b s)
            else match PyStr.split_char sep (String b s) with
                 | [] => [String a EmptyString]
                 | h :: t => String a h :: t
                 end) in Hlast.
    destruct (PyStr.split_char sep (String b s)) as [|h t] eqn:Hsp; [contradiction|].
    destruct (Ascii.eqb a sep).
    + apply IH. exact Hlast.
    + destruct t as [|h' t].
      * simpl in Hlast. injection Hlast as <-. discriminate.
      * apply IH. exact Hlast.
Qed.

Lemma list_index_returns {A} (l : list A) (i : Z) (x : A) (w w' : World) :
  list_index l i w = (Returns x, w') ->
  w' = w /\ In x l /\ (i = (-1)%Z -> last l = Some x).
Proof.
  unfold list_index.
  set (j := if (i <? 0)%Z then (i + Z.of_nat (length l))%Z else i).
  destruct ((j <? 0)%Z || (Z.of_nat (length l) <=? j)%Z) eqn:Hb; [discriminate|].
  destruct (l !! Z.to_nat j) as [y|] eqn:Hy; [|discriminate].
  intros H. injection H as <- <-. split; [reflexivity|]. split.
  - apply list_elem_of_In. eapply list_elem_of_lookup_2. exact Hy.
  - intros ->. rewrite last_lookup. rewrite <- Hy. f_equal.
    subst j. simpl. lia.
Qed.

(** X9. Whenever the decomposition returns, the number is not empty and
    none of owner, repository and number contains a '/'. *)
Theorem X9_reference_parts_clean (st : dict) (w w' : World)
    (owner repo number : string) :
  extract_reference st w = (Returns (owner, repo, number), w') ->
  number <> EmptyString
  /\ PyStr.occurs PyStr.slash owner = false
  /\ PyStr.occurs PyStr.slash repo = false
  /\ PyStr.occurs PyStr.slash number = false.
Proof.
  unfold extract_reference. intros H.
  apply bind_returns in H as (v & w1 & _ & H).
  apply bind_returns in H as (url & w2 & _ & H).
  apply bind_returns in H as (o & w3 & Ho & H).
  apply bind_returns in H as (r & w4 & Hr & H).
  apply bind_returns in H as (nb & w5 & Hn & H).
  injection H as <- <- <- _.
  pose proof Ho as Ho'.
  apply list_index_returns in Ho as (_ & Hino & _).
  apply list_index_returns in Hr as (_ & Hinr & _).
  apply list_index_returns in Hn as (_ & Hinn & Hlast).
  specialize (Hlast eq_refl). unfold url_segments in *.
  repeat split; try (eapply PyStrFacts.split_char_no_sep; eassumption).
  destruct (PyStrFacts.rstrip_char_spec PyStr.slash url) as (k & _ & Hend).
  eapply (split_char_last_nonempty PyStr.slash); [|exact Hend | exact Hlast].
  intros Hempty. unfold url_segments in Ho'. rewrite Hempty in Ho'.
  vm_compute in Ho'. discriminate.
Qed.

Lemma X9_witness :
  "106" <> EmptyString
  /\ PyStr.occurs PyStr.slash "ai-cfia" = false
  /\ PyStr.occurs PyStr.slash "fertiscan-backend" = false
  /\ PyStr.occurs PyStr.slash "106" = false.
Proof.
  apply (X9_reference_parts_clean (initial_state Demo.reference) empty_world empty_world
           "ai-cfia" "fertiscan-backend" "106").
  vm_compute. reflexivity.
Defined.

(** ** The gather loop, further *)




Lemma fold_store_unkept (facts : list Fetched) : forall (diffs : dict) (name : string),
  (forall g, In g facts -> f_name g = PStr name -> kept g = false) ->
  PyDict.get name (fold_left store facts diffs) = PyDict.get name diffs.
Proof.
  induction facts as [|f facts IH]; intros diffs name Hno; simpl; [reflexivity|].
  rewrite IH by (intros g Hg; apply Hno; now right).
  rewrite store_get. destruct (kept f) eqn:Hk; [|reflexivity].
  destruct (f_name f) eqn:Hn; try reflexivity.
  destruct (String.eqb s name) eqn:Hs; [|reflexivity].
  apply String.eqb_eq in Hs as ->.
  rewrite (Hno f (or_introl eq_refl) Hn) in Hk. discriminate.
Qed.

Lemma fold_store_last (facts : list Fetched) :
  forall (diffs : dict) (i : nat) (f : Fetched) (name : string),
  facts !! i = Some f ->
  f_name f = PStr name ->
  kept f = true ->
  (forall j g, i < j -> facts !! j = Some g -> f_name g = PStr name -> kept g = false) ->
  PyDict.get name (fold_left store facts diffs) = Some (diff_entry f).
Proof.
  induction facts as [|g facts IH]; intros diffs i f name Hi Hn Hk Hlater; [discriminate|].
  destruct i as [|i]; simpl in *.
  - injection Hi as ->. rewrite fold_store_unkept.
    + now rewrite store_get, Hk, Hn, String.eqb_refl.
    + intros g Hg Hgn. apply list_elem_of_In, list_elem_of_lookup in Hg as [j Hj].
      apply (Hlater (S j)); [lia | exact Hj | exact Hgn].
  - apply (IH _ i); try assumption.
    intros j g' Hij Hj. apply (Hlater (S j)); [lia | exact Hj].
Qed.

(** X11. When a file name is listed more than once, the entry of [diffs]
    is that of the last listed file of that name that is kept: a later
    kept file replaces an earlier one. *)
Theorem X11_last_kept_entry_wins (E : Env) (st update : dict) (w w1 w' : World)
    (description : pyval) (files : list pyval) (i : nat) (file : pyval)
    (f : Fetched) (name : string) :
  fetch_pr_data E st w = (Returns (description, PList files), w1) ->
  gather_pr_info E st w = (Returns update, w') ->
  files !! i = Some file ->
  fetch_fact E (length (net_log w1) + i) (request_headers E) file = Some f ->
  f_name f = PStr name ->
  kept f = true ->
  (forall j file' f',
     i < j -> files !! j = Some file' ->
     fetch_fact E (length (net_log w1) + j) (request_headers E) file' = Some f' ->
     f_name f' = PStr name -> kept f' = false) ->
  exists diffs,
    update = [("pr_info", PDict [("description", description); ("diffs", PDict diffs)])]
    /\ PyDict.get name diffs = Some (diff_entry f).
Proof.
  intros Hfetch Hrun Hfile Hfact Hn Hk Hlater.
  apply gather_pr_info_returns in Hrun
    as (d & fd & fl & facts & w1' & Hfetch' & Hiter & Hfacts & _ & -> & _).
  rewrite Hfetch in Hfetch'. injection Hfetch' as <- <- <-.
  simpl in Hiter. injection Hiter as <-.
  eexists. split; [reflexivity|].
  destruct (fetch_facts_lookup _ _ _ _ _ Hfacts) as [Hlen Hlookup].
  destruct (Hlookup i file Hfile) as (f0 & Hf0 & Hfact0).
  rewrite Hfact in Hfact0. injection Hfact0 as <-.
  apply (fold_store_last facts [] i f name Hf0 Hn Hk).
  intros j g Hij Hg Hgn.
  assert (is_Some (files !! j)) as [file' Hfile'].
  { apply lookup_lt_is_Some. rewrite <- Hlen. apply lookup_lt_is_Some. now exists g. }
  destruct (Hlookup j file' Hfile') as (g' & Hg' & Hfact').
  rewrite Hg in Hg'. injection Hg' as <-.
  exact (Hlater j file' g Hij Hfile' Hfact' Hgn).
Qed.

Lemma X11_witness :
  exists diffs,
    [("pr_info",
      PDict [("description", PStr "Adds a label parser");
             ("diffs",
              PDict [("app.py",
                      PDict [("patch", PStr "@@ -1 +1 @@");
                             ("content", PStr "print(2)")])])])]
    = [("pr_info", PDict [("description", PStr "Adds a label parser");
                          ("diffs", PDict diffs)])]
    /\ PyDict.get "app.py" diffs
       = Some (diff_entry {| f_name := PStr "app.py"; f_patch := PStr "@@ -1 +1 @@";
                             f_content := "print(2)"; f_type := "text/plain" |}).
Proof.
  apply (X11_last_kept_entry_wins
           (Demo.env Demo2.github_twice Demo.always_answers IgnoreUndeclared)
           (initial_state Demo.reference) _ empty_world
           (snd (fetch_pr_data (Demo.env Demo2.github_twice Demo.always_answers IgnoreUndeclared)
                   (initial_state Demo.reference) empty_world))
           (snd (gather_pr_info (Demo.env Demo2.github_twice Demo.always_answers IgnoreUndeclared)
                   (initial_state Demo.reference) empty_world))
           (PStr "Adds a label parser") Demo2.twice_listing 1
           (Demo.file_entry "app.py" "https://raw.example/new/app.py")).
  - vm_compute. reflexivity.
  - vm_compute. reflexivity.
  - reflexivity.
  - vm_compute. reflexivity.
  - reflexivity.
  - vm_compute. reflexivity.
  - intros j file' f' Hj Hfile. destruct j as [|[|j]]; [lia | lia | discriminate].
Defined.

(** ** Answers the fetcher does not expect *)

(** X12. When the answer to the metadata request is a JSON object without
    a "_links" member, as GitHub's error bodies are, the gather stage
    raises TypeError on building the listing URL, after that one request;
    the response is not examined for an error. *)
Theorem X12_metadata_without_links (E : Env) (st : dict) (w : World)
    (reference : string * string * string) (resp : Response)
    (d : list (string * pyval)) :
  extract_reference st w = (Returns reference, w) ->
  http_get E (length (net_log w)) (nc_url (metadata_call E reference)) (request_headers E)
    = Returns resp ->
  resp_json resp = Returns (PDict d) ->
  PyDict.get "_links" d = None ->
  exists e,
    gather_pr_info E st w = (Raises e, with_net [metadata_call E reference] w)
    /\ exn_kind_of e = TypeError.
Proof.
  intros Href Hget Hjson Hlinks. destruct reference as [[owner repo] number].
  simpl in Hget.
  unfold gather_pr_info, fetch_pr_data. unfold bind at 1. unfold bind at 1.
  rewrite Href. unfold bind at 1. unfold requests_get. rewrite Hget.
  unfold bind, lift. rewrite Hjson. simpl. rewrite Hlinks. simpl.
  eexists. split; reflexivity.
Qed.

Lemma X12_witness :
  exists e,
    gather_pr_info (Demo.env Demo2.github_denied Demo.always_answers IgnoreUndeclared)
      (initial_state Demo.reference) empty_world
    = (Raises e,
       with_net [metadata_call
                   (Demo.env Demo2.github_denied Demo.always_answers IgnoreUndeclared)
                   ("ai-cfia", "fertiscan-backend", "106")] empty_world)
    /\ exn_kind_of e = TypeError.
Proof.
  apply (X12_metadata_without_links
           (Demo.env Demo2.github_denied Demo.always_answers IgnoreUndeclared)
           (initial_state Demo.reference) empty_world
           ("ai-cfia", "fertiscan-backend", "106")
           {| resp_content := "{...}"; resp_json := Returns Demo2.error_body |}
           [("message", PStr "Bad credentials");
            ("documentation_url", PStr "https://docs.github.com/rest")]).
  - vm_compute. reflexivity.
  - reflexivity.
  - reflexivity.
  - reflexivity.
Defined.

(** X13. When the answer to the listing request is a non-empty JSON
    object instead of an array, the loop iterates over its keys and the
    gather stage raises TypeError on the first one, without sending any
    raw-content request. *)
Theorem X13_listing_is_an_object (E : Env) (st : dict) (w w1 : World)
    (description : pyval) (k : string) (v : pyval) (d : list (string * pyval)) :
  fetch_pr_data E st w = (Returns (description, PDict ((k, v) :: d)), w1) ->
  exists e,
    gather_pr_info E st w = (Raises e, w1)
    /\ exn_kind_of e = TypeError.
Proof.
  intros Hfetch. unfold gather_pr_info, bind. rewrite Hfetch. simpl.
  eexists. split; reflexivity.
Qed.

Lemma X13_witness :
  exists e,
    gather_pr_info (Demo.env Demo2.github_listing_denied Demo.always_answers IgnoreUndeclared)
      (initial_state Demo.reference) empty_world
    = (Raises e,
       snd (fetch_pr_data
              (Demo.env Demo2.github_listing_denied Demo.always_answers IgnoreUndeclared)
              (initial_state Demo.reference) empty_world))
    /\ exn_kind_of e = TypeError.
Proof.
  apply (X13_listing_is_an_object
           (Demo.env Demo2.github_listing_denied Demo.always_answers IgnoreUndeclared)
           (initial_state Demo.reference) empty_world _
           (PStr "Adds a label parser") "message" (PStr "Bad credentials")
           [("documentation_url", PStr "https://docs.github.com/rest")]).
  vm_compute. reflexivity.
Defined.

(** X14. A pull request with no changed file is not an error: when the
    listing is the empty array, the gather stage returns the description
    with an empty [diffs] and sends nothing after the listing request. *)
Theorem X14_empty_listing (E : Env) (st : dict) (w w1 : World) (description : pyval) :
  fetch_pr_data E st w = (Returns (description, PList []), w1) ->
  gather_pr_info E st w
  = (Returns [("pr_info", PDict [("description", description); ("diffs", PDict [])])], w1)
  /\ length (new_calls w w1) = 2.
Proof.
  intros Hfetch. split.
  - unfold gather_pr_info, bind. rewrite Hfetch. reflexivity.
  - apply fetch_pr_data_returns in Hfetch as (reference & files_url & _ & ->).
    now rewrite new_calls_with_net.
Qed.

Lemma X14_witness :
  let E := Demo.env Demo2.github_no_files Demo.always_answers IgnoreUndeclared in
  let w1 := snd (fetch_pr_data E (initial_state Demo.reference) empty_world) in
  gather_pr_info E (initial_state Demo.reference) empty_world
  = (Returns [("pr_info", PDict [("description", PStr "Adds a label parser");
                                 ("diffs", PDict [])])], w1)
  /\ length (new_calls empty_world w1) = 2.
Proof.
  intros E w1.
  apply (X14_empty_listing E (initial_state Demo.reference) empty_world w1
           (PStr "Adds a label parser")).
  vm_compute. reflexivity.
Defined.

(** ** The generation requests of a run *)

Lemma contains_middle (l x r : string) : PyStr.contains x (l +:+ x +:+ r) = true.
Proof. apply PyStrFacts.contains_spec. now exists l, r. Qed.

(** X15. Each stage's prompt carries what the stages before it produced,
    as text: the first two prompts contain [json.dumps] of the gathered
    information, the second and third contain the first reply, the third
    contains the second reply, and the last contains the [repr] of the whole
    state the final stage received. A placeholder stored by a failed stage
    travels on in the same way. *)
Theorem X15_prompts_carry_earlier_replies (E : Env) (url : string) (w w' : World)
    (r : outcome dict) (info : pyval) :
  app_invoke E (initial_state url) w = (r, w') ->
  In (NodeEnd "gather_pr_info" [("pr_info", info)]) (new_events w w') ->
  exists q1 r1 q2 r2 q3 r3 q4 r4,
    new_generations w w' = [(q1, r1); (q2, r2); (q3, r3); (q4, r4)]
    /\ PyStr.contains (json_dumps E (Some 2) info) (cr_user q1) = true
    /\ PyStr.contains (json_dumps E (Some 2) info) (cr_user q2) = true
    /\ PyStr.contains (reply_of r1) (cr_user q2) = true
    /\ PyStr.contains (reply_of r1) (cr_user q3) = true
    /\ PyStr.contains (reply_of r2) (cr_user q3) = true
    /\ PyStr.contains
         (py_repr E (PDict (analysed_state url info (reply_of r1) (reply_of r2) (reply_of r3))))
         (cr_user q4) = true.
Proof.
  intros Hrun Hin.
  apply run_summary in Hrun as [(e & calls & _ & _ & ->) | Hrun].
  { rewrite (new_events_app _ _ [NodeStart "gather_pr_info" (initial_state url)]) in Hin
      by reflexivity.
    destruct Hin as [Hin | []]. discriminate. }
  destruct Hrun as (info' & wg & calls & r1 & r2 & r3 & r4 & _ & _ & _ & _ & _ & _ & _
                    & Hlog & Hgen & _).
  rewrite (new_events_app _ _ _ Hlog) in Hin. apply completed_events_gather in Hin as ->.
  rewrite (new_generations_app _ _ _ Hgen).
  eexists _, r1, _, r2, _, r3, _, r4. split; [reflexivity|].
  unfold chat_request. cbn [cr_user].
  unfold contextualize_text, extract_features_text, create_expert_checklist_text,
    final_review_text.
  repeat split.
  - apply contains_middle.
  - apply contains_middle.
  - apply PyStrFacts.contains_spec.
    exists (features_prompt_0 +:+ json_dumps E (Some 2) info' +:+ features_prompt_1),
           features_prompt_2.
    now rewrite !PyStrFacts.append_assoc.
  - apply PyStrFacts.contains_spec.
    exists (checklist_prompt_0 +:+ py_format E info' +:+ checklist_prompt_1),
           (checklist_prompt_2 +:+ reply_of r2 +:+ checklist_prompt_3).
    now rewrite !PyStrFacts.append_assoc.
  - apply PyStrFacts.contains_spec.
    exists (checklist_prompt_0 +:+ py_format E info' +:+ checklist_prompt_1
            +:+ reply_of r1 +:+ checklist_prompt_2),
           checklist_prompt_3.
    now rewrite !PyStrFacts.append_assoc.
  - apply contains_middle.
Qed.

Lemma X15_witness :
  let E := Demo.env Demo.github Demo.always_fails IgnoreUndeclared in
  let w' := snd (app_invoke E (initial_state Demo.reference) empty_world) in
  exists q1 r1 q2 r2 q3 r3 q4 r4,
    new_generations empty_world w' = [(q1, r1); (q2, r2); (q3, r3); (q4, r4)]
    /\ PyStr.contains (json_dumps E (Some 2) Demo.gathered_info) (cr_user q1) = true
    /\ PyStr.contains (json_dumps E (Some 2) Demo.gathered_info) (cr_user q2) = true
    /\ PyStr.contains (reply_of r1) (cr_user q2) = true
    /\ PyStr.contains (reply_of r1) (cr_user q3) = true
    /\ PyStr.contains (reply_of r2) (cr_user q3) = true
    /\ PyStr.contains
         (py_repr E (PDict (analysed_state Demo.reference Demo.gathered_info
                              (reply_of r1) (reply_of r2) (reply_of r3))))
         (cr_user q4) = true.
Proof.
  intros E w'.
  apply (X15_prompts_carry_earlier_replies E Demo.reference empty_world w'
           (fst (app_invoke E (initial_state Demo.reference) empty_world))
           Demo.gathered_info).
  - vm_compute. reflexivity.
  - vm_compute. right. left. reflexivity.
Defined.

(** X16. A run sends either no generation request, when the gather stage
    raises, or exactly four, one per analysis stage and in stage order, the
    k-th answered as the k-th call of the run: all four name the model
    gpt-4o and a limit of 4095 tokens, with the reviewer role twice, the
    checklist role and the final role, at temperatures 0.6, 0.6, 0.6 and
    0.7. No request is repeated after a failure. *)
Theorem X16_generation_requests (E : Env) (url : string) (w w' : World)
    (r : outcome dict) :
  app_invoke E (initial_state url) w = (r, w') ->
  (new_generations w w' = []
   /\ (exists e, r = Raises e)
   /\ ~ (exists update, In (NodeEnd "gather_pr_info" update) (new_events w w')))
  \/ ((exists update, In (NodeEnd "gather_pr_info" update) (new_events w w'))
      /\ map (fun x => cr_model (fst x)) (new_generations w w')
         = ["gpt-4o"; "gpt-4o"; "gpt-4o"; "gpt-4o"]
      /\ map (fun x => cr_max_tokens (fst x)) (new_generations w w')
         = [4095; 4095; 4095; 4095]%Z
      /\ map (fun x => cr_system (fst x)) (new_generations w w')
         = [reviewer_role; reviewer_role; checklist_role; final_role]
      /\ map (fun x => cr_temperature (fst x)) (new_generations w w')
         = [6 # 10; 6 # 10; 6 # 10; 7 # 10]
      /\ forall k q res,
           new_generations w w' !! k = Some (q, res) ->
           res = chat_create E (length (gen_log w) + k) q).
Proof.
  intros Hrun.
  apply run_summary in Hrun as [(e & calls & _ & -> & ->) | Hrun].
  - left. split; [now apply new_generations_app; simpl; rewrite app_nil_r|].
    split; [now exists e|].
    rewrite (new_events_app _ _ [NodeStart "gather_pr_info" (initial_state url)]) by reflexivity.
    intros [update [Hin | []]]. discriminate.
  - right.
    destruct Hrun as (info & wg & calls & r1 & r2 & r3 & r4 & _ & _ & H1 & H2 & H3 & H4 & _
                      & Hlog & Hgen & _).
    rewrite (new_events_app _ _ _ Hlog), (new_generations_app _ _ _ Hgen).
    split; [exists [("pr_info", info)]; unfold completed_events; simpl; tauto|].
    repeat split.
    intros k q res Hk.
    destruct k as [|[|[|[|k]]]]; simpl in Hk; try discriminate; injection Hk as <- <-.
    + now rewrite Nat.add_0_r.
    + now replace (length (gen_log w) + 1) with (S (length (gen_log w))) by lia.
    + now replace (length (gen_log w) + 2) with (S (S (length (gen_log w)))) by lia.
    + now replace (length (gen_log w) + 3) with (S (S (S (length (gen_log w))))) by lia.
Qed.

Lemma X16_witness :
  let E := Demo.env Demo.github Demo.last_fails IgnoreUndeclared in
  let r := fst (app_invoke E (initial_state Demo.reference) empty_world) in
  let w' := snd (app_invoke E (initial_state Demo.reference) empty_world) in
  (new_generations empty_world w' = []
   /\ (exists e, r = Raises e)
   /\ ~ (exists update, In (NodeEnd "gather_pr_info" update) (new_events empty_world w')))
  \/ ((exists update, In (NodeEnd "gather_pr_info" update) (new_events empty_world w'))
      /\ map (fun x => cr_model (fst x)) (new_generations empty_world w')
         = ["gpt-4o"; "gpt-4o"; "gpt-4o"; "gpt-4o"]
      /\ map (fun x => cr_max_tokens (fst x)) (new_generations empty_world w')
         = [4095; 4095; 4095; 4095]%Z
      /\ map (fun x => cr_system (fst x)) (new_generations empty_world w')
         = [reviewer_role; reviewer_role; checklist_role; final_role]
      /\ map (fun x => cr_temperature (fst x)) (new_generations empty_world w')
         = [6 # 10; 6 # 10; 6 # 10; 7 # 10]
      /\ forall k q res,
           new_generations empty_world w' !! k = Some (q, res) ->
           res = chat_create E (length (gen_log empty_world) + k) q).
Proof.
  intros E r w'.
  apply (X16_generation_requests E Demo.reference empty_world w' r).
  vm_compute. reflexivity.
Defined.

(** X17. An exception of the fetcher is not caught: when the metadata
    request raises, the graph run raises that same exception, after this
    single request and without any generation call, and the script writes
    no file. *)
Theorem X17_fetcher_exception_propagates (E : Env) (url : string) (w : World)
    (reference : string * string * string) (e : exn) :
  extract_reference (initial_state url) w = (Returns reference, w) ->
  http_get E (length (net_log w)) (nc_url (metadata_call E reference)) (request_headers E)
    = Raises e ->
  exists w',
    app_invoke E (initial_state url) w = (Raises e, w')
    /\ new_calls w w' = [metadata_call E reference]
    /\ new_generations w w' = []
    /\ fs (snd (main E url w)) = fs w.
Proof.
  intros Href Hget.
  assert (forall w0, extract_reference (initial_state url) w0 = (Returns reference, w0)) as Href'.
  { intros w0. destruct (extract_reference (initial_state url) w0) as [r0 w1] eqn:H0.
    pose proof (pure_extract_reference _ _ _ _ H0) as ->.
    unfold extract_reference, bind, getitem, str_receiver, ret in *. simpl in *.
    unfold list_index in *.
    repeat match goal with
           | H : context [if ?b then _ else _] |- _ => destruct b
           | H : context [match ?l !! ?i with _ => _ end] |- _ => destruct (l !! i)
           end; unfold ret, raise in *; congruence. }
  destruct reference as [[owner repo] number]. simpl in Hget.
  assert (gather_pr_info E (initial_state url)
            (log_event (NodeStart "gather_pr_info" (initial_state url)) w)
          = (Raises e, with_net [metadata_call E (owner, repo, number)]
                         (log_event (NodeStart "gather_pr_info" (initial_state url)) w)))
    as Hg.
  { unfold gather_pr_info, fetch_pr_data. unfold bind at 1. unfold bind at 1.
    rewrite Href'. unfold bind at 1. unfold requests_get.
    change (length (net_log (log_event (NodeStart "gather_pr_info" (initial_state url)) w)))
      with (length (net_log w)).
    rewrite Hget. reflexivity. }
  assert (app_invoke E (initial_state url) w
          = (Raises e, with_net [metadata_call E (owner, repo, number)]
                         (log_event (NodeStart "gather_pr_info" (initial_state url)) w)))
    as Hrun.
  { rewrite app_invoke_pipeline. unfold pipeline, bind, run_stage, bind, log_node.
    simpl stage_fn. now rewrite Hg. }
  eexists. split; [exact Hrun|].
  split; [now apply new_calls_app|].
  split; [apply new_generations_app; simpl; now rewrite app_nil_r|].
  pose proof (X3_artifacts_all_or_nothing E url w) as H3.
  unfold main, bind in *.
  destruct (validate_env_vars E w) as [[e0|[]] w0] eqn:Hv;
    apply validate_env_vars_pure in Hv as ->; [reflexivity|].
  rewrite Hrun in *. exact H3.
Qed.

Lemma X17_witness :
  exists w',
    app_invoke (Demo.env Demo2.github_down Demo.always_answers IgnoreUndeclared)
      (initial_state Demo.reference) empty_world
    = (Raises (Exn CollaboratorError "Connection refused"), w')
    /\ new_calls empty_world w'
       = [metadata_call (Demo.env Demo2.github_down Demo.always_answers IgnoreUndeclared)
            ("ai-cfia", "fertiscan-backend", "106")]
    /\ new_generations empty_world w' = []
    /\ fs (snd (main (Demo.env Demo2.github_down Demo.always_answers IgnoreUndeclared)
                  Demo.reference empty_world)) = fs empty_world.
Proof.
  apply (X17_fetcher_exception_propagates
           (Demo.env Demo2.github_down Demo.always_answers IgnoreUndeclared)
           Demo.reference empty_world ("ai-cfia", "fertiscan-backend", "106")
           (Exn CollaboratorError "Connection refused")).
  - vm_compute. reflexivity.
  - reflexivity.
Defined.

Lemma py_get_returns v k dflt x w w' :
  py_get v k dflt w = (Returns x, w') ->
  w' = w /\ exists d, v = PDict d
               /\ x = match PyDict.get k d with Some y => y | None => dflt end.
Proof.
  destruct v; simpl; unfold raise, ret; intros H; try discriminate.
  injection H as <- <-. split; [reflexivity|]. now eexists.
Qed.

(** X18. When the first part of the gather stage returns, the
    description is the "body" member of the metadata answer as it is, the
    empty string when there is none, and the listing was requested from the
    "href" of "_links"."self" in that answer followed by "/files", not from
    a URL rebuilt from the reference; what it returns as the listing is the
    JSON of that second answer. *)
Theorem X18_listing_url_from_metadata (E : Env) (st : dict) (w w1 : World)
    (description files_data : pyval) :
  fetch_pr_data E st w = (Returns (description, files_data), w1) ->
  exists reference resp d links self href resp2,
    extract_reference st w = (Returns reference, w)
    /\ http_get E (length (net_log w)) (nc_url (metadata_call E reference))
         (request_headers E) = Returns resp
    /\ resp_json resp = Returns (PDict d)
    /\ description = match PyDict.get "body" d with
                     | Some body => body
                     | None => PStr EmptyString
                     end
    /\ match PyDict.get "_links" d with Some l => l | None => PDict [] end = PDict links
    /\ match PyDict.get "self" links with Some l => l | None => PDict [] end = PDict self
    /\ PyDict.get "href" self = Some (PStr href)
    /\ http_get E (S (length (net_log w))) (PStr (href +:+ "/files")) (request_headers E)
       = Returns resp2
    /\ resp_json resp2 = Returns files_data
    /\ new_calls w w1
       = [metadata_call E reference;
          {| nc_url := PStr (href +:+ "/files"); nc_headers := request_headers E |}].
Proof.
  unfold fetch_pr_data. intros H.
  apply bind_returns in H as ([[owner repo] number] & w0 & Href & H).
  pose proof (pure_extract_reference _ _ _ _ Href) as ->.
  apply bind_returns in H as (resp & w0 & Hr & H).
  apply requests_get_world in Hr as [Hresp ->].
  apply bind_returns in H as (pr_data & w0 & Hj & H).
  pose proof (pure_lift _ _ _ _ Hj) as ->. unfold lift in Hj. injection Hj as Hj.
  apply bind_returns in H as (desc & w0 & Hd & H).
  apply py_get_returns in Hd as (-> & d & -> & ->).
  apply bind_returns in H as (links & w0 & Hl & H).
  apply py_get_returns in Hl as (-> & d' & Hd' & ->). injection Hd' as <-.
  apply bind_returns in H as (self & w0 & Hs & H).
  apply py_get_returns in Hs as (-> & links & Hlinks & ->).
  apply bind_returns in H as (href & w0 & Hh & H).
  apply py_get_returns in Hh as (-> & self & Hself & ->).
  apply bind_returns in H as (files_url & w0 & Hu & H).
  pose proof (pure_py_add_str _ _ _ _ _ Hu) as ->.
  destruct (PyDict.get "href" self) as [[| | | |h| |]|] eqn:Hhref; simpl in Hu;
    unfold raise, ret in Hu; try discriminate.
  injection Hu as <-.
  apply bind_returns in H as (fresp & w0 & Hfr & H).
  apply requests_get_world in Hfr as [Hresp2 ->].
  apply bind_returns in H as (fdata & w0 & Hfd & H).
  pose proof (pure_lift _ _ _ _ Hfd) as ->. unfold lift in Hfd. injection Hfd as Hfd.
  injection H as <- <- <-.
  exists (owner, repo, number), resp, d, links, self, h, fresp.
  split; [exact Href|]. split; [now rewrite Hresp|]. split; [exact Hj|].
  split; [reflexivity|]. split; [exact Hlinks|]. split; [exact Hself|].
  split; [exact Hhref|].
  split.
  { rewrite Hresp2. simpl. rewrite length_app. simpl.
    now replace (length (net_log w) + 1) with (S (length (net_log w))) by lia. }
  split; [exact Hfd|].
  rewrite with_net_app. apply new_calls_with_net.
Qed.

Lemma X18_witness :
  let E := Demo.env Demo.github Demo.always_answers IgnoreUndeclared in
  let w1 := snd (fetch_pr_data E (initial_state Demo.reference) empty_world) in
  exists reference resp d links self href resp2,
    extract_reference (initial_state Demo.reference) empty_world
      = (Returns reference, empty_world)
    /\ http_get E (length (net_log empty_world)) (nc_url (metadata_call E reference))
         (request_headers E) = Returns resp
    /\ resp_json resp = Returns (PDict d)
    /\ PStr "Adds a label parser" = match PyDict.get "body" d with
                                    | Some body => body
                                    | None => PStr EmptyString
                                    end
    /\ match PyDict.get "_links" d with Some l => l | None => PDict [] end = PDict links
    /\ match PyDict.get "self" links with Some l => l | None => PDict [] end = PDict self
    /\ PyDict.get "href" self = Some (PStr href)
    /\ http_get E (S (length (net_log empty_world))) (PStr (href +:+ "/files"))
         (request_headers E) = Returns resp2
    /\ resp_json resp2 = Returns (PList Demo.listing)
    /\ new_calls empty_world w1
       = [metadata_call E reference;
          {| nc_url := PStr (href +:+ "/files"); nc_headers := request_headers E |}].
Proof.
  intros E w1.
  apply (X18_listing_url_from_metadata E (initial_state Demo.reference) empty_world w1
           (PStr "Adds a label parser") (PList Demo.listing)).
  vm_compute. reflexivity.
Defined.
